(** * findingmove: venue store, recommendation engine, geo helper, weather lookup

    A shallow embedding of the four utility modules of the application
    ([utils/data_manager.py], [utils/recommendation_engine.py],
    [utils/map_utils.py], [utils/weather_manager.py]) and properties of
    them: those their specification states, then the edge behaviour, the
    invariants and the agreements between functions that the code shows.

    Numbers.  Python floats that only go through [+ - * /] and comparisons
    (prices, ratings, weights, scores, wind degrees) are exact rationals
    [Q]; a NaN cell of a pandas column is [None].  The haversine distance
    needs [sin], [cos], [asin] and [sqrt] and lives in [R], with the
    coordinates.  Rounding of the machine floats is outside the model, but
    for the wind index, whose sixteen buckets end where the rounding
    decides: there the rounding to a double is a parameter, [to_double],
    of which the properties assume what [double_rounding] says.

    Strings are byte strings (UTF-8), which is what the literals of the
    source are once encoded.  [lower] and [strip] are the ASCII parts of
    [str.lower] and [str.strip]; the loader uses them on the cells of the
    table.  The search and the profile update meet the text of the user:
    there [str.lower], [str.strip] and [str.split] are parameters
    ([str_lower], [str_strip], [str_split]), and the properties hold for
    whatever these functions are.

    Frames.  A pandas DataFrame is its list of column names and its list of
    rows; the index is the default RangeIndex, so a row's label is its
    position. *)

From Stdlib Require Import List Bool Arith ZArith QArith Qabs Qround Qminmax.
From Stdlib Require Import Ascii String DecimalString.
From Stdlib Require Import Permutation Sorting.Sorted Sorting.Mergesort Orders.
From Stdlib Require Import Reals Lra Lia Psatz.
Import ListNotations.

Set Implicit Arguments.
Open Scope string_scope.
Open Scope Z_scope.

(* ================================================================== *)
(** * Python values shared by the modules *)
(* ================================================================== *)

(** The exceptions the modelled code can raise. *)
Inductive exn : Type :=
| ZeroDivisionError
| ValueError
| OverflowError
| KeyError
| re_error
| OtherException.

(** A computation that returns or raises. *)
Inductive result (A : Type) : Type :=
| Ok (a : A)
| Raise (e : exn).
Arguments Ok {A} a.
Arguments Raise {A} e.

Definition bind {A B : Type} (c : result A) (k : A -> result B) : result B :=
  match c with
  | Ok a => k a
  | Raise e => Raise e
  end.

Notation "x <- c ;; k" := (bind c (fun x => k))
  (at level 61, c at next level, right associativity).

(** [try: c  except Exception: h]. *)
Definition try_except {A : Type} (c : result A) (h : exn -> result A) : result A :=
  match c with
  | Ok a => Ok a
  | Raise e => h e
  end.

(** [for x in l: acc = step acc x], stopping at the first exception. *)
Fixpoint for_each {A S : Type} (step : S -> A -> result S) (l : list A) (s : S)
  : result S :=
  match l with
  | [] => Ok s
  | x :: l' => s' <- step s x ;; for_each step l' s'
  end.

(* ------------------------------------------------------------------ *)
(** ** Strings *)

Definition is_upper (c : ascii) : bool :=
  (65 <=? nat_of_ascii c)%nat && (nat_of_ascii c <=? 90)%nat.

Definition lower_ascii (c : ascii) : ascii :=
  if is_upper c then ascii_of_nat (nat_of_ascii c + 32) else c.

(** [s.lower()]. *)
Fixpoint lower (s : string) : string :=
  match s with
  | EmptyString => EmptyString
  | String c s' => String (lower_ascii c) (lower s')
  end.

(** The characters [str.strip()] removes: tab, line feed, vertical tab, form
    feed, carriage return, the four separators 28..31 and the space. *)
Definition is_space (c : ascii) : bool :=
  let n := nat_of_ascii c in
  ((9 <=? n)%nat && (n <=? 13)%nat) || ((28 <=? n)%nat && (n <=? 32)%nat).

Fixpoint lstrip (s : string) : string :=
  match s with
  | EmptyString => EmptyString
  | String c s' => if is_space c then lstrip s' else s
  end.

Fixpoint rstrip (s : string) : string :=
  match s with
  | EmptyString => EmptyString
  | String c s' =>
      match rstrip s' with
      | EmptyString => if is_space c then EmptyString else String c EmptyString
      | t => String c t
      end
  end.

(** [s.strip()]. *)
Definition strip (s : string) : string := rstrip (lstrip s).

(** [needle in hay]. *)
Fixpoint is_substring (needle hay : string) : bool :=
  if String.prefix needle hay then true
  else match hay with
       | EmptyString => false
       | String _ hay' => is_substring needle hay'
       end.

(** [x in l] for a list of strings. *)
Definition str_in (x : string) (l : list string) : bool :=
  existsb (String.eqb x) l.

(** A cell of the raw table as [pd.read_csv] gives it: NaN when the field is
    empty, its text otherwise. *)
Inductive cell : Type :=
| NaNCell
| Text (s : string).

(** [str(c).strip() if pd.notna(c) else ''] *)
Definition cell_text (c : cell) : string :=
  match c with
  | NaNCell => ""
  | Text s => strip s
  end.

(* ------------------------------------------------------------------ *)
(** ** Rationals *)

(** [int(x)] of a finite float: truncation toward zero. *)
Definition py_int (x : Q) : Z := Z.quot (Qnum x) (Zpos (Qden x)).

(** [a <= b], [a < b] as tests. *)
Definition Qleb (a b : Q) : bool := Qle_bool a b.
Definition Qltb (a b : Q) : bool := negb (Qle_bool b a).

(** [max(a, b)] of the builtins: [a] unless [b > a]. *)
Definition py_max (a b : Q) : Q := if Qltb a b then b else a.
(** [min(a, b)] of the builtins: [a] unless [b < a]. *)
Definition py_min (a b : Q) : Q := if Qltb b a then b else a.

(* ------------------------------------------------------------------ *)
(** ** The random module *)

(** The generator's state: the raw draws it will hand out. *)
Definition rng : Type := list Z.

(** [random.randint(a, b)]: an integer [n] with [a <= n <= b]. *)
Definition randint (a b : Z) (g : rng) : Z * rng :=
  match g with
  | [] => (a, [])
  | x :: g' => (a + x mod (b - a + 1), g')
  end.

(** [round(random.uniform(3.5, 5.0), 1)]: one of 3.5, 3.6, ..., 5.0. *)
Definition uniform_rating (g : rng) : Q * rng :=
  let (n, g') := randint 35 50 g in (n # 10, g').

(* ================================================================== *)
(** * utils/weather_manager.py *)
(* ================================================================== *)

(** What [float(s)] can return. *)
Inductive pyfloat : Type :=
| Finite (q : Q)
| Infinite
| NaN.

Definition directions : list string :=
  [ "北風"; "北北東風"; "東北風"; "東北東風";
    "東風"; "東南東風"; "東南風"; "南南東風";
    "南風"; "南南西風"; "西南風"; "西南西風";
    "西風"; "西北西風"; "西北風"; "北北西風" ].

Section WeatherManager.

(** The builtin [float] on a string; [None] is its ValueError. *)
Variable float_of_string : string -> option pyfloat.

(** The double nearest to a number: what each operation on floats returns
    of its exact result. *)
Variable to_double : Q -> Q.

(** [int((degrees + 11.25) / 22.5) % 16], the sum and the quotient rounded
    as the doubles round them. *)
Definition wind_index (degrees : Q) : Z :=
  py_int (to_double (to_double (degrees + (45 # 4)) / (45 # 2))) mod 16.

Definition _convert_wind_direction (wind_direction : string) : string :=
  match float_of_string wind_direction with
  | Some (Finite degrees) =>
      nth (Z.to_nat (wind_index degrees)) directions wind_direction
  | _ =>
      (* int() of inf or nan raises, float() of other text raises:
         the bare except returns the text, or a default when it is empty *)
      if String.eqb wind_direction "" then "微風" else wind_direction
  end.

End WeatherManager.

(** A reading of decimal literals ([-12], [270], [22.5]) for [float]:
    an optional sign, digits, an optional fraction. *)
Definition digit_of (c : ascii) : option Z :=
  let n := nat_of_ascii c in
  if (48 <=? n)%nat && (n <=? 57)%nat then Some (Z.of_nat (n - 48)) else None.

Fixpoint read_digits (s : string) (acc : Z) (scale : positive)
         (frac : bool) (seen : bool) : option Q :=
  match s with
  | EmptyString => if seen then Some (acc # scale) else None
  | String c s' =>
      match digit_of c with
      | Some d =>
          read_digits s' (acc * 10 + d) (if frac then scale * 10 else scale)%positive
                      frac true
      | None =>
          if Ascii.eqb c "."%char && negb frac
          then read_digits s' acc scale true seen
          else None
      end
  end.

Definition decimal_float (s : string) : option pyfloat :=
  match strip s with
  | String "-"%char s' =>
      match read_digits s' 0 1 false false with
      | Some q => Some (Finite (- q))
      | None => None
      end
  | s' =>
      match read_digits s' 0 1 false false with
      | Some q => Some (Finite q)
      | None => None
      end
  end.


(* ================================================================== *)
(** * The venue table *)
(* ================================================================== *)

(** One row of the venue table: the keys of the dict [load_venues_data]
    builds per venue.  A NaN number is [None]. *)
Record venue : Type := mk_venue {
  id : Z;
  name : string;
  district : string;
  address : string;
  sport_type : string;
  price_per_hour : option Q;
  rating : option Q;
  facilities : string;
  description : string;
  contact_phone : string;
  opening_hours : string;
  website : string;
  venue_scale : string;
  courses : string;
  photos : string;
  latitude : option R;
  longitude : option R
}.

(** A DataFrame: the names of its columns and its rows. *)
Record frame (A : Type) : Type := mk_frame {
  columns : list string;
  rows : list A
}.
Arguments mk_frame {A} columns rows.
Arguments columns {A} f.
Arguments rows {A} f.

(** ['c' in df.columns] *)
Definition has_column {A : Type} (df : frame A) (c : string) : bool :=
  str_in c (columns df).

(** [df.empty]: an axis of length 0. *)
Definition frame_empty {A : Type} (df : frame A) : bool :=
  match rows df, columns df with
  | [], _ => true
  | _, [] => true
  | _, _ => false
  end.

(** [df[pred]]: the rows a boolean test keeps, the columns as they are. *)
Definition filter_rows {A : Type} (keep : A -> bool) (df : frame A) : frame A :=
  mk_frame (columns df) (filter keep (rows df)).

(** [df[mask]] for a boolean mask aligned with the rows. *)
Definition select {A : Type} (mask : list bool) (l : list A) : list A :=
  map snd (filter fst (combine mask l)).

(** [pd.DataFrame()] *)
Definition empty_frame {A : Type} : frame A := mk_frame [] [].

Definition venue_columns : list string :=
  [ "id"; "name"; "district"; "address"; "sport_type"; "price_per_hour";
    "rating"; "facilities"; "description"; "contact_phone"; "opening_hours";
    "website"; "venue_scale"; "courses"; "photos"; "latitude"; "longitude" ].

(* ================================================================== *)
(** * utils/data_manager.py *)
(* ================================================================== *)

(** A row of the raw table, under the thirteen names the loader gives its
    columns. *)
Record raw_row : Type := mk_raw_row {
  raw_name : cell;
  raw_district : cell;
  raw_price_range : cell;
  raw_sport_type : cell;
  raw_opening_hours : cell;
  raw_facilities : cell;
  raw_venue_scale : cell;
  raw_courses : cell;
  raw_other : cell;
  raw_website : cell;
  raw_address : cell;
  raw_contact_phone : cell;
  raw_photos : cell
}.

(** [pd.isna(c) or c == ''] *)
Definition cell_blank (c : cell) : bool :=
  match c with
  | NaNCell => true
  | Text s => String.eqb s ""
  end.

(** [str(c).strip()] of a cell that is not blank ([str(nan)] is ['nan']). *)
Definition cell_str (c : cell) : string :=
  match c with
  | NaNCell => "nan"
  | Text s => strip s
  end.

Definition sport_mapping : list (string * string) :=
  [ ("羽球", "羽毛球"); ("羽毛球", "羽毛球"); ("游泳", "游泳");
    ("健身", "健身"); ("重訓", "健身"); ("有氧", "有氧運動");
    ("瑜珈", "瑜伽"); ("瑜伽", "瑜伽"); ("球類", "球類運動");
    ("籃球", "籃球"); ("足球", "足球"); ("網球", "網球");
    ("桌球", "桌球"); ("撞球", "撞球"); ("排球", "排球");
    ("戶外運動", "戶外運動") ].

Definition _normalize_sport_type_static (c : cell) : string :=
  if cell_blank c then "綜合運動"
  else
    let s := cell_str c in
    match find (fun kv => is_substring (fst kv) s) sport_mapping with
    | Some kv => snd kv
    | None => if String.eqb s "" then "綜合運動" else s
    end.

Definition _extract_price_static (price_range : cell) (g : rng) : Z * rng :=
  if cell_blank price_range then randint 100 500 g
  else
    let price_str := cell_str price_range in
    if is_substring "0-200" price_str then (150, g)
    else if is_substring "200-500" price_str then (350, g)
    else if is_substring "500以上" price_str then (700, g)
    else randint 200 400 g.

Definition facility_mapping : list (string * string) :=
  [ ("淋浴間", "淋浴間"); ("置物櫃", "置物櫃"); ("停車場", "停車場");
    ("Wi-Fi", "Wi-Fi"); ("WiFi", "Wi-Fi"); ("無障礙設施", "無障礙設施");
    ("性別友善設施", "性別友善設施"); ("寵物友善", "寵物友善");
    ("女性專用", "女性專用") ].

(** ['/'.join(l)] *)
Fixpoint join_slash (l : list string) : string :=
  match l with
  | [] => ""
  | [x] => x
  | x :: l' => x ++ "/" ++ join_slash l'
  end.

Definition _normalize_facilities_static (c : cell) : string :=
  if cell_blank c then "基本設施"
  else
    let facilities_str := cell_str c in
    match map snd (filter (fun kv => is_substring (fst kv) facilities_str)
                          facility_mapping) with
    | [] => facilities_str
    | normalized_facilities => join_slash normalized_facilities
    end.

Definition district_coords : list (string * (R * R)) :=
  [ ("士林區", (250881 / 10000, 1215256 / 10000));
    ("大安區", (250266 / 10000, 1215484 / 10000));
    ("中山區", (250633 / 10000, 1215267 / 10000));
    ("大同區", (250633 / 10000, 1215154 / 10000));
    ("中正區", (250364 / 10000, 1215161 / 10000));
    ("信義區", (250336 / 10000, 1215751 / 10000));
    ("萬華區", (250327 / 10000, 1215060 / 10000));
    ("文山區", (249906 / 10000, 1215420 / 10000));
    ("松山區", (250501 / 10000, 1215776 / 10000));
    ("內湖區", (250838 / 10000, 1215948 / 10000));
    ("南港區", (250415 / 10000, 1216073 / 10000));
    ("北投區", (251372 / 10000, 1215018 / 10000)) ]%R.

Definition _get_district_coordinates_static (district : cell) : R * R :=
  match find (fun kv => String.eqb (fst kv) (cell_str district)) district_coords with
  | Some kv => snd kv
  | None => (250478 / 10000, 1215319 / 10000)%R
  end.

(** The dict built for the raw row of index label [idx]; the price is drawn
    before the rating. *)
Definition load_row (idx : Z) (row : raw_row) (g : rng) : venue * rng :=
  let (price, g1) := _extract_price_static (raw_price_range row) g in
  let (rate, g2) := uniform_rating g1 in
  ({| id := idx + 1;
      name := cell_text (raw_name row);
      district := cell_text (raw_district row);
      address := cell_text (raw_address row);
      sport_type := _normalize_sport_type_static (raw_sport_type row);
      price_per_hour := Some (inject_Z price);
      rating := Some rate;
      facilities := _normalize_facilities_static (raw_facilities row);
      description := cell_text (raw_other row);
      contact_phone := cell_text (raw_contact_phone row);
      opening_hours := cell_text (raw_opening_hours row);
      website := cell_text (raw_website row);
      venue_scale := cell_text (raw_venue_scale row);
      courses := cell_text (raw_courses row);
      photos := cell_text (raw_photos row);
      latitude := Some (fst (_get_district_coordinates_static (raw_district row)));
      longitude := Some (snd (_get_district_coordinates_static (raw_district row)))
   |}, g2).

(** [raw_data.dropna(subset=['name'])] and [name.str.strip() != '']. *)
Definition has_name (row : raw_row) : bool :=
  match raw_name row with
  | NaNCell => false
  | Text s => negb (String.eqb (strip s) "")
  end.

(** The loop over [raw_data.iterrows()]: the rows that have a name, under
    the labels they had in the file. *)
Fixpoint load_rows (idx : Z) (raw : list raw_row) (g : rng) : list venue * rng :=
  match raw with
  | [] => ([], g)
  | row :: raw' =>
      if has_name row then
        let (v, g1) := load_row idx row g in
        let (vs, g2) := load_rows (idx + 1) raw' g1 in
        (v :: vs, g2)
      else load_rows (idx + 1) raw' g
  end.

(** [load_venues_data()]: [csv] is the content of the file, [None] when it is
    missing or unreadable (the loader then returns [pd.DataFrame()]). *)
Definition load_venues_data (csv : option (list raw_row)) (g : rng)
  : frame venue * rng :=
  match csv with
  | None => (empty_frame, g)
  | Some raw =>
      let (venues_list, g') := load_rows 0 raw g in
      (match venues_list with
       | [] => empty_frame
       | _ => mk_frame venue_columns venues_list
       end, g')
  end.

(** [get_all_venues] *)
Definition get_all_venues (venues_data : option (frame venue))
  : option (frame venue) := venues_data.

Definition search_columns : list (string * (venue -> string)) :=
  [ ("name", name); ("address", address); ("district", district);
    ("sport_type", sport_type); ("facilities", facilities);
    ("description", description) ].

Section DataManagerQueries.

(** [re.compile(pat, flags)] as [Series.str.contains] calls it (its
    [regex=True] default): the first argument is [re.IGNORECASE], [None] is
    [re.error], and the function returned is [search(s) is not None]. *)
Variable re_compile : bool -> string -> option (string -> bool).

(** [str.lower] and [str.strip] of the builtins, on the text of a string. *)
Variable str_lower : string -> string.
Variable str_strip : string -> string.

(** [s.str.contains(pat, na=False, case=...)] over a column of text. *)
Definition str_contains (ignorecase : bool) (pat : string) (col : list string)
  : result (list bool) :=
  match re_compile ignorecase pat with
  | None => Raise re_error
  | Some found => Ok (map found col)
  end.

(** [mask |= m] *)
Fixpoint mask_or (mask m : list bool) : list bool :=
  match mask, m with
  | b :: mask', c :: m' => (b || c) :: mask_or mask' m'
  | _, _ => []
  end.

Definition search_venues (venues_data : option (frame venue)) (query : string)
  : result (option (frame venue)) :=
  match venues_data with
  | None => Ok None
  | Some df =>
      if frame_empty df || String.eqb query "" then Ok None
      else
        let query := str_strip (str_lower query) in
        mask <- for_each
                  (fun mask col =>
                     if has_column df (fst col) then
                       m <- str_contains false query
                              (map (fun v => str_lower (snd col v)) (rows df)) ;;
                       Ok (mask_or mask m)
                     else Ok mask)
                  search_columns
                  (repeat false (List.length (rows df))) ;;
        let results := mk_frame (columns df) (select mask (rows df)) in
        Ok (if frame_empty results then None else Some results)
  end.

(** A list argument that is given and not empty. *)
Definition given {A : Type} (l : option (list A)) : list A :=
  match l with
  | Some l' => l'
  | None => []
  end.

Definition in_price_range (min_price max_price : Q) (v : venue) : bool :=
  match price_per_hour v with
  | Some p => Qleb min_price p && Qleb p max_price
  | None => false
  end.

Definition rating_at_least (min_rating : Q) (v : venue) : bool :=
  match rating v with
  | Some r => Qleb min_rating r
  | None => false
  end.

(** The five filters of [get_filtered_venues], in its order.  A filter is
    applied when its argument is given (and not empty) and the table has
    the column. *)
Definition by_sport_types (sport_types : option (list string))
           (filtered_data : frame venue) : frame venue :=
  match given sport_types with
  | _ :: _ =>
      if has_column filtered_data "sport_type"
      then filter_rows (fun v => str_in (sport_type v) (given sport_types))
                       filtered_data
      else filtered_data
  | [] => filtered_data
  end.

Definition by_districts (districts : option (list string))
           (filtered_data : frame venue) : frame venue :=
  match given districts with
  | _ :: _ =>
      if has_column filtered_data "district"
      then filter_rows (fun v => str_in (district v) (given districts))
                       filtered_data
      else filtered_data
  | [] => filtered_data
  end.

Definition by_price_range (price_range : option (Q * Q))
           (filtered_data : frame venue) : frame venue :=
  match price_range with
  | Some (min_price, max_price) =>
      if has_column filtered_data "price_per_hour"
      then filter_rows (in_price_range min_price max_price) filtered_data
      else filtered_data
  | None => filtered_data
  end.

Definition by_facility (fd : frame venue) (facility : string)
  : result (frame venue) :=
  m <- str_contains true facility (map facilities (rows fd)) ;;
  Ok (mk_frame (columns fd) (select m (rows fd))).

Definition by_facilities (facilities_wanted : option (list string))
           (filtered_data : frame venue) : result (frame venue) :=
  if has_column filtered_data "facilities"
  then for_each by_facility (given facilities_wanted) filtered_data
  else Ok filtered_data.

Definition by_min_rating (min_rating : Q) (filtered_data : frame venue)
  : frame venue :=
  if Qltb 0 min_rating && has_column filtered_data "rating"
  then filter_rows (rating_at_least min_rating) filtered_data
  else filtered_data.

Definition get_filtered_venues (venues_data : option (frame venue))
           (sport_types districts : option (list string))
           (price_range : option (Q * Q))
           (facilities_wanted : option (list string))
           (min_rating : Q)
           (search_query : option string)
  : result (option (frame venue)) :=
  match venues_data with
  | None => Ok None
  | Some df =>
      if frame_empty df then Ok None
      else
        searched <- match search_query with
                    | Some q =>
                        if String.eqb q "" then Ok (Some df)
                        else search_venues venues_data q
                    | None => Ok (Some df)
                    end ;;
        match searched with
        | None => Ok None
        | Some filtered_data =>
            let filtered_data := by_sport_types sport_types filtered_data in
            let filtered_data := by_districts districts filtered_data in
            let filtered_data := by_price_range price_range filtered_data in
            filtered_data <- by_facilities facilities_wanted filtered_data ;;
            let filtered_data := by_min_rating min_rating filtered_data in
            Ok (if frame_empty filtered_data then None else Some filtered_data)
        end
  end.

End DataManagerQueries.

(** The metacharacters of [re]; a pattern without them matches itself. *)
Definition is_meta (c : ascii) : bool :=
  existsb (Ascii.eqb c)
    [ "."%char; "^"%char; "$"%char; "*"%char; "+"%char; "?"%char; "{"%char;
      "}"%char; "["%char; "]"%char; "\"%char; "|"%char; "("%char; ")"%char ].

Fixpoint literal_pattern (pat : string) : bool :=
  match pat with
  | EmptyString => true
  | String c pat' => negb (is_meta c) && literal_pattern pat'
  end.

(** What [re.compile] does on the patterns without metacharacters: the
    search is a substring test, on the lowered texts under IGNORECASE. *)
Definition literal_search (ignorecase : bool) (pat : string) : string -> bool :=
  if ignorecase then fun s => is_substring (lower pat) (lower s)
  else fun s => is_substring pat s.

(** [re.compile] restricted to the patterns without metacharacters (it leaves
    the others out by refusing them). *)
Definition literal_re_compile (ignorecase : bool) (pat : string)
  : option (string -> bool) :=
  if literal_pattern pat then Some (literal_search ignorecase pat) else None.

(* ================================================================== *)
(** * utils/recommendation_engine.py *)
(* ================================================================== *)

Open Scope Q_scope.

(** [self.weights]. *)
Module W.
Record t : Type := mk {
  preference_weight : Q;
  rating_weight : Q;
  price_weight : Q;
  distance_weight : Q;
  facility_weight : Q;
  explore_vs_exploit : Q;
  popularity_bias : Q;
  novelty_preference : Q;
  serendipity_factor : Q
}.
End W.

(** The weights [__init__] sets and [reset_weights] restores. *)
Definition reset_weights : W.t :=
  W.mk (3 # 10) (25 # 100) (2 # 10) (15 # 100) (1 # 10)
       (3 # 10) (4 # 10) (2 # 10) (15 # 100).

(** The user-preferences dict, read with [.get(key, default)]: a missing
    list is the empty list, a missing [price_range] is [None]. *)
Record user_preferences : Type := mk_prefs {
  preferred_sports : list string;
  preferred_districts : list string;
  price_range : option (Q * Q);
  search_history : list string
}.

(** The parts of a recommendation reason, which the source joins into one
    text. *)
Inductive reason : Type :=
| PreferredSport (s : string)
| PreferredDistrict (d : string)
| HighRating (r : option Q)
| PriceFits
| Overall.

(** A row of the scored table: the venue and the columns the engine adds. *)
Record scored : Type := mk_scored {
  venue_of : venue;
  sport_match : Q;
  district_match : Q;
  preference_match : Q;
  rating_weight : option Q;
  price_match : Q;
  distance_score : Q;
  facility_match : Q;
  recommendation_score : option Q;
  recommendation_reason : list reason
}.

Definition score_columns : list string :=
  [ "preference_match"; "rating_weight"; "price_match"; "distance_score";
    "facility_match"; "sport_match"; "district_match"; "recommendation_score" ].

Definition nonempty {A : Type} (l : list A) : bool :=
  match l with
  | [] => false
  | _ :: _ => true
  end.

(** [user_preferences.get('price_range', [0, 10000])] *)
Definition price_range_of (prefs : user_preferences) : Q * Q :=
  match price_range prefs with
  | Some r => r
  | None => (0, 10000)
  end.

(** [s.max()]: the largest number of a column, NaN apart; NaN when there is
    none. *)
Fixpoint column_max (col : list (option Q)) : option Q :=
  match col with
  | [] => None
  | None :: col' => column_max col'
  | Some x :: col' =>
      match column_max col' with
      | None => Some x
      | Some m => Some (if Qltb x m then m else x)
      end
  end.

Section Scores.

Variable weights : W.t.
Variable venues_data : frame venue.
Variable prefs : user_preferences.

(** The columns [_calculate_preference_match] sets, at the row [v]. *)
Definition sport_match_of (v : venue) : Q :=
  if nonempty (preferred_sports prefs) && has_column venues_data "sport_type"
  then (if str_in (sport_type v) (preferred_sports prefs) then 1 else 5 # 10)
  else 7 # 10.

Definition district_match_of (v : venue) : Q :=
  if nonempty (preferred_districts prefs) && has_column venues_data "district"
  then (if str_in (district v) (preferred_districts prefs) then 1 else 3 # 10)
  else 7 # 10.

Definition _calculate_preference_match (v : venue) : Q :=
  (sport_match_of v + district_match_of v) / 2.

(** The column [_calculate_rating_weight] sets, at the row [v]. *)
Definition _calculate_rating_weight (v : venue) : option Q :=
  if has_column venues_data "rating" then
    match column_max (map rating (rows venues_data)) with
    | Some max_rating =>
        if Qltb 0 max_rating
        then match rating v with
             | Some r => Some (r / max_rating)
             | None => None
             end
        else Some (5 # 10)
    | None => Some (5 # 10)
    end
  else Some (5 # 10).

(** The column [_calculate_price_match] sets, at the row [v]; the division
    by [max_price] raises when it is zero. *)
Definition price_match_of_number (x : Q) : result Q :=
  let (min_price, max_price) := price_range_of prefs in
  if Qleb min_price x && Qleb x max_price then Ok 1
  else if Qeq_bool max_price 0 then Raise ZeroDivisionError
  else Ok (py_max 0 (1 - Qabs (x - (min_price + max_price) / 2) / max_price)).

Definition _calculate_price_match (v : venue) : result Q :=
  if has_column venues_data "price_per_hour" then
    match price_per_hour v with
    | None => Ok 1              (* pd.isna(x) *)
    | Some x => price_match_of_number x
    end
  else Ok (7 # 10).

(** The column [_calculate_distance_score] sets, at the row [v]. *)
Definition _calculate_distance_score (v : venue) : Q :=
  if nonempty (preferred_districts prefs) && has_column venues_data "district"
  then (if str_in (district v) (preferred_districts prefs) then 1 else 4 # 10)
  else 7 # 10.

(** The column [_calculate_facility_match] sets. *)
Definition _calculate_facility_match (v : venue) : Q := 7 # 10.

(** The weighted sum of the five components, on the ten-point scale. *)
Definition composite (preference rating_w price distance facility : Q) : Q :=
  (preference * W.preference_weight weights
   + rating_w * W.rating_weight weights
   + price * W.price_weight weights
   + distance * W.distance_weight weights
   + facility * W.facility_weight weights) * 10.

Definition score_row (v : venue) : result scored :=
  price <- _calculate_price_match v ;;
  let preference := _calculate_preference_match v in
  let rating_w := _calculate_rating_weight v in
  let distance := _calculate_distance_score v in
  let facility := _calculate_facility_match v in
  Ok {| venue_of := v;
        sport_match := sport_match_of v;
        district_match := district_match_of v;
        preference_match := preference;
        rating_weight := rating_w;
        price_match := price;
        distance_score := distance;
        facility_match := facility;
        recommendation_score :=
          match rating_w with
          | Some rw => Some (composite preference rw price distance facility)
          | None => None
          end;
        recommendation_reason := [] |}.

Fixpoint score_rows (l : list venue) : result (list scored) :=
  match l with
  | [] => Ok []
  | v :: l' => r <- score_row v ;; rs <- score_rows l' ;; Ok (r :: rs)
  end.

Definition _calculate_recommendation_scores : result (frame scored) :=
  rs <- score_rows (rows venues_data) ;;
  Ok (mk_frame (columns venues_data ++ score_columns) rs).

End Scores.

(** The order of the group keys of [groupby]: strings by their code points. *)
Module StringOrder <: TotalLeBool.
Definition t := string.
Definition leb := String.leb.
Theorem leb_total : forall a b, leb a b = true \/ leb b a = true.
Proof. exact String.leb_total. Qed.
End StringOrder.

Module StringSort := Sort StringOrder.

(** The keys of [venues_data.groupby('sport_type')], in its order. *)
Definition group_keys (l : list scored) : list string :=
  StringSort.sort (nodup string_dec (map (fun r => sport_type (venue_of r)) l)).

Definition in_group (key : string) (r : scored) : bool :=
  String.eqb key (sport_type (venue_of r)).

(** [min(diversity_weight * (group_size - 1) * 0.1, 2.0)] *)
Definition diversity_penalty (diversity_weight : Q) (group_size : nat) : Q :=
  py_min (diversity_weight * (inject_Z (Z.of_nat group_size) - 1) * (1 # 10)) 2.

(** [group['recommendation_score'] - diversity_penalty] on one row. *)
Definition penalize (penalty : Q) (r : scored) : scored :=
  {| venue_of := venue_of r;
     sport_match := sport_match r;
     district_match := district_match r;
     preference_match := preference_match r;
     rating_weight := rating_weight r;
     price_match := price_match r;
     distance_score := distance_score r;
     facility_match := facility_match r;
     recommendation_score :=
       match recommendation_score r with
       | Some s => Some (s - penalty)
       | None => None
       end;
     recommendation_reason := recommendation_reason r |}.

(** [pd.concat] of no frame raises. *)
Definition _apply_diversity (venues_data : frame scored) (diversity_weight : Q)
  : result (frame scored) :=
  if negb (has_column venues_data "sport_type") then Ok venues_data
  else
    let diversified_venues :=
      map (fun key =>
             let group := filter (in_group key) (rows venues_data) in
             let group_size := List.length group in
             map (penalize (diversity_penalty diversity_weight group_size)) group)
          (group_keys (rows venues_data)) in
    match diversified_venues with
    | [] => Raise ValueError
    | _ => Ok (mk_frame (columns venues_data) (List.concat diversified_venues))
    end.

(** A number is above another; NaN is above nothing. *)
Definition above (a b : option Q) : bool :=
  match a, b with
  | Some x, Some y => Qltb y x
  | _, _ => false
  end.

(** Rows by decreasing score, the first of equal ones first. *)
Fixpoint insert_by_score (r : scored) (l : list scored) : list scored :=
  match l with
  | [] => [r]
  | r' :: l' =>
      if above (recommendation_score r') (recommendation_score r)
      then r' :: insert_by_score r l'
      else r :: l
  end.

Definition is_number (r : scored) : bool :=
  match recommendation_score r with
  | Some _ => true
  | None => false
  end.

(** [df.nlargest(n, 'recommendation_score')]: the rows of the [n] largest
    scores in decreasing order, NaN scores last. *)
Definition nlargest (n : nat) (df : frame scored) : frame scored :=
  mk_frame (columns df)
    (firstn n (fold_right insert_by_score [] (filter is_number (rows df))
               ++ filter (fun r => negb (is_number r)) (rows df))).

Definition Qgtb_opt (a : option Q) (b : Q) : bool := above a (Some b).

(** [generate_reason] *)
Definition generate_reason (prefs : user_preferences) (row : scored) : list reason :=
  let reasons : list reason :=
    ((if Qltb (8 # 10) (preference_match row) then
       (if str_in (sport_type (venue_of row)) (preferred_sports prefs)
        then [PreferredSport (sport_type (venue_of row))] else [])
       ++ (if str_in (district (venue_of row)) (preferred_districts prefs)
           then [PreferredDistrict (district (venue_of row))] else [])
     else [])
    ++ (if Qgtb_opt (rating_weight row) (8 # 10)
        then [HighRating (rating (venue_of row))] else [])
    ++ (if Qltb (8 # 10) (price_match row) then [PriceFits] else []))%list in
  match reasons with
  | [] => [Overall]
  | _ => reasons
  end.

Definition _add_recommendation_reasons (venues_data : frame scored)
           (prefs : user_preferences) : frame scored :=
  mk_frame (columns venues_data ++ ["recommendation_reason"])
    (map (fun r =>
            {| venue_of := venue_of r;
               sport_match := sport_match r;
               district_match := district_match r;
               preference_match := preference_match r;
               rating_weight := rating_weight r;
               price_match := price_match r;
               distance_score := distance_score r;
               facility_match := facility_match r;
               recommendation_score := recommendation_score r;
               recommendation_reason := generate_reason prefs r |})
         (rows venues_data)).

(** What the body of a strategy does once it holds the venue table: it
    returns a table, returns [None], or hands over to
    [get_personalized_recommendations]. *)
Inductive outcome : Type :=
| Recommend (r : frame scored)
| Nothing
| Standard.

Section Strategies.

(** [self.weights] *)
Variable weights : W.t.

(** [DataManager().get_all_venues()], as each strategy calls it inside its
    [try]. *)
Variable upstream : result (option (frame venue)).

Definition get_personalized_recommendations (prefs : user_preferences)
           (num_recommendations : nat) (diversity_weight : Q)
  : result (option (frame scored)) :=
  try_except
    (venues_data <- upstream ;;
     match venues_data with
     | None => Ok None
     | Some df =>
         if frame_empty df then Ok None
         else
           venues_with_scores <- _calculate_recommendation_scores weights df prefs ;;
           if frame_empty venues_with_scores then Ok None
           else
             venues_with_scores <-
               (if Qltb 0 diversity_weight
                then _apply_diversity venues_with_scores diversity_weight
                else Ok venues_with_scores) ;;
             let recommended_venues := nlargest num_recommendations venues_with_scores in
             Ok (Some (_add_recommendation_reasons recommended_venues prefs))
     end)
    (fun _ => Ok None).

(** The strategies that answer [None] to an exception.  [body] is the rest
    of the [try] block once the table is known not to be empty. *)
Definition none_on_failure (body : frame venue -> result (option (frame scored)))
  : result (option (frame scored)) :=
  try_except
    (venues_data <- upstream ;;
     match venues_data with
     | None => Ok None
     | Some df => if frame_empty df then Ok None else body df
     end)
    (fun _ => Ok None).

(** The strategies that answer an exception with the standard
    recommendation (default diversity weight 0.3). *)
Definition standard_on_failure (body : frame venue -> result outcome)
           (prefs : user_preferences) (num_recommendations : nat)
  : result (option (frame scored)) :=
  try_except
    (venues_data <- upstream ;;
     match venues_data with
     | None => Ok None
     | Some df =>
         if frame_empty df then Ok None
         else
           o <- body df ;;
           match o with
           | Recommend r => Ok (Some r)
           | Nothing => Ok None
           | Standard =>
               get_personalized_recommendations prefs num_recommendations (3 # 10)
           end
     end)
    (fun _ => get_personalized_recommendations prefs num_recommendations (3 # 10)).

(** The bodies of the seven other strategies (random draws, the regressor,
    k-means and the TF-IDF vectors are theirs). *)
Variable trending_body : nat -> frame venue -> result (option (frame scored)).
Variable new_venues_body : nat -> frame venue -> result (option (frame scored)).
Variable collaborative_body :
  user_preferences -> nat -> frame venue -> result (option (frame scored)).
Variable rating_based_body :
  user_preferences -> nat -> frame venue -> result (option (frame scored)).
Variable ml_body : user_preferences -> nat -> frame venue -> result outcome.
Variable cluster_body : user_preferences -> nat -> frame venue -> result outcome.
Variable content_body : user_preferences -> nat -> frame venue -> result outcome.

Definition get_trending_venues (num_recommendations : nat) :=
  none_on_failure (trending_body num_recommendations).

Definition get_new_venues (num_recommendations : nat) :=
  none_on_failure (new_venues_body num_recommendations).

Definition get_collaborative_recommendations (prefs : user_preferences)
           (num_recommendations : nat) :=
  none_on_failure (collaborative_body prefs num_recommendations).

Definition get_rating_based_recommendations (prefs : user_preferences)
           (num_recommendations : nat) :=
  none_on_failure (rating_based_body prefs num_recommendations).

Definition get_ml_based_recommendations (prefs : user_preferences)
           (num_recommendations : nat) :=
  standard_on_failure (ml_body prefs num_recommendations) prefs num_recommendations.

Definition get_cluster_based_recommendations (prefs : user_preferences)
           (num_recommendations : nat) :=
  standard_on_failure (cluster_body prefs num_recommendations) prefs num_recommendations.

Definition get_content_based_ml_recommendations (prefs : user_preferences)
           (num_recommendations : nat) :=
  standard_on_failure (content_body prefs num_recommendations) prefs num_recommendations.

End Strategies.

(* ================================================================== *)
(** * utils/map_utils.py *)
(* ================================================================== *)

Open Scope R_scope.

(** [math.radians] *)
Definition radians (x : R) : R := x * PI / 180.

(** The haversine formula, earth radius 6371 km. *)
Definition calculate_distance (lat1 lon1 lat2 lon2 : R) : R :=
  let lat1 := radians lat1 in
  let lon1 := radians lon1 in
  let lat2 := radians lat2 in
  let lon2 := radians lon2 in
  let dlat := lat2 - lat1 in
  let dlon := lon2 - lon1 in
  let a := sin (dlat / 2) ^ 2 + cos lat1 * cos lat2 * sin (dlon / 2) ^ 2 in
  let c := 2 * asin (sqrt a) in
  let r := 6371 in
  r * c.

(** [pd.notna(venue['latitude']) and pd.notna(venue['longitude'])], with the
    two numbers. *)
Definition located (v : venue) : option (R * R) :=
  match latitude v, longitude v with
  | Some lat, Some lon => Some (lat, lon)
  | _, _ => None
  end.

(** [distance < min_distance], where [None] is [float('inf')]. *)
Definition closer (distance : R) (min_distance : option R) : bool :=
  match min_distance with
  | None => true
  | Some m => if Rlt_dec distance m then true else false
  end.

Definition nearest_step (target_lat target_lon : R)
           (st : option R * option (venue * R)) (v : venue)
  : option R * option (venue * R) :=
  match located v with
  | Some (lat, lon) =>
      let distance := calculate_distance target_lat target_lon lat lon in
      if closer distance (fst st) then (Some distance, Some (v, distance)) else st
  | None => st
  end.

(** The row the scan keeps, with the ['distance'] entry added to its dict. *)
Definition find_nearest_venue (venues_df : option (frame venue))
           (target_lat target_lon : R) : option (venue * R) :=
  match venues_df with
  | None => None
  | Some df =>
      if frame_empty df then None
      else if negb (has_column df "latitude" && has_column df "longitude") then None
      else snd (fold_left (nearest_step target_lat target_lon) (rows df) (None, None))
  end.

(** [df.iterrows()]: each row under its label. *)
Definition iterrows {A : Type} (df : frame A) : list (nat * A) :=
  combine (seq 0 (List.length (rows df))) (rows df).

(** [idx in assigned_venues] *)
Definition assigned_in (idx : nat) (assigned_venues : list nat) : bool :=
  existsb (Nat.eqb idx) assigned_venues.

(** [f"cluster_{cluster_id}"] *)
Definition cluster_key (cluster_id : nat) : string :=
  ("cluster_" ++ NilEmpty.string_of_uint (Nat.to_uint cluster_id))%string.

(** The inner loop: a row not yet assigned, located, and within the distance
    of the cluster's first row joins the cluster. *)
Definition join_step (lat lon max_distance_km : R)
           (st : list nat * list nat) (other : nat * venue)
  : list nat * list nat :=
  let (cluster_venues, assigned_venues) := st in
  let (other_idx, other_venue) := other in
  if assigned_in other_idx assigned_venues then st
  else
    match located other_venue with
    | None => st
    | Some (olat, olon) =>
        if Rle_dec (calculate_distance lat lon olat olon) max_distance_km
        then ((cluster_venues ++ [other_idx])%list, other_idx :: assigned_venues)
        else st
    end.

(** The outer loop; its state is [clusters], [cluster_id] and
    [assigned_venues]. *)
Definition cluster_step (all : list (nat * venue)) (max_distance_km : R)
           (st : list (string * list nat) * nat * list nat) (row : nat * venue)
  : list (string * list nat) * nat * list nat :=
  let '(clusters, cluster_id, assigned_venues) := st in
  let (idx, v) := row in
  if assigned_in idx assigned_venues then st
  else
    match located v with
    | None => st
    | Some (lat, lon) =>
        let (cluster_venues, assigned_venues') :=
          fold_left (join_step lat lon max_distance_km) all
                    ([idx], idx :: assigned_venues) in
        ((clusters ++ [(cluster_key cluster_id, cluster_venues)])%list,
         S cluster_id, assigned_venues')
    end.

Definition cluster_venues_by_proximity (venues_df : option (frame venue))
           (max_distance_km : R) : list (string * list nat) :=
  match venues_df with
  | None => []
  | Some df =>
      if frame_empty df then []
      else if negb (has_column df "latitude" && has_column df "longitude") then []
      else
        fst (fst (fold_left (cluster_step (iterrows df) max_distance_km)
                            (iterrows df) ([], O, [])))
  end.

Close Scope R_scope.
Close Scope Q_scope.

(* ================================================================== *)
(** * utils/map_utils.py, the other functions *)
(* ================================================================== *)

Open Scope R_scope.

(** [self.district_centers]; the first entry is the city centre. *)
Definition taipei_center : R * R := (250330 / 10000, 1215654 / 10000).

Definition district_centers : list (string * (R * R)) :=
  [ ("台北市中心", taipei_center);
    ("中正區", (250320 / 10000, 1215200 / 10000));
    ("大同區", (250632 / 10000, 1215138 / 10000));
    ("中山區", (250642 / 10000, 1215326 / 10000));
    ("松山區", (250497 / 10000, 1215746 / 10000));
    ("大安區", (250263 / 10000, 1215436 / 10000));
    ("萬華區", (250338 / 10000, 1215014 / 10000));
    ("信義區", (250308 / 10000, 1215645 / 10000));
    ("士林區", (250876 / 10000, 1215258 / 10000));
    ("北投區", (251174 / 10000, 1214985 / 10000));
    ("內湖區", (250695 / 10000, 1215945 / 10000));
    ("南港區", (250547 / 10000, 1216066 / 10000));
    ("文山區", (249887 / 10000, 1215706 / 10000)) ].

(** [self.district_centers.get(name, self.district_centers["台北市中心"])] *)
Definition get_district_center (district_name : string) : R * R :=
  match find (fun kv => String.eqb (fst kv) district_name) district_centers with
  | Some kv => snd kv
  | None => taipei_center
  end.

(** [self.taipei_bounds] *)
Definition bound_north : R := 253 / 10.
Definition bound_south : R := 249 / 10.
Definition bound_east : R := 12165 / 100.
Definition bound_west : R := 12145 / 100.

(** [a <= b] as a test. *)
Definition Rleb (a b : R) : bool := if Rle_dec a b then true else false.
(** [a < b] as a test. *)
Definition Rltb (a b : R) : bool := if Rlt_dec a b then true else false.

Definition validate_coordinates (lat lon : R) : bool :=
  (Rleb bound_south lat && Rleb lat bound_north)
  && (Rleb bound_west lon && Rleb lon bound_east).

(** The dict [get_district_bounds] returns. *)
Record bounds : Type := mk_bounds {
  north : R;
  south : R;
  east : R;
  west : R
}.

Definition get_district_bounds (district : string) : bounds :=
  let (center_lat, center_lon) := get_district_center district in
  {| north := center_lat + 1 / 100;
     south := center_lat - 1 / 100;
     east := center_lon + 1 / 100;
     west := center_lon - 1 / 100 |}.

(** A row of the table [get_venues_in_radius] returns: the venue, and its
    ['distance'] entry when the function computed one. *)
Definition get_venues_in_radius (venues_df : option (frame venue))
           (center_lat center_lon radius_km : R) : frame (venue * option R) :=
  match venues_df with
  | None => empty_frame
  | Some df =>
      if frame_empty df then empty_frame
      else if negb (has_column df "latitude" && has_column df "longitude")
      then mk_frame (columns df) (map (fun v => (v, None)) (rows df))
      else
        let venues_in_radius :=
          flat_map
            (fun v =>
               match located v with
               | Some (lat, lon) =>
                   let distance := calculate_distance center_lat center_lon lat lon in
                   if Rleb distance radius_km then [(v, Some distance)] else []
               | None => []
               end)
            (rows df) in
        match venues_in_radius with
        | [] => empty_frame
        | _ => mk_frame (columns df ++ ["distance"])%list venues_in_radius
        end
  end.

(** [get_route_waypoints]: the points at the ratios 1/(n+1), ..., n/(n+1) of
    the segment. *)
Definition get_route_waypoints (start_coords end_coords : R * R)
           (num_waypoints : nat) : list (R * R) :=
  let (start_lat, start_lon) := start_coords in
  let (end_lat, end_lon) := end_coords in
  map (fun i =>
         let ratio := INR i / INR (num_waypoints + 1) in
         (start_lat + (end_lat - start_lat) * ratio,
          start_lon + (end_lon - start_lon) * ratio))
      (seq 1 num_waypoints).

(** [max(a, b)] and [min(a, b)] of the builtins on floats. *)
Definition py_maxR (a b : R) : R := if Rltb a b then b else a.
Definition py_minR (a b : R) : R := if Rltb b a then b else a.

Definition get_map_zoom_level (b : bounds) : Z :=
  let lat_range := north b - south b in
  let lon_range := east b - west b in
  let max_range := py_maxR lat_range lon_range in
  if Rltb (1 / 10) max_range then 10%Z
  else if Rltb (5 / 100) max_range then 12%Z
  else if Rltb (2 / 100) max_range then 14%Z
  else if Rltb (1 / 100) max_range then 15%Z
  else 16%Z.

(** [np.random.uniform(-0.01, 0.01)]: a draw of the generator, one of the
    2000 steps of a hundred-thousandth from -0.01 up. *)
Definition uniform_offset (g : rng) : R * rng :=
  match g with
  | [] => (0, [])
  | x :: g' => ((IZR (x mod 2000) - 1000) / 100000, g')
  end.

(** The loop of [generate_coordinates_for_district], on the generator the
    seed gave. *)
Fixpoint generate_points (center_lat center_lon : R) (num_points : nat) (g : rng)
  : list (R * R) :=
  match num_points with
  | O => []
  | S n =>
      let (lat_offset, g1) := uniform_offset g in
      let (lon_offset, g2) := uniform_offset g1 in
      let lat := center_lat + lat_offset in
      let lon := center_lon + lon_offset in
      let lat := py_maxR bound_south (py_minR bound_north lat) in
      let lon := py_maxR bound_west (py_minR bound_east lon) in
      (lat, lon) :: generate_points center_lat center_lon n g2
  end.

Section Coordinates.

(** The generator [np.random.seed(hash(district) % 1000)] leaves. *)
Variable seeded : string -> rng.

Definition generate_coordinates_for_district (district : string) (num_points : nat)
  : list (R * R) :=
  let (center_lat, center_lon) := get_district_center district in
  generate_points center_lat center_lon num_points (seeded district).






End Coordinates.

Close Scope R_scope.

(* ================================================================== *)
(** * utils/data_manager.py, the other functions *)
(* ================================================================== *)

(** [s.split(sep)] for a separator of one character. *)
Fixpoint split_on (sep : ascii) (s : string) : list string :=
  match s with
  | EmptyString => [EmptyString]
  | String c s' =>
      if Ascii.eqb c sep then EmptyString :: split_on sep s'
      else match split_on sep s' with
           | t :: ts => String c t :: ts
           | [] => [String c EmptyString]
           end
  end.

(** The loop [for key, value in sport_mapping.items(): if key in t: return
    value]: the value of the first key found in the text. *)
Definition first_sport_in (t : string) : option string :=
  match find (fun kv => is_substring (fst kv) t) sport_mapping with
  | Some kv => Some (snd kv)
  | None => None
  end.

(** The loop over [sport_type.split('/')], each part stripped. *)
Fixpoint first_sport_in_parts (types : list string) : option string :=
  match types with
  | [] => None
  | t :: types' =>
      match first_sport_in (strip t) with
      | Some value => Some value
      | None => first_sport_in_parts types'
      end
  end.

(** The method of the instance, which the older loader [_load_data] calls. *)
Definition _normalize_sport_type (c : cell) : string :=
  if cell_blank c then "綜合運動"
  else
    let sport_type := cell_str c in
    match first_sport_in sport_type with
    | Some value => value
    | None =>
        match (if is_substring "/" sport_type
               then first_sport_in_parts (split_on "/"%char sport_type)
               else None) with
        | Some value => value
        | None => if String.eqb sport_type "" then "綜合運動" else sport_type
        end
    end.

(** The attributes of a [DataManager]. *)
Record DataManager : Type := mk_DataManager {
  self_venues_data : option (frame venue);
  self_sport_types : list string;
  self_districts : list string;
  self_facilities : list string
}.

(** [sorted(col.unique().tolist())], [sorted(list(set(l)))] *)
Definition sorted_unique (l : list string) : list string :=
  StringSort.sort (nodup string_dec l).

(** The parts of the facilities texts, as [_extract_metadata] collects them. *)
Definition all_facilities_of (col : list string) : list string :=
  flat_map (fun facilities_str =>
              if is_substring "/" facilities_str
              then split_on "/"%char facilities_str
              else [facilities_str])
           col.

Definition _extract_metadata (self : DataManager) : DataManager :=
  match self_venues_data self with
  | None => self
  | Some df =>
      if frame_empty df then self
      else
        {| self_venues_data := self_venues_data self;
           self_sport_types :=
             if has_column df "sport_type"
             then sorted_unique (map sport_type (rows df))
             else self_sport_types self;
           self_districts :=
             if has_column df "district"
             then sorted_unique (map district (rows df))
             else self_districts self;
           self_facilities :=
             if has_column df "facilities"
             then sorted_unique
                    (map strip
                         (filter (fun f => negb (String.eqb (strip f) ""))
                                 (all_facilities_of (map facilities (rows df)))))
             else self_facilities self |}
  end.

(** [DataManager()]: the table of the cached loader, then the metadata. *)
Definition DataManager_init (csv : option (list raw_row)) (g : rng)
  : DataManager * rng :=
  let (venues_data, g') := load_venues_data csv g in
  (_extract_metadata (mk_DataManager (Some venues_data) [] [] []), g').

(** [col.mean()]: the mean of the numbers of a column, NaN apart; NaN when
    there is none. *)
Definition numbers_of (col : list (option Q)) : list Q :=
  flat_map (fun x => match x with Some q => [q] | None => [] end) col.

Definition column_mean (col : list (option Q)) : option Q :=
  match numbers_of col with
  | [] => None
  | l => Some (fold_right Qplus 0%Q l / inject_Z (Z.of_nat (List.length l)))%Q
  end.

(** The dict [get_venue_stats] returns. *)
Record venue_stats : Type := mk_venue_stats {
  total_venues : nat;
  stats_sport_types : nat;
  stats_districts : nat;
  avg_price : option Q
}.

Definition get_venue_stats (self : DataManager) : venue_stats :=
  let no_data := mk_venue_stats 0 0 0 (Some 0%Q) in
  match self_venues_data self with
  | None => no_data
  | Some df =>
      if frame_empty df then no_data
      else
        {| total_venues := List.length (rows df);
           stats_sport_types := List.length (self_sport_types self);
           stats_districts := List.length (self_districts self);
           avg_price :=
             if has_column df "price_per_hour"
             then column_mean (map price_per_hour (rows df))
             else Some 0%Q |}
  end.

(** [df[df['id'].isin(venue_ids)]] *)
Definition get_venues_by_ids (venues_data : option (frame venue))
           (venue_ids : list Z) : option (frame venue) :=
  match venues_data with
  | None => None
  | Some df =>
      if frame_empty df || negb (nonempty venue_ids) then None
      else if has_column df "id" then
        let filtered_data :=
          filter_rows (fun v => existsb (Z.eqb (id v)) venue_ids) df in
        if frame_empty filtered_data then None else Some filtered_data
      else None
  end.

(** [get_venue_by_id]: a table without the [id] column raises [KeyError]
    inside the [try], which answers [None]. *)
Definition get_venue_by_id (venues_data : option (frame venue)) (venue_id : Z)
  : result (option venue) :=
  try_except
    (match venues_data with
     | None => Ok None
     | Some df =>
         if frame_empty df then Ok None
         else
           venue_data <-
             (if has_column df "id"
              then Ok (filter_rows (fun v => Z.eqb (id v) venue_id) df)
              else Raise KeyError) ;;
           match rows venue_data with
           | [] => Ok None
           | v :: _ => Ok (Some v)
           end
     end)
    (fun _ => Ok None).

Definition common_searches : list string :=
  [ "室內"; "戶外"; "便宜"; "高評分"; "停車場"; "24小時" ].

Definition get_popular_searches (self : DataManager) : list string :=
  firstn 10 (firstn 5 (self_sport_types self)
             ++ firstn 3 (self_districts self)
             ++ common_searches)%list.

(* ================================================================== *)
(** * utils/weather_manager.py, the other functions *)
(* ================================================================== *)

(** [s.replace(old, new)] for an [old] that is not empty: the occurrences
    of [old] from the left, without overlap.  [skip] counts the characters
    of an occurrence still to pass. *)
Fixpoint replace_from (old new : string) (skip : nat) (s : string) : string :=
  match s with
  | EmptyString => EmptyString
  | String c s' =>
      match skip with
      | S k => replace_from old new k s'
      | O =>
          if String.prefix old s
          then new ++ replace_from old new (String.length old - 1) s'
          else String c (replace_from old new 0 s')
      end
  end.

Definition replace (old new s : string) : string := replace_from old new 0 s.

(** An entry of the [Time] list of a weather element: its ['DataTime'] when
    it has one, and its ['ElementValue'] list of dicts. *)
Record data_point : Type := mk_data_point {
  DataTime : option string;
  ElementValue : list (list (string * string))
}.

Section CurrentTimeData.

(** [datetime.fromisoformat(s)] as a time without zone, in seconds; [None]
    when the call raises, or gives a time with a zone, which the
    subtraction from the current time refuses. *)
Variable fromisoformat : string -> option Q.

(** [data_point.get('DataTime', '')] *)
Definition data_time_str (dp : data_point) : string :=
  match DataTime dp with
  | Some s => s
  | None => ""
  end.

(** [time_diff < min_time_diff], where [None] is [float('inf')]. *)
Definition sooner (time_diff : Q) (min_time_diff : option Q) : bool :=
  match min_time_diff with
  | None => true
  | Some m => Qltb time_diff m
  end.

(** One turn of the loop; an exception in it passes to the next entry. *)
Definition time_step (current_time : Q)
           (st : option Q * option data_point) (dp : data_point)
  : option Q * option data_point :=
  match fromisoformat (replace "+08:00" "" (data_time_str dp)) with
  | Some data_time =>
      let time_diff := Qabs (current_time - data_time) in
      if sooner time_diff (fst st) then (Some time_diff, Some dp) else st
  | None => st
  end.

Definition _get_current_time_data (time_data : list data_point) (current_time : Q)
  : option data_point :=
  match time_data with
  | [] => None
  | _ => snd (fold_left (time_step current_time) time_data (None, None))
  end.

End CurrentTimeData.

(** [get_weather_icon] *)
Definition get_weather_icon (weather_description : string) (temperature : Z)
  : string :=
  let weather_desc := lower weather_description in
  if is_substring "晴" weather_desc || is_substring "陽" weather_desc then "☀️"
  else if is_substring "雲" weather_desc || is_substring "陰" weather_desc then
    if is_substring "多雲" weather_desc then "⛅" else "☁️"
  else if is_substring "雨" weather_desc then
    if is_substring "大雨" weather_desc || is_substring "豪雨" weather_desc
    then "🌧️"
    else if is_substring "小雨" weather_desc then "🌦️"
    else "🌧️"
  else if is_substring "雷" weather_desc then "⛈️"
  else if is_substring "雪" weather_desc then "❄️"
  else if is_substring "霧" weather_desc then "🌫️"
  else if 30 <=? temperature then "☀️"
  else if 25 <=? temperature then "⛅"
  else "☁️".

(* ================================================================== *)
(** * utils/recommendation_engine.py, the other functions *)
(* ================================================================== *)

Open Scope Q_scope.

(** A price inside the range, or missing ([isna]). *)
Definition price_fits (min_price max_price : Q) (v : venue) : bool :=
  match price_per_hour v with
  | None => true
  | Some p => Qleb min_price p && Qleb p max_price
  end.

(** [_filter_by_preferences]; the price range is
    [user_preferences.get('price_range', [0, 10000])]. *)
Definition _filter_by_preferences (venues_data : frame venue)
           (prefs : user_preferences) : frame venue :=
  let filtered_venues := venues_data in
  let filtered_venues :=
    if nonempty (preferred_sports prefs) && has_column filtered_venues "sport_type"
    then filter_rows (fun v => str_in (sport_type v) (preferred_sports prefs))
                     filtered_venues
    else filtered_venues in
  let filtered_venues :=
    if nonempty (preferred_districts prefs) && has_column filtered_venues "district"
    then filter_rows (fun v => str_in (district v) (preferred_districts prefs))
                     filtered_venues
    else filtered_venues in
  let (min_price, max_price) := price_range_of prefs in
  if has_column filtered_venues "price_per_hour"
  then filter_rows (price_fits min_price max_price) filtered_venues
  else filtered_venues.

Section CollaborativeScore.

(** The table the row comes from: a row has the keys of its columns. *)
Variable venues_data : frame venue.

(** The score one similar user gives the venue; [None] is NaN, which a NaN
    rating (true as a condition) makes of it. *)
Definition similar_user_score (v : venue) (user_pref : user_preferences)
  : option Q :=
  let score := 0 in
  let score :=
    if has_column venues_data "sport_type"
       && str_in (sport_type v) (preferred_sports user_pref)
    then score + 3 else score in
  let score :=
    if has_column venues_data "district"
       && str_in (district v) (preferred_districts user_pref)
    then score + 2 else score in
  if has_column venues_data "rating" then
    match rating v with
    | None => None
    | Some r => if Qeq_bool r 0 then Some score else Some (score + r * (5 # 10))
    end
  else Some score.

(** One turn of the loop on [total_score] and [matching_users]. *)
Definition collaborative_step (v : venue) (st : Q * nat)
           (user_pref : user_preferences) : Q * nat :=
  match similar_user_score v user_pref with
  | Some score =>
      if Qltb 0 score then (fst st + score, S (snd st)) else st
  | None => st
  end.

Definition _calculate_collaborative_score (v : venue)
           (similar_users_preferences : list user_preferences) : Q :=
  let (total_score, matching_users) :=
    fold_left (collaborative_step v) similar_users_preferences (0, O) in
  match matching_users with
  | O => 5
  | S _ => total_score / inject_Z (Z.of_nat matching_users)
  end.

End CollaborativeScore.

(** [self.feedback_data]: the counts of likes and dislikes of the venues, in
    the order the venues came in. *)
Definition feedback_data : Type := list (Z * (nat * nat)).

Definition has_feedback (venue_id : Z) (fb : feedback_data) : bool :=
  existsb (fun kv => Z.eqb (fst kv) venue_id) fb.

(** [self.feedback_data[venue_id][...] += 1] *)
Definition count_feedback (liked : bool) (venue_id : Z) (fb : feedback_data)
  : feedback_data :=
  map (fun kv : Z * (nat * nat) =>
         if Z.eqb (fst kv) venue_id
         then (fst kv, if liked then (S (fst (snd kv)), snd (snd kv))
                       else (fst (snd kv), S (snd (snd kv))))
         else kv)
      fb.

Definition record_feedback (fb : feedback_data) (venue_id : Z)
           (feedback_type : string) : feedback_data :=
  let fb := if has_feedback venue_id fb then fb
            else (fb ++ [(venue_id, (O, O))])%list in
  if String.eqb feedback_type "like" then count_feedback true venue_id fb
  else if String.eqb feedback_type "dislike" then count_feedback false venue_id fb
  else fb.

(** [keywords[word] = keywords.get(word, 0) + 1] *)
Fixpoint count_word (keywords : list (string * nat)) (word : string)
  : list (string * nat) :=
  match keywords with
  | [] => [(word, 1%nat)]
  | (w, n) :: keywords' =>
      if String.eqb w word then (w, S n) :: keywords'
      else (w, n) :: count_word keywords' word
  end.

Section UserProfile.

(** [str.lower] and [str.split] (no argument: the words between runs of
    white space) of the builtins. *)
Variable str_lower : string -> string.
Variable str_split : string -> list string.

(** The dict [keywords] after the two loops over the history. *)
Definition keywords_of (search_history : list string) : list (string * nat) :=
  fold_left (fun keywords search =>
               fold_left count_word (str_split (str_lower search)) keywords)
            search_history [].

(** [word in keywords] *)
Definition in_keywords (word : string) (keywords : list (string * nat)) : bool :=
  existsb (fun kv => String.eqb (fst kv) word) keywords.

Definition add_price_weight (w : W.t) (x : Q) : W.t :=
  W.mk (W.preference_weight w) (W.rating_weight w) (W.price_weight w + x)
       (W.distance_weight w) (W.facility_weight w) (W.explore_vs_exploit w)
       (W.popularity_bias w) (W.novelty_preference w) (W.serendipity_factor w).

Definition add_rating_weight (w : W.t) (x : Q) : W.t :=
  W.mk (W.preference_weight w) (W.rating_weight w + x) (W.price_weight w)
       (W.distance_weight w) (W.facility_weight w) (W.explore_vs_exploit w)
       (W.popularity_bias w) (W.novelty_preference w) (W.serendipity_factor w).

(** [update_user_profile], on [self.weights]. *)
Definition update_user_profile (weights : W.t) (prefs : user_preferences) : W.t :=
  match search_history prefs with
  | [] => weights
  | _ =>
      let keywords := keywords_of (search_history prefs) in
      let weights :=
        if in_keywords "便宜" keywords || in_keywords "低價" keywords
        then add_price_weight weights (5 # 100) else weights in
      if in_keywords "高評分" keywords || in_keywords "好評" keywords
      then add_rating_weight weights (5 # 100) else weights
  end.

End UserProfile.

Close Scope Q_scope.

(* ================================================================== *)
(** * Vocabulary of the properties *)
(* ================================================================== *)

(** ** Sample data *)

(** A raw table of three rows: a court in the 200-500 bucket, a row without
    a name (dropped by the loader), and a pool without a price. *)
Definition raw_of (nm dist price sport : cell) : raw_row :=
  mk_raw_row nm dist price sport NaNCell NaNCell NaNCell NaNCell NaNCell
             NaNCell NaNCell NaNCell NaNCell.

Definition sample_csv : list raw_row :=
  [ raw_of (Text "Daan Court") (Text "大安區") (Text "NT$200-500") (Text "籃球場");
    raw_of NaNCell (Text "大安區") (Text "0-200") (Text "桌球");
    raw_of (Text " Xinyi Pool ") (Text "信義區") NaNCell (Text "室內游泳池") ].

(** Two venues of the kind the store loads: a basketball court in Da'an at
    300 an hour rated 4.5, a swimming pool in Xinyi at 800 rated 3.0. *)
Definition sample_venue (i : Z) (nm dist sport : string) (price rate : Q) : venue :=
  {| id := i;
     name := nm;
     district := dist;
     address := "";
     sport_type := sport;
     price_per_hour := Some price;
     rating := Some rate;
     facilities := "基本設施";
     description := "";
     contact_phone := "";
     opening_hours := "";
     website := "";
     venue_scale := "";
     courses := "";
     photos := "";
     latitude := Some (fst (_get_district_coordinates_static (Text dist)));
     longitude := Some (snd (_get_district_coordinates_static (Text dist))) |}.

Definition court : venue := sample_venue 1 "Daan Court" "大安區" "籃球" 300 (45 # 10).
Definition pool : venue := sample_venue 2 "Xinyi Pool" "信義區" "游泳" 800 3.

Definition sample_table : frame venue := mk_frame venue_columns [court; pool].

(** A pool whose rating is missing, and one rated -10. *)
Definition unrated_pool : venue :=
  {| id := 2; name := "Xinyi Pool"; district := "信義區"; address := "";
     sport_type := "游泳"; price_per_hour := Some 800%Q; rating := None;
     facilities := "基本設施"; description := ""; contact_phone := "";
     opening_hours := ""; website := ""; venue_scale := ""; courses := "";
     photos := ""; latitude := None; longitude := None |}.

Definition disliked_pool : venue :=
  sample_venue 2 "Xinyi Pool" "信義區" "游泳" 800 (- (10))%Q.

(** A venue whose latitude is missing. *)
Definition unlocated_court : venue :=
  {| id := 1; name := "Daan Court"; district := "大安區"; address := "";
     sport_type := "籃球"; price_per_hour := Some 300%Q; rating := Some (45 # 10)%Q;
     facilities := "基本設施"; description := ""; contact_phone := "";
     opening_hours := ""; website := ""; venue_scale := ""; courses := "";
     photos := ""; latitude := None; longitude := Some (1215484 / 10000)%R |}.

(** ** Venue store *)

(** What the store guarantees of the price of a row. *)
Definition price_loaded (v : venue) : Prop :=
  exists p : Z,
    price_per_hour v = Some (inject_Z p)
    /\ 100 <= p <= 700
    /\ forall (df : frame venue) (prefs : user_preferences),
        has_column df "price_per_hour" = true ->
        _calculate_price_match df prefs v = price_match_of_number prefs (inject_Z p).

(** [None] for an empty table, the table otherwise: the value every query
    ends on. *)
Definition or_none {A : Type} (fr : frame A) : option (frame A) :=
  if frame_empty fr then None else Some fr.

Section QueryVocabulary.

Variable re_compile : bool -> string -> option (string -> bool).
Variable str_lower : string -> string.
Variable str_strip : string -> string.
Variable df : frame venue.

(** [pat] is found in [s] by the compiled pattern. *)
Definition found_in (ignorecase : bool) (pat s : string) : bool :=
  match re_compile ignorecase pat with
  | Some found => found s
  | None => false
  end.

(** The prepared query is found in one of the searched columns of the row. *)
Definition search_hit (q : string) (v : venue) : bool :=
  existsb (fun col => has_column df (fst col)
                      && found_in false q (str_lower (snd col v)))
          search_columns.

(** The predicates of [get_filtered_venues], each one true of every row
    when its argument is not given or the table lacks its column. *)
Definition query_ok (search_query : option string) (v : venue) : bool :=
  match search_query with
  | Some q => if String.eqb q "" then true else search_hit (str_strip (str_lower q)) v
  | None => true
  end.

Definition sport_ok (sport_types : option (list string)) (v : venue) : bool :=
  match given sport_types with
  | [] => true
  | l => negb (has_column df "sport_type") || str_in (sport_type v) l
  end.

Definition district_ok (districts : option (list string)) (v : venue) : bool :=
  match given districts with
  | [] => true
  | l => negb (has_column df "district") || str_in (district v) l
  end.

Definition price_ok (price_range : option (Q * Q)) (v : venue) : bool :=
  match price_range with
  | Some (min_price, max_price) =>
      negb (has_column df "price_per_hour") || in_price_range min_price max_price v
  | None => true
  end.

Definition facilities_ok (wanted : option (list string)) (v : venue) : bool :=
  negb (has_column df "facilities")
  || forallb (fun facility => found_in true facility (facilities v)) (given wanted).

Definition rating_ok (min_rating : Q) (v : venue) : bool :=
  negb (Qltb 0 min_rating && has_column df "rating")
  || rating_at_least min_rating v.

(** The conjunction of the supplied predicates. *)
Definition row_matches (sport_types districts : option (list string))
           (price_range : option (Q * Q)) (wanted : option (list string))
           (min_rating : Q) (search_query : option string) (v : venue) : bool :=
  query_ok search_query v && sport_ok sport_types v && district_ok districts v
  && price_ok price_range v && facilities_ok wanted v && rating_ok min_rating v.

(** A table that holds the rows of [df] a test keeps, under its columns. *)
Definition keeps (fd : frame venue) (g : venue -> bool) : Prop :=
  columns fd = columns df /\ rows fd = filter g (rows df).

End QueryVocabulary.

(** The row mentions the text in one of the six searched fields, whatever
    the case of the field. *)
Definition mentions (str_lower : string -> string) (q : string) (v : venue) : Prop :=
  is_substring q (str_lower (name v)) = true
  \/ is_substring q (str_lower (address v)) = true
  \/ is_substring q (str_lower (district v)) = true
  \/ is_substring q (str_lower (sport_type v)) = true
  \/ is_substring q (str_lower (facilities v)) = true
  \/ is_substring q (str_lower (description v)) = true.

(** A pattern without metacharacters is searched as the text it is. *)
Definition literal_patterns_match_themselves
           (re_compile : bool -> string -> option (string -> bool)) : Prop :=
  forall (pat : string) (found : string -> bool),
    literal_pattern pat = true ->
    re_compile false pat = Some found ->
    forall s, found s = is_substring pat s.

(** ** Recommendation engine *)

Open Scope Q_scope.

(** Ratings that are all numbers, none negative. *)
Definition ratings_nonnegative (venues_data : frame venue) : Prop :=
  forall v, In v (rows venues_data) -> exists r, rating v = Some r /\ 0 <= r.

(** The score of a row is the weighted sum of its five components. *)
Definition score_is_composite (weights : W.t) (row : scored) : Prop :=
  recommendation_score row
  = match rating_weight row with
    | Some rw => Some (composite weights (preference_match row) rw (price_match row)
                                 (distance_score row) (facility_match row))
    | None => None
    end.

Definition score_in_0_10 (row : scored) : Prop :=
  exists s, recommendation_score row = Some s /\ 0 <= s <= 10.

(** The preferences of the specification's scenario: basketball, Da'an,
    0 to 500 an hour. *)
Definition scenario_prefs : user_preferences :=
  mk_prefs ["籃球"] ["大安區"] (Some (0, 500)) [].

(** Preferences whose price range ends below zero, and preferences for free
    venues only. *)
Definition negative_range_prefs : user_preferences :=
  mk_prefs [] [] (Some (- (2), - (1))) [].
Definition free_only_prefs : user_preferences :=
  mk_prefs [] [] (Some (0, 0)) [].

(** The number of rows that share the sport of [r]. *)
Definition group_size (l : list scored) (r : scored) : nat :=
  List.length (filter (in_group (sport_type (venue_of r))) l).

(** The row after the adjustment. *)
Definition adjusted (diversity_weight : Q) (l : list scored) (r : scored) : scored :=
  penalize (diversity_penalty diversity_weight (group_size l r)) r.

(** What the adjustment does to the score of one row of the table. *)
Definition score_lowered (dw : Q) (l : list scored) (r : scored) : Prop :=
  forall s, recommendation_score r = Some s ->
            recommendation_score (adjusted dw l r)
            = Some (s - diversity_penalty dw (group_size l r))
            /\ s - diversity_penalty dw (group_size l r) <= s
            /\ (0 < dw -> (1 < group_size l r)%nat ->
                s - diversity_penalty dw (group_size l r) < s).

(** A second basketball court, and the sample table with it, scored for the
    scenario's preferences. *)
Definition second_court : venue :=
  sample_venue 3 "Xinyi Court" "信義區" "籃球" 400 4.

Definition scored_sample : frame scored :=
  match _calculate_recommendation_scores
          reset_weights (mk_frame venue_columns [court; pool; second_court])
          scenario_prefs with
  | Ok scored_table => scored_table
  | Raise _ => empty_frame
  end.

(** The venue store has nothing to give. *)
Definition upstream_empty (upstream : result (option (frame venue))) : Prop :=
  upstream = Ok None
  \/ exists df, upstream = Ok (Some df) /\ frame_empty df = true.

(** An exception inside the [try] of a strategy: in the venue store, or in
    the rest of the block on the table it gave. *)
Definition fails_inside {A : Type} (upstream : result (option (frame venue)))
           (body : frame venue -> result A) : Prop :=
  (exists e, upstream = Raise e)
  \/ exists df e, upstream = Ok (Some df) /\ frame_empty df = false
                  /\ body df = Raise e.

(** A body that raises. *)
Definition raising_body {A : Type} (n : nat) (df : frame venue) : result A :=
  Raise OtherException.

Close Scope Q_scope.

(** ** Geo helper *)

Section ClusterVocabulary.

Variable all : list (nat * venue).

(** The label of a row of the table that has both coordinates. *)
Definition located_index (i : nat) : Prop :=
  exists v, In (i, v) all /\ located v <> None.

(** What the outer loop keeps true of [clusters], [cluster_id] and
    [assigned_venues]. *)
Definition cluster_inv (st : list (string * list nat) * nat * list nat) : Prop :=
  let '(clusters, cluster_id, assigned_venues) := st in
  Permutation (List.concat (map snd clusters)) assigned_venues
  /\ NoDup assigned_venues
  /\ (forall i, In i assigned_venues -> located_index i)
  /\ map fst clusters = map cluster_key (seq 0 cluster_id).

End ClusterVocabulary.

Open Scope R_scope.

(** The haversine of the central angle between two points given in
    radians, the cosine of that angle as the product of their unit vectors,
    and the angle. *)
Definition hav (p1 l1 p2 l2 : R) : R :=
  sin ((p2 - p1) / 2) ^ 2 + cos p1 * cos p2 * sin ((l2 - l1) / 2) ^ 2.

Definition dot (p1 l1 p2 l2 : R) : R :=
  cos p1 * cos l1 * (cos p2 * cos l2) + cos p1 * sin l1 * (cos p2 * sin l2)
  + sin p1 * sin p2.

Definition central_angle (p1 l1 p2 l2 : R) : R := 2 * asin (sqrt (hav p1 l1 p2 l2)).

Close Scope R_scope.

(** ** Geo helper, the other functions *)

Open Scope R_scope.

(** The distance of a row to a point, when the row has both coordinates. *)
Definition distance_to (lat lon : R) (v : venue) : option R :=
  match located v with
  | Some (vlat, vlon) => Some (calculate_distance lat lon vlat vlon)
  | None => None
  end.

(** What the scan of [find_nearest_venue] holds after the rows [seen]. *)
Definition nearest_so_far (lat lon : R) (seen : list venue)
           (st : option R * option (venue * R)) : Prop :=
  (st = (None, None) /\ forall v, In v seen -> located v = None)
  \/ exists v d,
      st = (Some d, Some (v, d))
      /\ In v seen /\ distance_to lat lon v = Some d
      /\ forall v' d', In v' seen -> distance_to lat lon v' = Some d' -> d <= d'.

(** The point is inside the bounds of the city. *)
Definition in_taipei (p : R * R) : Prop :=
  bound_south <= fst p <= bound_north /\ bound_west <= snd p <= bound_east.

(** The point is inside the box of two corners. *)
Definition between (a b x : R) : Prop := Rmin a b <= x <= Rmax a b.

Close Scope R_scope.

(** ** Weather lookup *)

(** What is used of the rounding to the nearest double: it keeps the order
    of the numbers, and it leaves a multiple of 1/128 of size 2^45 at most
    as it is (such a number is a double). *)
Definition double_rounding (to_double : Q -> Q) : Prop :=
  (forall x y : Q, (x <= y)%Q -> (to_double x <= to_double y)%Q)
  /\ (forall k : Z, - 2 ^ 52 <= k <= 2 ^ 52 -> (to_double (k # 128) == k # 128)%Q).

(** The rounding that has nothing to round. *)
Definition unrounded (x : Q) : Q := x.

(** ** Weather lookup, the other functions *)

Section TimeVocabulary.

Variable fromisoformat : string -> option Q.

(** The distance in seconds of an entry to a time, when its ['DataTime']
    can be read. *)
Definition time_diff_of (current_time : Q) (dp : data_point) : option Q :=
  match fromisoformat (replace "+08:00" "" (data_time_str dp)) with
  | Some data_time => Some (Qabs (current_time - data_time))
  | None => None
  end.

(** What the scan of [_get_current_time_data] holds after the entries
    [seen]: nothing when none could be read, else the first of the entries
    nearest to the time. *)
Definition closest_so_far (current_time : Q) (seen : list data_point)
           (st : option Q * option data_point) : Prop :=
  (st = (None, None) /\ forall dp, In dp seen -> time_diff_of current_time dp = None)
  \/ exists before dp after d,
      st = (Some d, Some dp)
      /\ seen = (before ++ dp :: after)%list
      /\ time_diff_of current_time dp = Some d
      /\ (forall dp' d', In dp' before -> time_diff_of current_time dp' = Some d' ->
                         (d < d')%Q)
      /\ (forall dp' d', In dp' after -> time_diff_of current_time dp' = Some d' ->
                         (d <= d')%Q).

End TimeVocabulary.

(** ** Recommendation engine, the other functions *)

Open Scope Q_scope.

(** The score of a row is not below that of the next; a NaN score is below
    every number. *)
Definition not_below (a b : scored) : Prop :=
  match recommendation_score a, recommendation_score b with
  | Some x, Some y => y <= x
  | _, None => True
  | None, Some _ => False
  end.

Section ProfileVocabulary.

Variable str_lower : string -> string.
Variable str_split : string -> list string.

(** The word is one of the words of a search of the history. *)
Definition searched_for (word : string) (prefs : user_preferences) : Prop :=
  exists search, In search (search_history prefs)
                 /\ In word (str_split (str_lower search)).

(** The history asks for low prices, for high ratings. *)
Definition asks_low_price (prefs : user_preferences) : Prop :=
  searched_for "便宜" prefs \/ searched_for "低價" prefs.

Definition asks_high_rating (prefs : user_preferences) : Prop :=
  searched_for "高評分" prefs \/ searched_for "好評" prefs.

(** [update_user_profile] called [n] times with the same preferences. *)
Definition update_user_profile_times (n : nat) (prefs : user_preferences)
           (weights : W.t) : W.t :=
  Nat.iter n (fun w => update_user_profile str_lower str_split w prefs) weights.

End ProfileVocabulary.

(** The feedback of a kind a list of events holds for a venue. *)
Definition count_events (kind : string) (venue_id : Z)
           (events : list (Z * string)) : nat :=
  List.length (filter (fun e => Z.eqb (fst e) venue_id && String.eqb (snd e) kind)
                      events).

(** [record_feedback] on each event of a list. *)
Definition record_all (fb : feedback_data) (events : list (Z * string))
  : feedback_data :=
  fold_left (fun fb e => record_feedback fb (fst e) (snd e)) events fb.

(** [self.feedback_data.get(venue_id)] *)
Definition feedback_of (venue_id : Z) (fb : feedback_data) : option (nat * nat) :=
  match find (fun kv => Z.eqb (fst kv) venue_id) fb with
  | Some kv => Some (snd kv)
  | None => None
  end.

Close Scope Q_scope.


(* ================================================================== *)
(** * Properties *)
(* ================================================================== *)

(* ------------------------------------------------------------------ *)
(** ** Weather lookup: the wind-direction table *)

Lemma Qnum_nonneg (x : Q) : (0 <= x)%Q -> 0 <= Qnum x.
Proof.
  unfold Qle; simpl. lia.
Qed.

(** On a number that is not negative [int] is the floor. *)
Lemma py_int_floor (x : Q) : (0 <= x)%Q -> py_int x = Qfloor x.
Proof.
  intros H. destruct x as [n d]. unfold py_int, Qfloor; simpl.
  apply Qnum_nonneg in H; simpl in H.
  apply Z.quot_div_nonneg; lia.
Qed.

Lemma bucket_nonneg (deg : Q) :
  (- (45 # 4) <= deg)%Q -> (0 <= (deg + (45 # 4)) / (45 # 2))%Q.
Proof.
  intros H. apply Qle_shift_div_l; [reflexivity|].
  rewrite Qmult_0_l.
  apply Qplus_le_l with (z := (- (45 # 4))%Q).
  ring_simplify. ring_simplify in H. exact H.
Qed.

Lemma double_rounding_compat (to_double : Q -> Q) (x y : Q) :
  double_rounding to_double -> (x == y)%Q -> (to_double x == to_double y)%Q.
Proof.
  intros [Hmono _] E. apply Qle_antisym; apply Hmono; rewrite E; apply Qle_refl.
Qed.

Lemma double_rounding_exact (to_double : Q -> Q) (x : Q) (k : Z) :
  double_rounding to_double -> (x == k # 128)%Q -> - 2 ^ 52 <= k <= 2 ^ 52 ->
  (to_double x == x)%Q.
Proof.
  intros Hd E Hk. rewrite (double_rounding_compat Hd E), E. now apply (proj2 Hd).
Qed.

Lemma Qfloor_between (x : Q) (n : Z) :
  (inject_Z n <= x)%Q -> (x < inject_Z (n + 1))%Q -> Qfloor x = n.
Proof.
  intros H1 H2.
  assert (A : n <= Qfloor x).
  { rewrite <- (Qfloor_Z n). now apply Qfloor_resp_le. }
  assert (B : Qfloor x < n + 1).
  { rewrite Zlt_Qlt. eapply Qle_lt_trans; [apply Qfloor_le | exact H2]. }
  lia.
Qed.

(** On a multiple of a quarter of a degree, from -11.25 degrees on, the
    roundings of the sum and of the quotient do not change the bucket: the
    sum is a double, and the quotient is a whole number or at least 1/90
    below the next one. *)
Lemma wind_index_quarters (to_double : Q -> Q) (deg : Q) (k : Z) :
  double_rounding to_double ->
  (deg == k # 4)%Q -> - 45 <= k <= 2 ^ 46 ->
  wind_index to_double deg = Qfloor ((deg + (45 # 4)) / (45 # 2)) mod 16.
Proof.
  intros Hd Hdeg Hk. unfold wind_index.
  set (m := k + 45).
  assert (Hm : 0 <= m <= 2 ^ 46 + 45) by (unfold m; lia).
  assert (Hsum : (deg + (45 # 4) == (32 * m) # 128)%Q).
  { rewrite Hdeg. unfold m, Qeq, Qplus. cbn [Qnum Qden]. lia. }
  assert (Esum : (to_double (deg + (45 # 4)) == deg + (45 # 4))%Q).
  { apply (double_rounding_exact Hd Hsum). lia. }
  assert (Equot : ((deg + (45 # 4)) / (45 # 2) == m # 90)%Q).
  { rewrite Hdeg. unfold m, Qeq, Qdiv, Qmult, Qinv, Qplus. cbn [Qnum Qden]. lia. }
  assert (Efloor : Qfloor ((deg + (45 # 4)) / (45 # 2)) = m / 90).
  { rewrite Equot. reflexivity. }
  set (x := (to_double (deg + (45 # 4)) / (45 # 2))%Q).
  assert (Ex : (x == m # 90)%Q).
  { unfold x. rewrite Esum. exact Equot. }
  set (n := m / 90).
  assert (Hn : 0 <= n <= 2 ^ 44).
  { unfold n. split; [apply Z.div_pos; lia|].
    apply Z.div_le_upper_bound; lia. }
  pose proof (Z.div_mod m 90 ltac:(lia)) as Hdiv. fold n in Hdiv.
  pose proof (Z.mod_pos_bound m 90 ltac:(lia)) as Hmod.
  assert (Hlow : (inject_Z n <= to_double x)%Q).
  { assert (E : (to_double (inject_Z n) == inject_Z n)%Q).
    { apply (@double_rounding_exact to_double (inject_Z n) (128 * n) Hd); [|lia].
      unfold inject_Z, Qeq. cbn [Qnum Qden]. lia. }
    rewrite <- E. apply (proj1 Hd). rewrite Ex.
    unfold inject_Z, Qle. cbn [Qnum Qden]. lia. }
  assert (Hhigh : (to_double x < inject_Z (n + 1))%Q).
  { destruct (Z.eq_dec (m mod 90) 0) as [E0 | Hr].
    - assert (E : (x == inject_Z n)%Q).
      { rewrite Ex. unfold inject_Z, Qeq. cbn [Qnum Qden]. lia. }
      rewrite (double_rounding_compat Hd E).
      rewrite (@double_rounding_exact to_double (inject_Z n) (128 * n) Hd); [| |lia].
      + rewrite <- Zlt_Qlt. lia.
      + unfold inject_Z, Qeq. cbn [Qnum Qden]. lia.
    - apply Qle_lt_trans with (y := ((128 * n + 127) # 128)%Q).
      + rewrite <- (proj2 Hd (128 * n + 127)) by lia.
        apply (proj1 Hd). rewrite Ex. unfold Qle. cbn [Qnum Qden]. lia.
      + unfold inject_Z, Qlt. cbn [Qnum Qden]. lia. }
  assert (H0 : (0 <= to_double x)%Q).
  { eapply Qle_trans; [|exact Hlow]. change 0%Q with (inject_Z 0).
    rewrite <- Zle_Qle. lia. }
  fold x. rewrite (py_int_floor H0), (Qfloor_between Hlow Hhigh), Efloor.
  reflexivity.
Qed.

Section WindDirection.

Variable float_of_string : string -> option pyfloat.
Variable to_double : Q -> Q.
Hypothesis to_double_rounds : double_rounding to_double.

(** C6, as amended: for a wind direction that is a multiple of a quarter
    of a degree (every whole number of degrees is one), at least -11.25
    and at most 2^44, the label is the entry of index
    floor((deg + 11.25) / 22.5) mod 16 of the sixteen-label table; 0, 90,
    180 and 270 degrees are the north, east, south and west winds. *)
Theorem wind_direction_bucket (s : string) (deg : Q) (k : Z) :
  float_of_string s = Some (Finite deg) ->
  (deg == k # 4)%Q -> - 45 <= k <= 2 ^ 46 ->
  _convert_wind_direction float_of_string to_double s
  = nth (Z.to_nat (Qfloor ((deg + (45 # 4)) / (45 # 2)) mod 16)) directions s
  /\ ((deg == 0)%Q -> _convert_wind_direction float_of_string to_double s = "北風")
  /\ ((deg == 90)%Q -> _convert_wind_direction float_of_string to_double s = "東風")
  /\ ((deg == 180)%Q -> _convert_wind_direction float_of_string to_double s = "南風")
  /\ ((deg == 270)%Q -> _convert_wind_direction float_of_string to_double s = "西風").
Proof.
  intros Hs Hdeg Hk. unfold _convert_wind_direction. rewrite Hs.
  rewrite (wind_index_quarters to_double_rounds Hdeg Hk).
  split; [reflexivity|].
  repeat split; intros E; rewrite E; reflexivity.
Qed.

End WindDirection.

Lemma unrounded_rounds : double_rounding unrounded.
Proof.
  split; [intros x y H; exact H | intros k _; reflexivity].
Qed.

(** The theorem at the text ["90"]. *)
Lemma wind_direction_bucket_witness :
  double_rounding unrounded
  /\ decimal_float "90" = Some (Finite 90%Q)
  /\ _convert_wind_direction decimal_float unrounded "90"
     = nth (Z.to_nat (Qfloor ((90 + (45 # 4)) / (45 # 2)) mod 16)) directions "90"
  /\ _convert_wind_direction decimal_float unrounded "90" = "東風".
Proof.
  split; [exact unrounded_rounds|]. split; [reflexivity|].
  destruct (@wind_direction_bucket decimal_float unrounded unrounded_rounds "90" 90%Q 360)
    as (H & _ & H90 & _).
  - reflexivity.
  - reflexivity.
  - lia.
  - split; [exact H | apply H90; reflexivity].
Defined.

(** C6 as stated fails below -11.25 degrees: at -20 the code truncates the
    quotient -0.38 to 0 (north wind), whatever the doubles round it to,
    where the floor is -1, index 15. *)
Lemma wind_direction_minus_20 :
  decimal_float "-20" = Some (Finite (- 20)%Q)
  /\ (forall to_double,
         double_rounding to_double ->
         _convert_wind_direction decimal_float to_double "-20" = "北風")
  /\ nth (Z.to_nat (Qfloor ((- 20 + (45 # 4)) / (45 # 2)) mod 16)) directions "-20"
     = "北北西風"
  /\ _convert_wind_direction decimal_float unrounded "-20"
     <> nth (Z.to_nat (Qfloor ((- 20 + (45 # 4)) / (45 # 2)) mod 16)) directions "-20".
Proof.
  split; [reflexivity|]. split; [|split; [reflexivity | vm_compute; discriminate]].
  intros to_double Hd. unfold _convert_wind_direction.
  replace (decimal_float "-20") with (Some (Finite (- 20)%Q)) by reflexivity.
  assert (Esum : (to_double (- 20 + (45 # 4)) == - (1120 # 128))%Q).
  { rewrite (@double_rounding_exact to_double (- 20 + (45 # 4))%Q (- 1120) Hd);
      [reflexivity | reflexivity | lia]. }
  set (x := (to_double (- 20 + (45 # 4)) / (45 # 2))%Q).
  assert (Ex : (x == - (7 # 18))%Q) by (unfold x; rewrite Esum; reflexivity).
  assert (Hlow : (- (1 # 2) <= to_double x)%Q).
  { apply Qle_trans with (y := to_double ((- 64) # 128)%Q).
    - rewrite (proj2 Hd (- 64)) by lia. unfold Qle. cbn. lia.
    - apply (proj1 Hd). rewrite Ex. unfold Qle. cbn. lia. }
  assert (Hhigh : (to_double x <= 0)%Q).
  { apply Qle_trans with (y := to_double (0 # 128)%Q).
    - apply (proj1 Hd). rewrite Ex. unfold Qle. cbn. lia.
    - rewrite (proj2 Hd 0) by lia. unfold Qle. cbn. lia. }
  assert (E : wind_index to_double (- 20) = 0).
  { unfold wind_index. fold x. unfold py_int.
    destruct (to_double x) as [num den]. unfold Qle in Hlow, Hhigh.
    cbn [Qnum Qden] in *.
    assert (Hq : Z.quot num (Z.pos den) = 0).
    { apply Z.quot_small_iff; [lia|]. cbn in Hlow, Hhigh. lia. }
    now rewrite Hq. }
  rewrite E. reflexivity.
Qed.

(* ------------------------------------------------------------------ *)
(** ** Venue store: the price of a loaded venue *)

Lemma randint_bounds (a b : Z) (g : rng) :
  a <= b -> a <= fst (randint a b g) <= b.
Proof.
  intros H. destruct g as [|x g]; simpl; [lia|].
  pose proof (Z.mod_pos_bound x (b - a + 1)). lia.
Qed.

(** The price [_extract_price_static] returns, bucket by bucket. *)
Lemma extract_price_cases (c : cell) (g : rng) :
  let p := fst (_extract_price_static c g) in
  (cell_blank c = true /\ 100 <= p <= 500)
  \/ (cell_blank c = false /\
      ((is_substring "0-200" (cell_str c) = true /\ p = 150)
       \/ (is_substring "0-200" (cell_str c) = false
           /\ is_substring "200-500" (cell_str c) = true /\ p = 350)
       \/ (is_substring "0-200" (cell_str c) = false
           /\ is_substring "200-500" (cell_str c) = false
           /\ is_substring "500以上" (cell_str c) = true /\ p = 700)
       \/ (is_substring "0-200" (cell_str c) = false
           /\ is_substring "200-500" (cell_str c) = false
           /\ is_substring "500以上" (cell_str c) = false
           /\ 200 <= p <= 400))).
Proof.
  unfold _extract_price_static.
  destruct (cell_blank c) eqn:B; cbv zeta.
  - left. split; [reflexivity|]. apply randint_bounds. lia.
  - right. split; [reflexivity|].
    destruct (is_substring "0-200" (cell_str c)) eqn:E1; [left; now split|].
    destruct (is_substring "200-500" (cell_str c)) eqn:E2;
      [right; left; now repeat split|].
    destruct (is_substring "500以上" (cell_str c)) eqn:E3;
      [right; right; left; now repeat split|].
    right; right; right. repeat split; apply randint_bounds; lia.
Qed.

Lemma extract_price_bounds (c : cell) (g : rng) :
  100 <= fst (_extract_price_static c g) <= 700.
Proof.
  pose proof (extract_price_cases c g) as H. cbv zeta in H.
  destruct H as [[_ H] | [_ [[_ H] | [(_ & _ & H) | [(_ & _ & _ & H) | (_ & _ & _ & H)]]]]];
    lia.
Qed.

Lemma load_row_price (idx : Z) (row : raw_row) (g : rng) :
  price_per_hour (fst (load_row idx row g))
  = Some (inject_Z (fst (_extract_price_static (raw_price_range row) g))).
Proof.
  unfold load_row.
  destruct (_extract_price_static (raw_price_range row) g) as [p g1].
  destruct (uniform_rating g1) as [r g2]. reflexivity.
Qed.

Lemma load_row_price_loaded (idx : Z) (row : raw_row) (g : rng) :
  price_loaded (fst (load_row idx row g)).
Proof.
  exists (fst (_extract_price_static (raw_price_range row) g)).
  split; [apply load_row_price|].
  split; [apply extract_price_bounds|].
  intros df prefs Hc. unfold _calculate_price_match.
  now rewrite Hc, load_row_price.
Qed.

Lemma load_rows_price_loaded (raw : list raw_row) :
  forall (idx : Z) (g : rng), Forall price_loaded (fst (load_rows idx raw g)).
Proof.
  induction raw as [|row raw IH]; intros idx g; simpl; [constructor|].
  destruct (has_name row); [|apply IH].
  pose proof (load_row_price_loaded idx row g) as Hrow.
  destruct (load_row idx row g) as [v g1]; simpl in Hrow.
  specialize (IH (idx + 1) g1).
  destruct (load_rows (idx + 1) raw g1) as [vs g2]; simpl in *.
  now constructor.
Qed.

(** C10: every row the store loads has a price that is present, an integer
    between 100 and 700, so the price match of such a row never goes
    through the missing-price branch: it is the match of that number.  The
    price of a row is what [_extract_price_static] makes of the price cell
    of its raw row: a draw from [100,500] for a blank cell; for a text,
    150 when it holds 0-200, else 350 when it holds 200-500, else 700 when
    it holds 500以上, else a draw from [200,400]. *)
Theorem store_price_present_and_bounded (csv : option (list raw_row)) (g : rng) :
  Forall price_loaded (rows (fst (load_venues_data csv g)))
  /\ (forall (idx : Z) (row : raw_row) (g' : rng),
         price_per_hour (fst (load_row idx row g'))
         = Some (inject_Z (fst (_extract_price_static (raw_price_range row) g'))))
  /\ forall (c : cell) (g' : rng),
      let p := fst (_extract_price_static c g') in
      100 <= p <= 700
      /\ ((cell_blank c = true /\ 100 <= p <= 500)
          \/ (cell_blank c = false /\
              ((is_substring "0-200" (cell_str c) = true /\ p = 150)
               \/ (is_substring "0-200" (cell_str c) = false
                   /\ is_substring "200-500" (cell_str c) = true /\ p = 350)
               \/ (is_substring "0-200" (cell_str c) = false
                   /\ is_substring "200-500" (cell_str c) = false
                   /\ is_substring "500以上" (cell_str c) = true /\ p = 700)
               \/ (is_substring "0-200" (cell_str c) = false
                   /\ is_substring "200-500" (cell_str c) = false
                   /\ is_substring "500以上" (cell_str c) = false
                   /\ 200 <= p <= 400)))).
Proof.
  split; [|split].
  - unfold load_venues_data. destruct csv as [raw|]; [|constructor].
    pose proof (load_rows_price_loaded raw 0 g) as H.
    destruct (load_rows 0 raw g) as [[|v vs] g']; simpl in *; [constructor | exact H].
  - exact load_row_price.
  - intros c g'. cbv zeta. split; [apply extract_price_bounds|].
    exact (extract_price_cases c g').
Qed.

Example load_sample_csv :
  map (fun v => (id v, name v, sport_type v, price_per_hour v, rating v))
      (rows (fst (load_venues_data (Some sample_csv) [7; 3; 1000])))
  = [ (1, "Daan Court", "籃球", Some (inject_Z 350), Some (42 # 10)%Q);
      (3, "Xinyi Pool", "游泳", Some (inject_Z 103), Some (43 # 10)%Q) ].
Proof. reflexivity. Qed.

(** The theorem at the sample raw table. *)
Lemma store_price_witness :
  Forall price_loaded (rows (fst (load_venues_data (Some sample_csv) [7; 3; 1000]))).
Proof.
  exact (proj1 (@store_price_present_and_bounded (Some sample_csv) [7; 3; 1000])).
Defined.

(* ------------------------------------------------------------------ *)
(** ** Venue store: search and filter *)

Lemma select_map {A : Type} (f : A -> bool) (l : list A) :
  select (map f l) l = filter f l.
Proof.
  unfold select. induction l as [|x l IH]; simpl; [reflexivity|].
  destruct (f x); simpl; now rewrite IH.
Qed.

Lemma mask_or_map {A : Type} (f g : A -> bool) (l : list A) :
  mask_or (map f l) (map g l) = map (fun v => f v || g v) l.
Proof.
  induction l as [|x l IH]; simpl; [reflexivity | now rewrite IH].
Qed.

Lemma repeat_false_map {A : Type} (l : list A) :
  repeat false (List.length l) = map (fun _ => false) l.
Proof.
  induction l as [|x l IH]; simpl; [reflexivity | now rewrite IH].
Qed.

Lemma filter_filter {A : Type} (p q : A -> bool) (l : list A) :
  filter p (filter q l) = filter (fun v => q v && p v) l.
Proof.
  induction l as [|x l IH]; simpl; [reflexivity|].
  destruct (q x); simpl; [destruct (p x)|]; now rewrite IH.
Qed.

Lemma filter_all {A : Type} (l : list A) : filter (fun _ => true) l = l.
Proof.
  induction l as [|x l IH]; simpl; [reflexivity | now rewrite IH].
Qed.

Lemma filter_nil_weaken {A : Type} (p q : A -> bool) (l : list A) :
  filter p l = [] -> filter (fun v => p v && q v) l = [].
Proof.
  induction l as [|x l IH]; simpl; [reflexivity|].
  destruct (p x); simpl; [discriminate | exact IH].
Qed.

Lemma or_none_some {A : Type} (fr r : frame A) :
  Some r = or_none fr -> r = fr /\ frame_empty fr = false.
Proof.
  unfold or_none. destruct (frame_empty fr); [discriminate|].
  intros [= ->]. now split.
Qed.

Lemma frame_empty_rows {A : Type} (df : frame A) (l : list A) :
  frame_empty df = false ->
  frame_empty (mk_frame (columns df) l) = match l with [] => true | _ => false end.
Proof.
  unfold frame_empty; simpl. destruct (rows df), (columns df), l; simpl; congruence.
Qed.

Section VenueQueries.

Variable re_compile : bool -> string -> option (string -> bool).
Variable str_lower : string -> string.
Variable str_strip : string -> string.
Variable df : frame venue.

Lemma search_mask (q : string) (cols : list (string * (venue -> string))) :
  forall (f : venue -> bool) (mask : list bool),
    for_each
      (fun mask col =>
         if has_column df (fst col) then
           m <- str_contains re_compile false q
                  (map (fun v => str_lower (snd col v)) (rows df)) ;;
           Ok (mask_or mask m)
         else Ok mask)
      cols (map f (rows df)) = Ok mask ->
    mask = map (fun v => f v
                         || existsb (fun col => has_column df (fst col)
                                                && found_in re_compile false q (str_lower (snd col v)))
                                    cols)
               (rows df).
Proof.
  induction cols as [|col cols IH]; intros f mask; simpl.
  - intros [= <-]. apply map_ext. intros v. now rewrite orb_false_r.
  - destruct (has_column df (fst col)) eqn:Hc; simpl.
    + unfold str_contains at 1.
      destruct (re_compile false q) as [found|] eqn:E; cbn [bind]; [|discriminate].
      rewrite map_map, mask_or_map. intros H. apply IH in H. subst mask.
      apply map_ext. intros v. rewrite <- orb_assoc. do 2 f_equal.
      unfold found_in. now rewrite E.
    + intros H. apply IH in H. subst mask. reflexivity.
Qed.

Lemma search_venues_filter (query : string) (o : option (frame venue)) :
  frame_empty df = false ->
  query <> "" ->
  search_venues re_compile str_lower str_strip (Some df) query = Ok o ->
  o = or_none (mk_frame (columns df)
                        (filter (search_hit re_compile str_lower df (str_strip (str_lower query))) (rows df))).
Proof.
  intros Hne Hq. unfold search_venues. rewrite Hne.
  apply String.eqb_neq in Hq. rewrite Hq. simpl orb. cbv iota.
  rewrite repeat_false_map.
  destruct (for_each _ search_columns _) as [mask|e] eqn:E; simpl; [|discriminate].
  apply search_mask in E. subst mask. simpl orb.
  rewrite select_map. intros [= <-]. reflexivity.
Qed.

Lemma keeps_filter (fd : frame venue) (g p : venue -> bool) :
  keeps df fd g -> keeps df (filter_rows p fd) (fun v => g v && p v).
Proof.
  intros [Hc Hr]. split; simpl; [exact Hc|]. now rewrite Hr, filter_filter.
Qed.

Lemma keeps_ext (fd : frame venue) (g g' : venue -> bool) :
  (forall v, g v = g' v) -> keeps df fd g -> keeps df fd g'.
Proof.
  intros E [Hc Hr]. split; [exact Hc|]. rewrite Hr. now apply filter_ext.
Qed.

Lemma keeps_has_column (fd : frame venue) (g : venue -> bool) (c : string) :
  keeps df fd g -> has_column fd c = has_column df c.
Proof.
  intros [Hc _]. unfold has_column. now rewrite Hc.
Qed.

Lemma keeps_sport (fd : frame venue) (g : venue -> bool) sport_types :
  keeps df fd g -> keeps df (by_sport_types sport_types fd)
                      (fun v => g v && sport_ok df sport_types v).
Proof.
  intros K. unfold by_sport_types, sport_ok.
  rewrite (keeps_has_column "sport_type" K).
  destruct (given sport_types) as [|s l].
  - eapply keeps_ext; [|exact K]. intros v. now rewrite andb_true_r.
  - destruct (has_column df "sport_type"); simpl.
    + now apply keeps_filter.
    + eapply keeps_ext; [|exact K]. intros v. now rewrite andb_true_r.
Qed.

Lemma keeps_district (fd : frame venue) (g : venue -> bool) districts :
  keeps df fd g -> keeps df (by_districts districts fd)
                      (fun v => g v && district_ok df districts v).
Proof.
  intros K. unfold by_districts, district_ok.
  rewrite (keeps_has_column "district" K).
  destruct (given districts) as [|s l].
  - eapply keeps_ext; [|exact K]. intros v. now rewrite andb_true_r.
  - destruct (has_column df "district"); simpl.
    + now apply keeps_filter.
    + eapply keeps_ext; [|exact K]. intros v. now rewrite andb_true_r.
Qed.

Lemma keeps_price (fd : frame venue) (g : venue -> bool) price_range :
  keeps df fd g -> keeps df (by_price_range price_range fd)
                      (fun v => g v && price_ok df price_range v).
Proof.
  intros K. unfold by_price_range, price_ok.
  rewrite (keeps_has_column "price_per_hour" K).
  destruct price_range as [[min_price max_price]|].
  - destruct (has_column df "price_per_hour"); simpl.
    + now apply keeps_filter.
    + eapply keeps_ext; [|exact K]. intros v. now rewrite andb_true_r.
  - eapply keeps_ext; [|exact K]. intros v. now rewrite andb_true_r.
Qed.

Lemma keeps_rating (fd : frame venue) (g : venue -> bool) min_rating :
  keeps df fd g -> keeps df (by_min_rating min_rating fd)
                      (fun v => g v && rating_ok df min_rating v).
Proof.
  intros K. unfold by_min_rating, rating_ok.
  rewrite (keeps_has_column "rating" K).
  destruct (Qltb 0 min_rating && has_column df "rating"); simpl.
  - now apply keeps_filter.
  - eapply keeps_ext; [|exact K]. intros v. now rewrite andb_true_r.
Qed.

Lemma keeps_each_facility (wanted : list string) :
  forall (fd fd' : frame venue) (g : venue -> bool),
    keeps df fd g ->
    for_each (by_facility re_compile) wanted fd = Ok fd' ->
    keeps df fd' (fun v => g v && forallb (fun facility => found_in re_compile true facility (facilities v))
                                       wanted).
Proof.
  induction wanted as [|facility wanted IH]; intros fd fd' g K; simpl.
  - intros [= <-]. eapply keeps_ext; [|exact K]. intros v. now rewrite andb_true_r.
  - unfold by_facility at 1, str_contains.
    destruct (re_compile true facility) as [found|] eqn:E; cbn [bind]; [|discriminate].
    intros H.
    assert (K1 : keeps df (mk_frame (columns fd)
                          (select (map found (map facilities (rows fd))) (rows fd)))
                       (fun v => g v && found (facilities v))).
    { destruct K as [Hc Hr]. split; simpl; [exact Hc|].
      rewrite map_map, select_map, Hr. apply filter_filter. }
    apply (IH _ _ _ K1) in H.
    eapply keeps_ext; [|exact H]. intros v. cbv beta.
    rewrite <- andb_assoc. do 2 f_equal. unfold found_in. now rewrite E.
Qed.

End VenueQueries.

Lemma frame_eta {A : Type} (fd : frame A) : fd = mk_frame (columns fd) (rows fd).
Proof. now destruct fd. Qed.

Section FilteredVenues.

Variable re_compile : bool -> string -> option (string -> bool).
Variable str_lower : string -> string.
Variable str_strip : string -> string.
Variable df : frame venue.
Hypothesis df_not_empty : frame_empty df = false.

Lemma keeps_facilities (fd fd' : frame venue) (g : venue -> bool) wanted :
  keeps df fd g ->
  by_facilities re_compile wanted fd = Ok fd' ->
  keeps df fd' (fun v => g v && facilities_ok re_compile df wanted v).
Proof.
  intros K. unfold by_facilities, facilities_ok.
  rewrite (keeps_has_column "facilities" K).
  destruct (has_column df "facilities"); simpl.
  - now apply keeps_each_facility.
  - intros [= <-]. eapply keeps_ext; [|exact K]. intros v. now rewrite andb_true_r.
Qed.

(** The filters after the search, on a table that holds the rows [g]
    keeps. *)
Lemma filter_stages (fd : frame venue) (g : venue -> bool)
      sport_types districts price_range wanted min_rating o :
  keeps df fd g ->
  (filtered_data <-
     by_facilities re_compile wanted
       (by_price_range price_range (by_districts districts (by_sport_types sport_types fd))) ;;
   Ok (or_none (by_min_rating min_rating filtered_data))) = Ok o ->
  o = or_none
        (mk_frame (columns df)
           (filter (fun v => g v && sport_ok df sport_types v
                             && district_ok df districts v
                             && price_ok df price_range v
                             && facilities_ok re_compile df wanted v
                             && rating_ok df min_rating v)
                   (rows df))).
Proof.
  intros K.
  apply (keeps_sport sport_types) in K.
  apply (keeps_district districts) in K.
  apply (keeps_price price_range) in K.
  destruct (by_facilities re_compile wanted _) as [fd1|e] eqn:E; cbn [bind];
    [|discriminate].
  apply (keeps_facilities _ K) in E.
  apply (keeps_rating min_rating) in E.
  intros [= <-]. destruct E as [Hc Hr].
  rewrite (frame_eta (by_min_rating min_rating fd1)), Hc, Hr. reflexivity.
Qed.

(** [get_filtered_venues] keeps the rows that satisfy every supplied
    predicate, and answers [None] when there is none. *)
Lemma get_filtered_venues_filter
      sport_types districts price_range wanted min_rating search_query o :
  get_filtered_venues re_compile str_lower str_strip (Some df) sport_types districts price_range
                      wanted min_rating search_query = Ok o ->
  o = or_none
        (mk_frame (columns df)
           (filter (row_matches re_compile str_lower str_strip df sport_types districts price_range
                                wanted min_rating search_query)
                   (rows df))).
Proof.
  unfold get_filtered_venues. rewrite df_not_empty.
  assert (Hplain :
            query_ok re_compile str_lower str_strip df search_query = (fun _ => true) ->
            (searched <- Ok (Some df) ;;
             match searched with
             | None => Ok None
             | Some filtered_data =>
                 let filtered_data := by_sport_types sport_types filtered_data in
                 let filtered_data := by_districts districts filtered_data in
                 let filtered_data := by_price_range price_range filtered_data in
                 filtered_data <- by_facilities re_compile wanted filtered_data ;;
                 let filtered_data := by_min_rating min_rating filtered_data in
                 Ok (if frame_empty filtered_data then None else Some filtered_data)
             end) = Ok o ->
            o = or_none
                  (mk_frame (columns df)
                     (filter (row_matches re_compile str_lower str_strip df sport_types districts
                                          price_range wanted min_rating search_query)
                             (rows df)))).
  { intros Hq H. cbn [bind] in H. cbv zeta in H.
    apply (@filter_stages df (fun _ => true)) in H.
    - unfold row_matches. rewrite Hq. exact H.
    - split; [reflexivity | now rewrite filter_all]. }
  destruct search_query as [q|]; [|now apply Hplain].
  destruct (String.eqb q "") eqn:Eq.
  - apply Hplain. unfold query_ok. now rewrite Eq.
  - clear Hplain.
    destruct (search_venues re_compile str_lower str_strip (Some df) q) as [o1|e] eqn:Es; cbn [bind];
      [|discriminate].
    apply search_venues_filter in Es;
      [| exact df_not_empty | now apply String.eqb_neq].
    assert (Hqok : query_ok re_compile str_lower str_strip df (Some q)
                   = search_hit re_compile str_lower df (str_strip (str_lower q))).
    { unfold query_ok. now rewrite Eq. }
    unfold or_none in Es. rewrite frame_empty_rows in Es by exact df_not_empty.
    destruct (filter (search_hit re_compile str_lower df (str_strip (str_lower q))) (rows df))
      as [|v l] eqn:Ef; subst o1.
    + intros [= <-]. unfold or_none, row_matches. rewrite Hqok.
      rewrite frame_empty_rows by exact df_not_empty.
      match goal with
      | |- context [filter ?p (rows df)] =>
          assert (Hnil : filter p (rows df) = [])
            by (do 5 apply filter_nil_weaken; exact Ef)
      end.
      now rewrite Hnil.
    + cbv zeta. intros H.
      apply (@filter_stages _ (search_hit re_compile str_lower df (str_strip (str_lower q)))) in H.
      * unfold row_matches. rewrite Hqok. exact H.
      * split; [reflexivity | now rewrite Ef].
Qed.

End FilteredVenues.

Lemma filter_none {A : Type} (p : A -> bool) (l : list A) :
  (forall v, In v l -> p v = false) -> filter p l = [].
Proof.
  induction l as [|x l IH]; intros H; simpl; [reflexivity|].
  rewrite (H x) by now left. apply IH. intros v Hv. apply H. now right.
Qed.

Lemma for_each_raises {A S : Type} (step : S -> A -> result S) (e0 : exn) :
  (forall s x e, step s x = Raise e -> e = e0) ->
  forall l s e, for_each step l s = Raise e -> e = e0.
Proof.
  intros H l. induction l as [|x l IH]; intros s e; simpl; [discriminate|].
  destruct (step s x) as [s'|e'] eqn:E; cbn [bind].
  - apply IH.
  - intros [= <-]. exact (H _ _ _ E).
Qed.

Section FilterContract.

Variable re_compile : bool -> string -> option (string -> bool).
Variable str_lower : string -> string.
Variable str_strip : string -> string.

(** The only exception of the queries is that of a pattern that does not
    compile. *)
Lemma str_contains_raises ignorecase pat col e :
  str_contains re_compile ignorecase pat col = Raise e -> e = re_error.
Proof.
  unfold str_contains. destruct (re_compile ignorecase pat); congruence.
Qed.

Lemma search_venues_raises venues_data query e :
  search_venues re_compile str_lower str_strip venues_data query = Raise e -> e = re_error.
Proof.
  unfold search_venues. destruct venues_data as [df|]; [|discriminate].
  destruct (frame_empty df || String.eqb query ""); [discriminate|].
  destruct (for_each _ search_columns _) as [mask|e'] eqn:E; cbn [bind];
    [discriminate|].
  intros [= <-]. revert E. apply for_each_raises. intros mask col e1.
  destruct (has_column df (fst col)); [|discriminate].
  destruct (str_contains _ _ _ _) eqn:E1; cbn [bind]; [discriminate|].
  intros [= <-]. exact (str_contains_raises _ _ _ E1).
Qed.

Lemma get_filtered_venues_raises venues_data st ds pr fs mr sq e :
  get_filtered_venues re_compile str_lower str_strip venues_data st ds pr fs mr sq = Raise e ->
  e = re_error.
Proof.
  unfold get_filtered_venues. destruct venues_data as [df|]; [|discriminate].
  destruct (frame_empty df); [discriminate|].
  assert (Htail : forall fd,
             (filtered_data <-
                by_facilities re_compile fs
                  (by_price_range pr (by_districts ds (by_sport_types st fd))) ;;
              Ok (or_none (by_min_rating mr filtered_data))) = Raise e ->
             e = re_error).
  { intros fd. unfold by_facilities.
    destruct (has_column _ "facilities"); cbn [bind]; [|discriminate].
    destruct (for_each _ _ _) as [fd'|e'] eqn:E; cbn [bind]; [discriminate|].
    intros [= <-]. revert E. apply for_each_raises. intros fd1 facility e1.
    unfold by_facility. destruct (str_contains _ _ _ _) eqn:E1; cbn [bind];
      [discriminate|].
    intros [= <-]. exact (str_contains_raises _ _ _ E1). }
  destruct sq as [q|]; [destruct (String.eqb q "")|]; cbn [bind];
    try (cbv zeta; apply Htail).
  destruct (search_venues re_compile str_lower str_strip (Some df) q) as [[fd|]|e'] eqn:E; cbn [bind].
  - cbv zeta. apply Htail.
  - discriminate.
  - intros [= <-]. exact (search_venues_raises _ _ E).
Qed.

(** C3, as amended: on a table that is not empty the filter called with no
    argument returns the full table; on an empty table it returns [None];
    when no row satisfies the conjunction of the supplied predicates it
    returns [None] (or raises [re.error] on a pattern that does not
    compile), and it never returns an empty table. *)
Theorem filter_returns_table_or_none (df : frame venue) :
  (frame_empty df = false ->
   get_filtered_venues re_compile str_lower str_strip (Some df) None None None None 0 None = Ok (Some df))
  /\ (frame_empty df = true ->
      forall sport_types districts price_range wanted min_rating search_query,
        get_filtered_venues re_compile str_lower str_strip (Some df) sport_types districts price_range
                            wanted min_rating search_query = Ok None)
  /\ (forall sport_types districts price_range wanted min_rating search_query,
        (forall v, In v (rows df) ->
                   row_matches re_compile str_lower str_strip df sport_types districts price_range
                               wanted min_rating search_query v = false) ->
        get_filtered_venues re_compile str_lower str_strip (Some df) sport_types districts price_range
                            wanted min_rating search_query = Ok None
        \/ get_filtered_venues re_compile str_lower str_strip (Some df) sport_types districts price_range
                               wanted min_rating search_query = Raise re_error)
  /\ (forall sport_types districts price_range wanted min_rating search_query r,
        get_filtered_venues re_compile str_lower str_strip (Some df) sport_types districts price_range
                            wanted min_rating search_query = Ok (Some r) ->
        frame_empty r = false).
Proof.
  assert (Hempty : frame_empty df = true ->
                   forall st ds pr fs mr sq,
                     get_filtered_venues re_compile str_lower str_strip (Some df) st ds pr fs mr sq = Ok None).
  { intros He st ds pr fs mr sq. unfold get_filtered_venues. now rewrite He. }
  repeat split.
  - intros Hne. unfold get_filtered_venues, by_facilities. rewrite Hne.
    cbn [bind given for_each]. cbv zeta.
    change (by_price_range None (by_districts None (by_sport_types None df))) with df.
    destruct (has_column df "facilities"); cbn [bind];
      change (by_min_rating 0 df) with df; now rewrite Hne.
  - exact Hempty.
  - intros st ds pr fs mr sq Hno.
    destruct (frame_empty df) eqn:He; [left; now apply Hempty|].
    destruct (get_filtered_venues re_compile str_lower str_strip (Some df) st ds pr fs mr sq)
      as [o|e] eqn:E;
      [left | right; now rewrite (get_filtered_venues_raises _ _ _ _ _ _ _ E)].
    apply get_filtered_venues_filter in E; [|exact He]. subst o.
    rewrite (filter_none _ _ Hno). unfold or_none.
    now rewrite frame_empty_rows by exact He.
  - intros st ds pr fs mr sq r E.
    destruct (frame_empty df) eqn:He; [now rewrite Hempty in E|].
    apply get_filtered_venues_filter in E; [|exact He].
    apply or_none_some in E. destruct E as [-> Hr]. exact Hr.
Qed.

End FilterContract.

(** The theorem at the sample table: no argument gives the table back, and
    the request for tennis venues, which no row satisfies, gives [None]. *)
Lemma filter_returns_table_or_none_witness :
  get_filtered_venues literal_re_compile lower strip (Some sample_table) None None None None 0 None
  = Ok (Some sample_table)
  /\ (get_filtered_venues literal_re_compile lower strip (Some sample_table)
                          (Some ["網球"]) None None None 0 None = Ok None
      \/ get_filtered_venues literal_re_compile lower strip (Some sample_table)
                             (Some ["網球"]) None None None 0 None = Raise re_error).
Proof.
  destruct (@filter_returns_table_or_none literal_re_compile lower strip sample_table)
    as (Hall & _ & Hnone & _).
  split; [exact (Hall eq_refl)|].
  apply Hnone. intros v [<- | [<- | []]]; reflexivity.
Defined.

(** C3 as stated fails: asked for tennis venues, of which the sample table
    has none, the filter answers [None] and not an empty table. *)
Lemma filter_no_match_is_none :
  get_filtered_venues literal_re_compile lower strip (Some sample_table)
                      (Some ["網球"]) None None None 0 None = Ok None
  /\ get_filtered_venues literal_re_compile lower strip (Some sample_table)
                         (Some ["網球"]) None None None 0 None
     <> Ok (Some (mk_frame venue_columns [])).
Proof.
  assert (H : get_filtered_venues literal_re_compile lower strip (Some sample_table)
                                  (Some ["網球"]) None None None 0 None = Ok None)
    by reflexivity.
  split; [exact H | rewrite H; discriminate].
Qed.

Section SearchContract.

Variable re_compile : bool -> string -> option (string -> bool).
Variable str_lower : string -> string.
Variable str_strip : string -> string.
Hypothesis re_literal : literal_patterns_match_themselves re_compile.

Lemma search_hit_mentions (df : frame venue) (q : string) (v : venue) :
  literal_pattern q = true ->
  search_hit re_compile str_lower df q v = true -> mentions str_lower q v.
Proof.
  intros Hlit H. unfold search_hit in H. apply existsb_exists in H.
  destruct H as (col & Hin & H). apply andb_true_iff in H. destruct H as [_ H].
  unfold found_in in H. destruct (re_compile false q) as [found|] eqn:E;
    [|discriminate].
  rewrite (re_literal Hlit E) in H. unfold mentions.
  simpl in Hin.
  destruct Hin as [<- | [<- | [<- | [<- | [<- | [<- | []]]]]]]; simpl in H; tauto.
Qed.

(** C4, as amended: the query is lowered and stripped before the search,
    and when what is left has no metacharacter of [re], every row that
    [search_venues], or [get_filtered_venues] given the query, returns
    holds it as a substring of one of name, address, district,
    sport_type, facilities and description, case apart. *)
Theorem search_rows_mention_query (venues_data : option (frame venue)) (q : string) :
  literal_pattern (str_strip (str_lower q)) = true ->
  (forall r, search_venues re_compile str_lower str_strip venues_data q = Ok (Some r) ->
             Forall (mentions str_lower (str_strip (str_lower q))) (rows r))
  /\ (forall sport_types districts price_range wanted min_rating r,
        q <> "" ->
        get_filtered_venues re_compile str_lower str_strip venues_data sport_types districts price_range
                            wanted min_rating (Some q) = Ok (Some r) ->
        Forall (mentions str_lower (str_strip (str_lower q))) (rows r)).
Proof.
  intros Hlit.
  destruct venues_data as [df|]; [|split; intros; discriminate].
  destruct (frame_empty df) eqn:He.
  { split.
    - intros r. unfold search_venues. now rewrite He.
    - intros st ds pr fs mr r _. unfold get_filtered_venues. now rewrite He. }
  split.
  - intros r H.
    destruct (String.eqb q "") eqn:Eq.
    { unfold search_venues in H. rewrite He, Eq in H. discriminate. }
    apply search_venues_filter in H; [| exact He | now apply String.eqb_neq].
    apply or_none_some in H. destruct H as [-> _].
    simpl. apply Forall_forall. intros v Hv.
    apply filter_In in Hv. destruct Hv as [_ Hv].
    now apply (search_hit_mentions df).
  - intros st ds pr fs mr r Hq H.
    apply get_filtered_venues_filter in H; [|exact He].
    apply or_none_some in H. destruct H as [-> _].
    simpl. apply Forall_forall. intros v Hv.
    apply filter_In in Hv. destruct Hv as [_ Hv].
    unfold row_matches in Hv. repeat (apply andb_true_iff in Hv; destruct Hv as [Hv _]).
    unfold query_ok in Hv. apply String.eqb_neq in Hq. rewrite Hq in Hv.
    now apply (search_hit_mentions df).
Qed.

End SearchContract.

Lemma literal_re_compile_literal : literal_patterns_match_themselves literal_re_compile.
Proof.
  intros pat found Hlit H s. unfold literal_re_compile in H. rewrite Hlit in H.
  injection H as <-. reflexivity.
Qed.

(** The theorem at the sample table and the query ["  COURT "]. *)
Lemma search_rows_mention_query_witness :
  literal_pattern (strip (lower "  COURT ")) = true
  /\ search_venues literal_re_compile lower strip (Some sample_table) "  COURT "
     = Ok (Some (mk_frame venue_columns [court]))
  /\ Forall (mentions lower "court") [court].
Proof.
  split; [reflexivity|]. split; [reflexivity|].
  exact (proj1 (@search_rows_mention_query literal_re_compile lower strip literal_re_compile_literal
                  (Some sample_table) "  COURT " eq_refl)
               (mk_frame venue_columns [court]) eq_refl).
Defined.

(** C4 as stated fails: the query ["court "], with the space a user left at
    its end, returns the court, none of whose fields holds ["court "]. *)
Lemma search_strips_the_query :
  search_venues literal_re_compile lower strip (Some sample_table) "court "
  = Ok (Some (mk_frame venue_columns [court]))
  /\ get_filtered_venues literal_re_compile lower strip (Some sample_table)
                         None None None None 0 (Some "court ")
     = Ok (Some (mk_frame venue_columns [court]))
  /\ ~ mentions lower (lower "court ") court.
Proof.
  split; [reflexivity|]. split; [reflexivity|].
  unfold mentions. vm_compute. intuition discriminate.
Qed.

(* ------------------------------------------------------------------ *)
(** ** Recommendation engine: the preference-weighted score *)

Open Scope Q_scope.

Lemma Qleb_true (a b : Q) : Qleb a b = true <-> a <= b.
Proof. apply Qle_bool_iff. Qed.

Lemma Qltb_true (a b : Q) : Qltb a b = true <-> a < b.
Proof.
  unfold Qltb. rewrite negb_true_iff. split.
  - intros H. apply Qnot_le_lt. intros Hle. apply Qle_bool_iff in Hle. congruence.
  - intros H. destruct (Qle_bool b a) eqn:E; [|reflexivity].
    apply Qle_bool_iff in E. lra.
Qed.

Lemma Qltb_false (a b : Q) : Qltb a b = false <-> b <= a.
Proof.
  unfold Qltb. rewrite negb_false_iff. apply Qle_bool_iff.
Qed.

Lemma py_max_bounds (a b lo hi : Q) :
  lo <= a <= hi -> b <= hi -> lo <= py_max a b <= hi.
Proof.
  intros Ha Hb. unfold py_max. destruct (Qltb a b) eqn:E; [|exact Ha].
  apply Qltb_true in E. lra.
Qed.

(** The largest number of a column is above each of its numbers. *)
Lemma column_max_ge (col : list (option Q)) (r : Q) :
  In (Some r) col -> exists m, column_max col = Some m /\ r <= m.
Proof.
  induction col as [|[x|] col IH]; simpl; [tauto | |].
  - intros [[= ->] | H].
    + destruct (column_max col) as [m|]; [|exists r; split; [reflexivity | lra]].
      destruct (Qltb r m) eqn:E; eexists; split; try reflexivity.
      * apply Qltb_true in E. lra.
      * lra.
    + destruct (IH H) as (m & -> & Hm).
      destruct (Qltb x m) eqn:E; eexists; split; try reflexivity; [exact Hm|].
      apply Qltb_false in E. lra.
  - intros [[=] | H]. exact (IH H).
Qed.

Section ScoreBounds.

Variable venues_data : frame venue.
Variable prefs : user_preferences.

Lemma sport_match_bounds (v : venue) :
  5 # 10 <= sport_match_of venues_data prefs v <= 1.
Proof.
  unfold sport_match_of.
  destruct (_ && _); [destruct (str_in _ _)|]; lra.
Qed.

Lemma district_match_bounds (v : venue) :
  3 # 10 <= district_match_of venues_data prefs v <= 1.
Proof.
  unfold district_match_of.
  destruct (_ && _); [destruct (str_in _ _)|]; lra.
Qed.

Lemma preference_match_bounds (v : venue) :
  4 # 10 <= _calculate_preference_match venues_data prefs v <= 1.
Proof.
  unfold _calculate_preference_match.
  pose proof (sport_match_bounds v). pose proof (district_match_bounds v).
  set (s := sport_match_of venues_data prefs v) in *.
  set (d := district_match_of venues_data prefs v) in *.
  split.
  - apply Qle_shift_div_l; lra.
  - apply Qle_shift_div_r; lra.
Qed.

Lemma distance_score_bounds (v : venue) :
  4 # 10 <= _calculate_distance_score venues_data prefs v <= 1.
Proof.
  unfold _calculate_distance_score.
  destruct (_ && _); [destruct (str_in _ _)|]; lra.
Qed.

Lemma rating_weight_bounds (v : venue) :
  ratings_nonnegative venues_data -> In v (rows venues_data) ->
  exists rw, _calculate_rating_weight venues_data v = Some rw /\ 0 <= rw <= 1.
Proof.
  intros Hr Hv. unfold _calculate_rating_weight.
  destruct (has_column venues_data "rating"); [|exists (5 # 10); split; [reflexivity | lra]].
  destruct (Hr v Hv) as (r & Er & Hr0).
  assert (Hin : In (Some r) (map rating (rows venues_data))).
  { rewrite <- Er. now apply in_map. }
  destruct (column_max_ge _ _ Hin) as (m & -> & Hm).
  destruct (Qltb 0 m) eqn:E; [|exists (5 # 10); split; [reflexivity | lra]].
  apply Qltb_true in E. rewrite Er. exists (r / m). split; [reflexivity|].
  split.
  - apply Qle_shift_div_l; lra.
  - apply Qle_shift_div_r; lra.
Qed.

Lemma price_match_bounds (v : venue) :
  0 < snd (price_range_of prefs) ->
  exists p, _calculate_price_match venues_data prefs v = Ok p /\ 0 <= p <= 1.
Proof.
  intros Hmax. unfold _calculate_price_match, price_match_of_number.
  destruct (price_range_of prefs) as [min_price max_price]; simpl in Hmax.
  destruct (has_column venues_data "price_per_hour");
    [|exists (7 # 10); split; [reflexivity | lra]].
  destruct (price_per_hour v) as [x|]; [|exists 1; split; [reflexivity | lra]].
  destruct (Qleb min_price x && Qleb x max_price);
    [exists 1; split; [reflexivity | lra]|].
  destruct (Qeq_bool max_price 0) eqn:E.
  { apply Qeq_bool_iff in E. lra. }
  eexists; split; [reflexivity|].
  apply py_max_bounds; [lra|].
  assert (0 <= Qabs (x - (min_price + max_price) / 2) / max_price).
  { apply Qle_shift_div_l; [exact Hmax|]. rewrite Qmult_0_l. apply Qabs_nonneg. }
  lra.
Qed.

Lemma composite_bounds (pm rw price ds fm : Q) :
  0 <= pm <= 1 -> 0 <= rw <= 1 -> 0 <= price <= 1 -> 0 <= ds <= 1 -> 0 <= fm <= 1 ->
  0 <= composite reset_weights pm rw price ds fm <= 10.
Proof.
  intros. unfold composite; simpl. lra.
Qed.

Lemma score_row_bounds (v : venue) :
  ratings_nonnegative venues_data -> 0 < snd (price_range_of prefs) ->
  In v (rows venues_data) ->
  exists row, score_row reset_weights venues_data prefs v = Ok row
              /\ venue_of row = v
              /\ score_is_composite reset_weights row /\ score_in_0_10 row.
Proof.
  intros Hr Hmax Hv. unfold score_row.
  destruct (price_match_bounds v Hmax) as (p & -> & Hp). cbn [bind].
  destruct (rating_weight_bounds v Hr Hv) as (rw & Erw & Hrw).
  eexists; split; [reflexivity|]. split; [reflexivity|].
  unfold score_is_composite, score_in_0_10; simpl. rewrite Erw.
  split; [reflexivity|]. eexists; split; [reflexivity|].
  pose proof (preference_match_bounds v). pose proof (distance_score_bounds v).
  apply composite_bounds; unfold _calculate_facility_match; lra.
Qed.

Lemma score_rows_bounds (l : list venue) :
  ratings_nonnegative venues_data -> 0 < snd (price_range_of prefs) ->
  incl l (rows venues_data) ->
  exists rs, score_rows reset_weights venues_data prefs l = Ok rs
             /\ map venue_of rs = l
             /\ Forall (score_is_composite reset_weights) rs
             /\ Forall score_in_0_10 rs.
Proof.
  intros Hr Hmax. induction l as [|v l IH]; intros Hl; simpl.
  - exists []. repeat split; constructor.
  - destruct (@score_row_bounds v Hr Hmax) as (row & -> & Ev & Hc & Hb);
      [apply Hl; now left|].
    destruct IH as (rs & -> & Em & Hcs & Hbs);
      [intros x Hx; apply Hl; now right|].
    cbn [bind]. exists (row :: rs). split; [reflexivity|].
    split; [simpl; now rewrite Ev, Em|].
    split; now constructor.
Qed.

(** C1, as amended: with the default weights, on a table whose ratings
    are numbers that are not negative and a price range whose upper end
    is positive, every row gets a score, the weighted sum of its five
    components, between 0 and 10; and the weighted sum does not decrease
    when the rating component grows, the four others fixed. *)
Theorem preference_score_bounded_and_monotone :
  ratings_nonnegative venues_data ->
  0 < snd (price_range_of prefs) ->
  (exists scored_rows,
      _calculate_recommendation_scores reset_weights venues_data prefs
      = Ok (mk_frame (columns venues_data ++ score_columns) scored_rows)
      /\ map venue_of scored_rows = rows venues_data
      /\ Forall (score_is_composite reset_weights) scored_rows
      /\ Forall score_in_0_10 scored_rows)
  /\ (forall pm rw rw' price ds fm : Q,
         rw <= rw' ->
         composite reset_weights pm rw price ds fm
         <= composite reset_weights pm rw' price ds fm).
Proof.
  intros Hr Hmax. split.
  - destruct (@score_rows_bounds (rows venues_data) Hr Hmax (incl_refl _))
      as (rs & E & Em & Hc & Hb).
    exists rs. unfold _calculate_recommendation_scores. rewrite E. cbn [bind].
    now repeat split.
  - intros pm rw rw' price ds fm H. unfold composite; simpl. lra.
Qed.

End ScoreBounds.

Lemma sample_ratings_nonnegative : ratings_nonnegative sample_table.
Proof.
  intros v [<- | [<- | []]]; eexists; (split; [reflexivity | discriminate]).
Defined.

(** The theorem at the sample table and the scenario's preferences. *)
Lemma preference_score_bounded_witness :
  ratings_nonnegative sample_table
  /\ 0 < snd (price_range_of scenario_prefs)
  /\ (exists scored_rows,
         _calculate_recommendation_scores reset_weights sample_table scenario_prefs
         = Ok (mk_frame (columns sample_table ++ score_columns) scored_rows)
         /\ map venue_of scored_rows = rows sample_table
         /\ Forall (score_is_composite reset_weights) scored_rows
         /\ Forall score_in_0_10 scored_rows).
Proof.
  assert (H2 : 0 < snd (price_range_of scenario_prefs)) by reflexivity.
  split; [exact sample_ratings_nonnegative|]. split; [exact H2|].
  exact (proj1 (@preference_score_bounded_and_monotone
                  sample_table scenario_prefs sample_ratings_nonnegative H2)).
Defined.

(** The scenario of the specification: for a user who prefers basketball
    in Da'an between 0 and 500, the court matches the preferences and the
    price fully, and its score (9.7) is above the pool's. *)
Theorem scenario_scores :
  exists court_row pool_row,
    _calculate_recommendation_scores reset_weights sample_table scenario_prefs
    = Ok (mk_frame (columns sample_table ++ score_columns) [court_row; pool_row])
    /\ venue_of court_row = court /\ venue_of pool_row = pool
    /\ preference_match court_row == 1
    /\ price_match court_row == 1
    /\ exists s_court s_pool,
        recommendation_score court_row = Some s_court
        /\ recommendation_score pool_row = Some s_pool
        /\ s_court == 97 # 10
        /\ s_pool < s_court.
Proof.
  do 2 eexists. split; [reflexivity|]. repeat (split; [reflexivity|]).
  do 2 eexists. repeat split; reflexivity.
Qed.

(** C1 as stated fails for some preferences and some tables: with the price
    range [-2, -1] the price match of the court is 302.5 and its score
    611.35, above 10; with the range [0, 0] the division by the upper end
    raises and no score is computed; a row whose rating is missing gets no
    score (NaN), and a row rated -10 beside the court gets a score below
    0. *)
Lemma score_not_always_in_0_10 :
  (exists row rest,
      _calculate_recommendation_scores reset_weights sample_table negative_range_prefs
      = Ok (mk_frame (columns sample_table ++ score_columns) (row :: rest))
      /\ venue_of row = court
      /\ price_match row == 3025 # 10
      /\ exists s, recommendation_score row = Some s /\ s == 61135 # 100 /\ 10 < s)
  /\ _calculate_recommendation_scores reset_weights sample_table free_only_prefs
     = Raise ZeroDivisionError
  /\ (exists row1 row2,
         _calculate_recommendation_scores
           reset_weights (mk_frame venue_columns [court; unrated_pool]) scenario_prefs
         = Ok (mk_frame (venue_columns ++ score_columns) [row1; row2])
         /\ venue_of row2 = unrated_pool /\ recommendation_score row2 = None)
  /\ (exists row1 row2,
         _calculate_recommendation_scores
           reset_weights (mk_frame venue_columns [court; disliked_pool]) scenario_prefs
         = Ok (mk_frame (venue_columns ++ score_columns) [row1; row2])
         /\ venue_of row2 = disliked_pool
         /\ exists s, recommendation_score row2 = Some s /\ s < 0).
Proof.
  split; [|split; [reflexivity|split]].
  - eexists; eexists. split; [reflexivity|]. split; [reflexivity|].
    split; [reflexivity|]. eexists. split; [reflexivity|]. split; reflexivity.
  - do 2 eexists. split; [reflexivity|]. split; reflexivity.
  - do 2 eexists. split; [reflexivity|]. split; [reflexivity|].
    eexists. split; reflexivity.
Qed.

(* ------------------------------------------------------------------ *)
(** ** Recommendation engine: the diversity adjustment *)

Lemma filter_split_perm {A : Type} (p : A -> bool) (l : list A) :
  Permutation (filter p l ++ filter (fun x => negb (p x)) l) l.
Proof.
  induction l as [|x l IH]; simpl; [constructor|].
  destruct (p x); simpl.
  - now constructor.
  - symmetry. apply Permutation_cons_app. now symmetry.
Qed.

Lemma in_group_eq (k : string) (r : scored) :
  in_group k r = true <-> sport_type (venue_of r) = k.
Proof.
  unfold in_group. rewrite String.eqb_eq. split; congruence.
Qed.

(** The groups of distinct keys that cover the sports of the rows hold each
    row once. *)
Lemma groups_partition (keys : list string) :
  forall l : list scored,
    NoDup keys ->
    (forall r, In r l -> In (sport_type (venue_of r)) keys) ->
    Permutation (List.concat (map (fun k => filter (in_group k) l) keys)) l.
Proof.
  induction keys as [|k keys IH]; intros l Hnd Hcov; simpl.
  - destruct l as [|r l]; [constructor|]. destruct (Hcov r (or_introl eq_refl)).
  - inversion Hnd as [|? ? Hk Hnd']; subst.
    rewrite <- (filter_split_perm (in_group k) l) at 2.
    apply Permutation_app_head.
    set (l' := filter (fun x => negb (in_group k x)) l).
    assert (E : map (fun k' => filter (in_group k') l) keys
                = map (fun k' => filter (in_group k') l') keys).
    { apply map_ext_in. intros k' Hk'. unfold l'. rewrite filter_filter.
      apply filter_ext. intros r.
      destruct (in_group k' r) eqn:E1; [|now rewrite andb_false_r].
      destruct (in_group k r) eqn:E2; [|reflexivity].
      apply in_group_eq in E1, E2. congruence. }
    rewrite E. apply IH; [exact Hnd'|].
    intros r Hr. unfold l' in Hr. apply filter_In in Hr. destruct Hr as [Hr Hn].
    destruct (Hcov r Hr) as [E' | H]; [|exact H].
    apply eq_sym, in_group_eq in E'. cbv beta in Hn. rewrite E' in Hn. discriminate.
Qed.

Lemma group_keys_spec (l : list scored) :
  NoDup (group_keys l)
  /\ forall k, In k (group_keys l) <-> In k (map (fun r => sport_type (venue_of r)) l).
Proof.
  unfold group_keys.
  set (ks := nodup string_dec (map (fun r => sport_type (venue_of r)) l)).
  pose proof (StringSort.Permuted_sort ks) as P.
  split.
  - apply (Permutation_NoDup P). apply NoDup_nodup.
  - intros k. split; intros H.
    + apply (Permutation_in _ (Permutation_sym P)) in H. unfold ks in H.
      now apply nodup_In in H.
    + apply (Permutation_in _ P). unfold ks. now apply nodup_In.
Qed.

Lemma group_size_positive (l : list scored) (r : scored) :
  In r l -> (1 <= group_size l r)%nat.
Proof.
  intros H. unfold group_size.
  assert (Hin : In r (filter (in_group (sport_type (venue_of r))) l)).
  { apply filter_In. split; [exact H | now apply in_group_eq]. }
  destruct (filter _ l); [destruct Hin | simpl; lia].
Qed.

Lemma py_min_Qmin (a b : Q) : py_min a b == Qmin a b.
Proof.
  unfold py_min. destruct (Qltb b a) eqn:E.
  - apply Qltb_true in E. rewrite Q.min_r; [reflexivity | lra].
  - apply Qltb_false in E. rewrite Q.min_l; [reflexivity | exact E].
Qed.

Lemma diversity_penalty_sign (dw : Q) (n : nat) :
  0 <= dw -> (1 <= n)%nat ->
  0 <= diversity_penalty dw n
  /\ (0 < dw -> (1 < n)%nat -> 0 < diversity_penalty dw n).
Proof.
  intros Hdw Hn. unfold diversity_penalty.
  set (m := inject_Z (Z.of_nat n) - 1).
  assert (Hm : 0 <= m).
  { unfold m. assert (inject_Z 1 <= inject_Z (Z.of_nat n)) by (rewrite <- Zle_Qle; lia).
    change (inject_Z 1) with 1 in H. lra. }
  assert (H0 : 0 <= dw * m) by now apply Qmult_le_0_compat.
  split.
  - unfold py_min. destruct (Qltb 2 _); lra.
  - intros Hpos Hgt.
    assert (Hm' : 0 < m).
    { unfold m. assert (inject_Z 1 < inject_Z (Z.of_nat n)) by (rewrite <- Zlt_Qlt; lia).
      change (inject_Z 1) with 1 in H. lra. }
    assert (0 < dw * m) by now apply Qmult_lt_0_compat.
    unfold py_min. destruct (Qltb 2 _); lra.
Qed.

(** C5: on a scored table with its sport_type column and for a diversity
    weight in [0,1], the adjustment takes min(weight * (group size - 1) *
    0.1, 2.0) off the score of each row, where the group size counts the
    rows of its sport: the adjusted table holds the rows of the table, each
    with that penalty off its score (the table must have a row, or
    [pd.concat] raises); no score grows, and with a positive weight every
    score of a group of more than one row drops. *)
Theorem diversity_lowers_scores (venues_data : frame scored) (diversity_weight : Q) :
  has_column venues_data "sport_type" = true ->
  0 <= diversity_weight <= 1 ->
  (rows venues_data <> [] ->
   exists out,
     _apply_diversity venues_data diversity_weight = Ok out
     /\ columns out = columns venues_data
     /\ Permutation (rows out)
                    (map (adjusted diversity_weight (rows venues_data))
                         (rows venues_data)))
  /\ (rows venues_data = [] ->
      _apply_diversity venues_data diversity_weight = Raise ValueError)
  /\ (forall n : nat,
         diversity_penalty diversity_weight n
         == Qmin (diversity_weight * (inject_Z (Z.of_nat n) - 1) * (1 # 10)) 2)
  /\ Forall (score_lowered diversity_weight (rows venues_data)) (rows venues_data).
Proof.
  intros Hcol [Hdw _]. split; [|split; [|split]].
  - intros Hne. unfold _apply_diversity. rewrite Hcol. cbn [negb]. cbv zeta.
    destruct (group_keys_spec (rows venues_data)) as [Hnd Hin].
    set (l := rows venues_data) in *.
    assert (E : map (fun key =>
                       map (penalize (diversity_penalty diversity_weight
                                        (List.length (filter (in_group key) l))))
                           (filter (in_group key) l))
                    (group_keys l)
                = map (fun key => map (adjusted diversity_weight l)
                                      (filter (in_group key) l))
                      (group_keys l)).
    { apply map_ext. intros key. apply map_ext_in. intros r Hr.
      apply filter_In in Hr. destruct Hr as [_ Hr]. apply in_group_eq in Hr.
      unfold adjusted, group_size. now rewrite Hr. }
    rewrite E.
    destruct (group_keys l) as [|k ks] eqn:Ek.
    { destruct l as [|r l']; [congruence|].
      assert (In (sport_type (venue_of r)) []) as [].
      apply Hin. now left. }
    cbn [map]. eexists. split; [reflexivity|]. split; [reflexivity|].
    cbn [rows]. change (?x :: map ?f ks) with (map f (k :: ks)).
    rewrite <- (map_map (fun key => filter (in_group key) l)
                        (map (adjusted diversity_weight l))).
    rewrite <- concat_map. apply Permutation_map.
    apply groups_partition; [exact Hnd|].
    intros r Hr. apply Hin.
    exact (in_map (fun r => sport_type (venue_of r)) l r Hr).
  - intros He. unfold _apply_diversity. rewrite Hcol, He. reflexivity.
  - intros n. unfold diversity_penalty. apply py_min_Qmin.
  - apply Forall_forall. intros r Hr s Hs.
    destruct (@diversity_penalty_sign diversity_weight (group_size (rows venues_data) r) Hdw
                (group_size_positive _ _ Hr)) as [H0 Hpos].
    split; [unfold adjusted, penalize; simpl; now rewrite Hs|].
    split; [lra|]. intros H1 H2. specialize (Hpos H1 H2). lra.
Qed.

(** The theorem at the scored sample and the default diversity weight 0.3:
    the two courts lose 0.03, the pool nothing. *)
Lemma diversity_lowers_scores_witness :
  has_column scored_sample "sport_type" = true
  /\ 0 <= 3 # 10 <= 1
  /\ (exists out,
         _apply_diversity scored_sample (3 # 10) = Ok out
         /\ Permutation (rows out)
                        (map (adjusted (3 # 10) (rows scored_sample))
                             (rows scored_sample)))
  /\ map (group_size (rows scored_sample)) (rows scored_sample) = [2; 1; 2]%nat
  /\ Forall (score_lowered (3 # 10) (rows scored_sample)) (rows scored_sample).
Proof.
  assert (H1 : has_column scored_sample "sport_type" = true) by reflexivity.
  assert (H3 : 0 <= 3 # 10 <= 1) by (split; discriminate).
  destruct (@diversity_lowers_scores scored_sample (3 # 10) H1 H3)
    as (Hout & _ & _ & Hall).
  destruct Hout as (out & E & _ & P); [cbn; discriminate|].
  split; [exact H1|]. split; [exact H3|].
  split; [exists out; now split|]. split; [reflexivity | exact Hall].
Defined.

(* ------------------------------------------------------------------ *)
(** ** Recommendation engine: what a strategy does on failure *)

Section FailurePolicy.

Variable weights : W.t.
Variable upstream : result (option (frame venue)).

Lemma personalized_returns prefs n dw :
  exists r, get_personalized_recommendations weights upstream prefs n dw = Ok r.
Proof.
  unfold get_personalized_recommendations, try_except.
  match goal with |- exists r, match ?c with _ => _ end = _ => destruct c end;
    eexists; reflexivity.
Qed.

Lemma personalized_none_on_empty prefs n dw :
  upstream_empty upstream ->
  get_personalized_recommendations weights upstream prefs n dw = Ok None.
Proof.
  unfold get_personalized_recommendations.
  intros [-> | (df & -> & He)]; cbn [bind try_except]; [reflexivity|].
  now rewrite He.
Qed.

(** The standard strategy answers [None] when the store or the scoring
    raises. *)
Lemma personalized_none_on_failure prefs n dw :
  fails_inside upstream (fun df => _calculate_recommendation_scores weights df prefs) ->
  get_personalized_recommendations weights upstream prefs n dw = Ok None.
Proof.
  unfold get_personalized_recommendations.
  intros [(e & ->) | (df & e & -> & He & Hb)]; cbn [bind try_except]; [reflexivity|].
  rewrite He, Hb. reflexivity.
Qed.

Lemma none_on_failure_returns body :
  exists r, none_on_failure upstream body = Ok r.
Proof.
  unfold none_on_failure, try_except.
  match goal with |- exists r, match ?c with _ => _ end = _ => destruct c end;
    eexists; reflexivity.
Qed.

Lemma none_on_failure_none body :
  upstream_empty upstream \/ fails_inside upstream body ->
  none_on_failure upstream body = Ok None.
Proof.
  unfold none_on_failure.
  intros [[-> | (df & -> & He)] | [(e & ->) | (df & e & -> & He & Hb)]];
    cbn [bind try_except]; try reflexivity.
  - now rewrite He.
  - now rewrite He, Hb.
Qed.

Lemma standard_on_failure_returns body prefs n :
  exists r, standard_on_failure weights upstream body prefs n = Ok r.
Proof.
  unfold standard_on_failure.
  destruct (personalized_returns prefs n (3 # 10)) as [r Hr].
  destruct upstream as [[df|]|e]; cbn [bind try_except].
  - destruct (frame_empty df); [eexists; reflexivity|].
    destruct (body df) as [[fr| |]|e]; cbn [bind];
      try (eexists; reflexivity); rewrite Hr; eexists; reflexivity.
  - eexists; reflexivity.
  - rewrite Hr. eexists; reflexivity.
Qed.

Lemma standard_on_failure_none body prefs n :
  upstream_empty upstream ->
  standard_on_failure weights upstream body prefs n = Ok None.
Proof.
  unfold standard_on_failure.
  intros [-> | (df & -> & He)]; cbn [bind try_except]; [reflexivity|].
  now rewrite He.
Qed.

Lemma standard_on_failure_falls_back body prefs n :
  fails_inside upstream body ->
  standard_on_failure weights upstream body prefs n
  = get_personalized_recommendations weights upstream prefs n (3 # 10).
Proof.
  unfold standard_on_failure.
  destruct (personalized_returns prefs n (3 # 10)) as [r Hr].
  intros [(e & Eu) | (df & e & Eu & He & Hb)].
  - rewrite Eu at 1. cbn [bind try_except]. now rewrite Hr.
  - rewrite Eu at 1. cbn [bind try_except]. rewrite He, Hb. cbn [bind].
    now rewrite Hr.
Qed.

Variable trending_body : nat -> frame venue -> result (option (frame scored)).
Variable new_venues_body : nat -> frame venue -> result (option (frame scored)).
Variable collaborative_body :
  user_preferences -> nat -> frame venue -> result (option (frame scored)).
Variable rating_based_body :
  user_preferences -> nat -> frame venue -> result (option (frame scored)).
Variable ml_body : user_preferences -> nat -> frame venue -> result outcome.
Variable cluster_body : user_preferences -> nat -> frame venue -> result outcome.
Variable content_body : user_preferences -> nat -> frame venue -> result outcome.

(** C2, as amended: no strategy lets an exception out, and each returns
    [None] when the venue store has no data.  On an exception inside, the
    ML-flavored, cluster-based and content-similarity strategies return
    what the preference-weighted strategy returns (with its default
    diversity weight), and the five others (preference-weighted, trending,
    new-venues, collaborative, rating-based) return [None]. *)
Theorem strategies_on_failure (prefs : user_preferences) (n : nat) (dw : Q) :
  ((exists r, get_personalized_recommendations weights upstream prefs n dw = Ok r)
   /\ (exists r, get_trending_venues upstream trending_body n = Ok r)
   /\ (exists r, get_new_venues upstream new_venues_body n = Ok r)
   /\ (exists r, get_collaborative_recommendations upstream collaborative_body prefs n = Ok r)
   /\ (exists r, get_rating_based_recommendations upstream rating_based_body prefs n = Ok r)
   /\ (exists r, get_ml_based_recommendations weights upstream ml_body prefs n = Ok r)
   /\ (exists r, get_cluster_based_recommendations weights upstream cluster_body prefs n = Ok r)
   /\ (exists r, get_content_based_ml_recommendations weights upstream content_body prefs n
                 = Ok r))
  /\ (upstream_empty upstream ->
      get_personalized_recommendations weights upstream prefs n dw = Ok None
      /\ get_trending_venues upstream trending_body n = Ok None
      /\ get_new_venues upstream new_venues_body n = Ok None
      /\ get_collaborative_recommendations upstream collaborative_body prefs n = Ok None
      /\ get_rating_based_recommendations upstream rating_based_body prefs n = Ok None
      /\ get_ml_based_recommendations weights upstream ml_body prefs n = Ok None
      /\ get_cluster_based_recommendations weights upstream cluster_body prefs n = Ok None
      /\ get_content_based_ml_recommendations weights upstream content_body prefs n
         = Ok None)
  /\ (fails_inside upstream (fun df => _calculate_recommendation_scores weights df prefs) ->
      get_personalized_recommendations weights upstream prefs n dw = Ok None)
  /\ (fails_inside upstream (trending_body n) ->
      get_trending_venues upstream trending_body n = Ok None)
  /\ (fails_inside upstream (new_venues_body n) ->
      get_new_venues upstream new_venues_body n = Ok None)
  /\ (fails_inside upstream (collaborative_body prefs n) ->
      get_collaborative_recommendations upstream collaborative_body prefs n = Ok None)
  /\ (fails_inside upstream (rating_based_body prefs n) ->
      get_rating_based_recommendations upstream rating_based_body prefs n = Ok None)
  /\ (fails_inside upstream (ml_body prefs n) ->
      get_ml_based_recommendations weights upstream ml_body prefs n
      = get_personalized_recommendations weights upstream prefs n (3 # 10))
  /\ (fails_inside upstream (cluster_body prefs n) ->
      get_cluster_based_recommendations weights upstream cluster_body prefs n
      = get_personalized_recommendations weights upstream prefs n (3 # 10))
  /\ (fails_inside upstream (content_body prefs n) ->
      get_content_based_ml_recommendations weights upstream content_body prefs n
      = get_personalized_recommendations weights upstream prefs n (3 # 10)).
Proof.
  unfold get_trending_venues, get_new_venues, get_collaborative_recommendations,
    get_rating_based_recommendations, get_ml_based_recommendations,
    get_cluster_based_recommendations, get_content_based_ml_recommendations.
  split; [|split].
  - repeat split;
      first [ apply personalized_returns | apply none_on_failure_returns
            | apply standard_on_failure_returns ].
  - intros He. repeat split;
      first [ now apply personalized_none_on_empty
            | apply none_on_failure_none; now left
            | now apply standard_on_failure_none ].
  - repeat split; intros Hf;
      first [ now apply personalized_none_on_failure
            | apply none_on_failure_none; now right
            | now apply standard_on_failure_falls_back ].
Qed.

End FailurePolicy.

(** The theorem at the sample table when every body raises: the ML-flavored
    strategy returns the standard recommendation, the court first. *)
Lemma strategies_on_failure_witness :
  fails_inside (Ok (Some sample_table)) (raising_body (A := outcome) 10)
  /\ get_ml_based_recommendations reset_weights (Ok (Some sample_table))
                                  (fun _ => raising_body) scenario_prefs 10
     = get_personalized_recommendations reset_weights (Ok (Some sample_table))
                                        scenario_prefs 10 (3 # 10)
  /\ exists r,
      get_ml_based_recommendations reset_weights (Ok (Some sample_table))
                                   (fun _ => raising_body) scenario_prefs 10
      = Ok (Some r)
      /\ map (fun row => name (venue_of row)) (rows r) = ["Daan Court"; "Xinyi Pool"].
Proof.
  assert (F : fails_inside (Ok (Some sample_table)) (raising_body (A := outcome) 10)).
  { right. exists sample_table, OtherException. now repeat split. }
  pose proof (@strategies_on_failure
                reset_weights (Ok (Some sample_table))
                raising_body raising_body (fun _ => raising_body)
                (fun _ => raising_body) (fun _ => raising_body)
                (fun _ => raising_body) (fun _ => raising_body)
                scenario_prefs 10%nat (3 # 10)) as H.
  destruct H as (_ & _ & _ & _ & _ & _ & _ & Hml & _).
  split; [exact F|]. split; [exact (Hml F)|].
  rewrite (Hml F). eexists. split; [vm_compute; reflexivity | reflexivity].
Defined.

(** C2 as stated fails for the trending strategy: when its body raises it
    returns [None], although the preference-weighted strategy has
    recommendations to give on the same table. *)
Lemma trending_failure_is_none :
  fails_inside (Ok (Some sample_table)) (raising_body (A := option (frame scored)) 10)
  /\ get_trending_venues (Ok (Some sample_table)) raising_body 10 = Ok None
  /\ exists r,
      get_personalized_recommendations reset_weights (Ok (Some sample_table))
                                       scenario_prefs 10 (3 # 10) = Ok (Some r)
      /\ map (fun row => name (venue_of row)) (rows r) = ["Daan Court"; "Xinyi Pool"].
Proof.
  split; [|split].
  - right. exists sample_table, OtherException. now repeat split.
  - reflexivity.
  - eexists. split; [vm_compute; reflexivity | reflexivity].
Qed.

Close Scope Q_scope.

(* ------------------------------------------------------------------ *)
(** ** Geo helper: the nearest venue *)

(** C8, as amended: [find_nearest_venue] returns nothing when there is no
    table or the table has no row; on a table of one row that has the
    latitude and longitude columns and whose row has both coordinates, it
    returns that row with its distance to the query point, whatever the
    query point; when the row lacks a coordinate, or the table a coordinate
    column, it returns nothing. *)
Theorem nearest_of_empty_and_single_row (target_lat target_lon : R) :
  find_nearest_venue None target_lat target_lon = None
  /\ (forall cols : list string,
         find_nearest_venue (Some (mk_frame cols [])) target_lat target_lon = None)
  /\ (forall (cols : list string) (v : venue) (lat lon : R),
         str_in "latitude" cols = true -> str_in "longitude" cols = true ->
         latitude v = Some lat -> longitude v = Some lon ->
         find_nearest_venue (Some (mk_frame cols [v])) target_lat target_lon
         = Some (v, calculate_distance target_lat target_lon lat lon))
  /\ (forall (cols : list string) (v : venue),
         located v = None ->
         find_nearest_venue (Some (mk_frame cols [v])) target_lat target_lon = None)
  /\ (forall (cols : list string) (l : list venue),
         str_in "latitude" cols && str_in "longitude" cols = false ->
         find_nearest_venue (Some (mk_frame cols l)) target_lat target_lon = None).
Proof.
  split; [reflexivity|]. split; [reflexivity|]. split; [|split].
  - intros cols v lat lon Hlat Hlon Ela Elo.
    unfold find_nearest_venue, has_column, frame_empty; simpl.
    destruct cols as [|c cols]; [discriminate|].
    rewrite Hlat, Hlon; simpl.
    unfold nearest_step, located. rewrite Ela, Elo. reflexivity.
  - intros cols v Hv.
    unfold find_nearest_venue, frame_empty; simpl.
    destruct cols as [|c cols]; [reflexivity|].
    destruct (negb _); [reflexivity|].
    simpl. unfold nearest_step. now rewrite Hv.
  - intros cols l H. unfold find_nearest_venue, has_column. cbn [columns].
    rewrite H. now destruct (frame_empty _).
Qed.

(** The theorem at the table of the one sample court and a query point. *)
Lemma nearest_of_single_row_witness :
  find_nearest_venue (Some (mk_frame venue_columns [court])) 25 (1215 / 10)
  = Some (court, calculate_distance 25 (1215 / 10) (250266 / 10000) (1215484 / 10000)).
Proof.
  exact (proj1 (proj2 (proj2 (@nearest_of_empty_and_single_row 25 (1215 / 10)%R)))
               venue_columns court (250266 / 10000)%R (1215484 / 10000)%R
               eq_refl eq_refl eq_refl eq_refl).
Defined.

(** C8 as stated fails on a one-row table whose row has no latitude (the
    scan skips the row and returns nothing), and on a one-row table without
    the coordinate columns. *)
Lemma nearest_skips_unlocated_row :
  find_nearest_venue (Some (mk_frame venue_columns [unlocated_court])) 25 (1215 / 10)
  = None
  /\ find_nearest_venue (Some (mk_frame ["id"; "name"; "district"] [court])) 25 (1215 / 10)
     = None.
Proof. split; reflexivity. Qed.

(* ------------------------------------------------------------------ *)
(** ** Geo helper: clusters by proximity *)

Lemma assigned_in_iff (i : nat) (l : list nat) :
  assigned_in i l = true <-> In i l.
Proof.
  unfold assigned_in. rewrite existsb_exists. split.
  - intros (x & Hx & E). apply Nat.eqb_eq in E. now subst.
  - intros H. exists i. split; [exact H | apply Nat.eqb_refl].
Qed.

Section Clusters.

Variable all : list (nat * venue).
Variable max_distance_km : R.

(** The inner loop appends labels that were not assigned, each once. *)
Lemma join_fold (lat lon : R) (others : list (nat * venue)) :
  forall cluster_venues assigned_venues,
    incl others all -> NoDup assigned_venues ->
    exists added,
      fold_left (join_step lat lon max_distance_km) others
                (cluster_venues, assigned_venues)
      = ((cluster_venues ++ added)%list, (rev added ++ assigned_venues)%list)
      /\ NoDup (rev added ++ assigned_venues)
      /\ forall i, In i added -> located_index all i.
Proof.
  induction others as [|[oi ov] others IH]; intros cv asg Hincl Hnd.
  - exists []. simpl. rewrite app_nil_r. repeat split; [exact Hnd | intros i []].
  - assert (Hin : In (oi, ov) all) by (apply Hincl; now left).
    assert (Hincl' : incl others all) by (intros x Hx; apply Hincl; now right).
    assert (Hsame : exists added,
               fold_left (join_step lat lon max_distance_km) others (cv, asg)
               = ((cv ++ added)%list, (rev added ++ asg)%list)
               /\ NoDup (rev added ++ asg)
               /\ forall i, In i added -> located_index all i)
      by (apply IH; assumption).
    cbn [fold_left]. unfold join_step at 2.
    destruct (assigned_in oi asg) eqn:Ea; [exact Hsame|].
    destruct (located ov) as [[olat olon]|] eqn:El; [|exact Hsame].
    destruct (Rle_dec _ _); [|exact Hsame].
    assert (Hnot : ~ In oi asg).
    { intros H. apply assigned_in_iff in H. congruence. }
    destruct (IH (cv ++ [oi])%list (oi :: asg) Hincl' (NoDup_cons _ Hnot Hnd))
      as (added & E & Hnd' & Hloc).
    exists (oi :: added). rewrite E. cbn [rev].
    rewrite <- !app_assoc. cbn [app]. split; [reflexivity|]. split; [exact Hnd'|].
    intros i [<- | Hi]; [|now apply Hloc].
    exists ov. split; [exact Hin | congruence].
Qed.

Lemma cluster_step_inv st (row : nat * venue) :
  In row all -> cluster_inv all st ->
  let st' := cluster_step all max_distance_km st row in
  cluster_inv all st'
  /\ incl (snd st) (snd st')
  /\ (located (snd row) <> None -> In (fst row) (snd st')).
Proof.
  destruct st as [[clusters cid] asg]. destruct row as [idx v].
  intros Hin (Hperm & Hnd & Hloc & Hkeys). cbv zeta. unfold cluster_step.
  destruct (assigned_in idx asg) eqn:Ea.
  { split; [now repeat split|]. split; [apply incl_refl|].
    intros _. now apply assigned_in_iff. }
  destruct (located v) as [[lat lon]|] eqn:El.
  2:{ split; [now repeat split|]. split; [apply incl_refl|].
      simpl. rewrite El. congruence. }
  assert (Hnot : ~ In idx asg).
  { intros H. apply assigned_in_iff in H. congruence. }
  destruct (@join_fold lat lon all [idx] (idx :: asg) (incl_refl _)
              (NoDup_cons _ Hnot Hnd)) as (added & -> & Hnd' & Hadd).
  assert (Hidx : located_index all idx).
  { exists v. split; [exact Hin | congruence]. }
  split; [|split].
  - repeat split.
    + rewrite map_app, concat_app. cbn [map snd List.concat]. rewrite app_nil_r.
      rewrite Hperm.
      etransitivity; [apply Permutation_app_comm|]. cbn [app].
      etransitivity; [|apply Permutation_middle].
      apply perm_skip. apply Permutation_app_tail. apply Permutation_rev.
    + exact Hnd'.
    + intros i Hi. apply in_app_or in Hi. destruct Hi as [Hi | [<- | Hi]].
      * apply Hadd. now apply in_rev.
      * exact Hidx.
      * now apply Hloc.
    + rewrite map_app, Hkeys. cbn [map fst]. rewrite seq_S, map_app. reflexivity.
  - cbn [snd]. intros i Hi. apply in_or_app. right. now right.
  - intros _. cbn [snd fst]. apply in_or_app. right. now left.
Qed.

Lemma cluster_fold_inv (todo : list (nat * venue)) :
  forall st,
    incl todo all -> cluster_inv all st ->
    let st' := fold_left (cluster_step all max_distance_km) todo st in
    cluster_inv all st'
    /\ incl (snd st) (snd st')
    /\ (forall i v, In (i, v) todo -> located v <> None -> In i (snd st')).
Proof.
  induction todo as [|row todo IH]; intros st Hincl Hinv; cbv zeta.
  - simpl. split; [exact Hinv|]. split; [apply incl_refl | intros i v []].
  - cbn [fold_left].
    destruct (@cluster_step_inv st row) as (H1 & H2 & H3);
      [apply Hincl; now left | exact Hinv |].
    destruct (IH (cluster_step all max_distance_km st row)) as (H4 & H5 & H6);
      [intros x Hx; apply Hincl; now right | exact H1 |].
    split; [exact H4|]. split.
    + intros i Hi. apply H5, H2, Hi.
    + intros i v [E | Hiv] Hv.
      * apply H5. subst row. now apply H3.
      * now apply (H6 i v).
Qed.

End Clusters.

Lemma in_combine_seq {A : Type} (l : list A) :
  forall (s i : nat) (v : A),
    In (i, v) (combine (seq s (List.length l)) l)
    <-> (s <= i)%nat /\ nth_error l (i - s) = Some v.
Proof.
  induction l as [|x l IH]; intros s i v; simpl.
  - split; [intros [] | intros [_ H]]. destruct (i - s)%nat; discriminate.
  - rewrite IH. split.
    + intros [[= <- <-] | [Hle H]].
      * split; [lia|]. now rewrite Nat.sub_diag.
      * split; [lia|]. replace (i - s)%nat with (S (i - S s)) by lia. exact H.
    + intros [Hle H]. destruct (Nat.eq_dec s i) as [<- | Hne].
      * left. rewrite Nat.sub_diag in H. simpl in H. congruence.
      * right. split; [lia|].
        replace (i - s)%nat with (S (i - S s)) in H by lia. exact H.
Qed.

Lemma in_iterrows {A : Type} (df : frame A) (i : nat) (v : A) :
  In (i, v) (iterrows df) <-> nth_error (rows df) i = Some v.
Proof.
  unfold iterrows. rewrite in_combine_seq, Nat.sub_0_r. split; [tauto|].
  intros H. split; [lia | exact H].
Qed.

(** C9: on a table that has the latitude and longitude columns, the
    clusters hold each label at most once over all of them (so they are
    pairwise disjoint), and the labels they hold are exactly those of the
    rows with both coordinates: such a row is in exactly one cluster, a row
    with a missing coordinate in none.  The clusters are named cluster_0,
    cluster_1, ... in their order. *)
Theorem clusters_partition_located_rows (df : frame venue) (max_distance_km : R) :
  has_column df "latitude" = true ->
  has_column df "longitude" = true ->
  let clusters := cluster_venues_by_proximity (Some df) max_distance_km in
  NoDup (List.concat (map snd clusters))
  /\ (forall i : nat,
         In i (List.concat (map snd clusters))
         <-> exists v, nth_error (rows df) i = Some v /\ located v <> None)
  /\ map fst clusters = map cluster_key (seq 0 (List.length clusters)).
Proof.
  intros Hlat Hlon. cbv zeta. unfold cluster_venues_by_proximity.
  rewrite Hlat, Hlon. cbn [andb negb].
  destruct (frame_empty df) eqn:He.
  { simpl. split; [constructor|]. split; [|reflexivity].
    intros i. split; [intros []|]. intros (v & Hv & _).
    unfold frame_empty in He. destruct (rows df) as [|x l] eqn:Er.
    - destruct i; discriminate.
    - unfold has_column in Hlat. destruct (columns df); discriminate. }
  destruct (@cluster_fold_inv (iterrows df) max_distance_km (iterrows df) ([], O, [])
              (incl_refl _)) as (Hinv & _ & Hcov).
  { repeat split; [constructor | constructor | intros i []]. }
  destruct (fold_left _ _ _) as [[clusters cid] asg].
  destruct Hinv as (Hperm & Hnd & Hloc & Hkeys). cbn [fst snd] in *.
  split; [|split].
  - apply (Permutation_NoDup (Permutation_sym Hperm) Hnd).
  - intros i. split.
    + intros Hi. apply (Permutation_in _ Hperm) in Hi.
      destruct (Hloc i Hi) as (v & Hv & Hl). exists v.
      split; [now apply in_iterrows | exact Hl].
    + intros (v & Hv & Hl). apply (Permutation_in _ (Permutation_sym Hperm)).
      apply (Hcov i v); [now apply in_iterrows | exact Hl].
  - rewrite Hkeys. f_equal. f_equal.
    apply (f_equal (@List.length _)) in Hkeys.
    rewrite !length_map, length_seq in Hkeys. now symmetry.
Qed.

(** The theorem at a table of three rows, the second without latitude, and
    the default distance of half a kilometre. *)
Lemma clusters_partition_witness :
  let df := mk_frame venue_columns [court; unlocated_court; pool] in
  has_column df "latitude" = true
  /\ has_column df "longitude" = true
  /\ NoDup (List.concat (map snd (cluster_venues_by_proximity (Some df) (5 / 10))))
  /\ (forall i : nat,
         In i (List.concat (map snd (cluster_venues_by_proximity (Some df) (5 / 10))))
         <-> exists v, nth_error (rows df) i = Some v /\ located v <> None).
Proof.
  cbv zeta. split; [reflexivity|]. split; [reflexivity|].
  destruct (@clusters_partition_located_rows
              (mk_frame venue_columns [court; unlocated_court; pool]) (5 / 10)%R
              eq_refl eq_refl) as (H1 & H2 & _).
  split; assumption.
Defined.

(* ------------------------------------------------------------------ *)
(** ** Geo helper: the haversine distance *)

Open Scope R_scope.

Lemma calculate_distance_angle (lat1 lon1 lat2 lon2 : R) :
  calculate_distance lat1 lon1 lat2 lon2
  = 6371 * central_angle (radians lat1) (radians lon1) (radians lat2) (radians lon2).
Proof. reflexivity. Qed.

Lemma sin_cos_1 (x : R) : sin x * sin x + cos x * cos x = 1.
Proof. pose proof (sin2_cos2 x) as H. unfold Rsqr in H. exact H. Qed.

Lemma sin_half_sqr (t : R) : sin (t / 2) * sin (t / 2) = (1 - cos t) / 2.
Proof.
  assert (H : cos t = 1 - 2 * sin (t / 2) * sin (t / 2)).
  { rewrite <- cos_2a_sin. f_equal. field. }
  lra.
Qed.

Lemma hav_dot (p1 l1 p2 l2 : R) : hav p1 l1 p2 l2 = (1 - dot p1 l1 p2 l2) / 2.
Proof.
  unfold hav, dot. simpl pow. rewrite !Rmult_1_r, !sin_half_sqr, !cos_minus. field.
Qed.

Lemma dot_bounds (p1 l1 p2 l2 : R) : -1 <= dot p1 l1 p2 l2 <= 1.
Proof.
  unfold dot.
  pose proof (sin_cos_1 p1). pose proof (sin_cos_1 l1).
  pose proof (sin_cos_1 p2). pose proof (sin_cos_1 l2).
  generalize dependent (sin p1). generalize dependent (cos p1).
  generalize dependent (sin l1). generalize dependent (cos l1).
  generalize dependent (sin p2). generalize dependent (cos p2).
  generalize dependent (sin l2). generalize dependent (cos l2).
  intros cl2 sl2 Hl2 cp2 sp2 Hp2 cl1 sl1 Hl1 cp1 sp1 Hp1.
  assert (N1 : (cp1 * cl1) * (cp1 * cl1) + (cp1 * sl1) * (cp1 * sl1) + sp1 * sp1 = 1)
    by nra.
  assert (N2 : (cp2 * cl2) * (cp2 * cl2) + (cp2 * sl2) * (cp2 * sl2) + sp2 * sp2 = 1)
    by nra.
  split.
  - pose proof (Rle_0_sqr (cp1 * cl1 + cp2 * cl2)).
    pose proof (Rle_0_sqr (cp1 * sl1 + cp2 * sl2)).
    pose proof (Rle_0_sqr (sp1 + sp2)). unfold Rsqr in *. nra.
  - pose proof (Rle_0_sqr (cp1 * cl1 - cp2 * cl2)).
    pose proof (Rle_0_sqr (cp1 * sl1 - cp2 * sl2)).
    pose proof (Rle_0_sqr (sp1 - sp2)). unfold Rsqr in *. nra.
Qed.

Lemma hav_bounds (p1 l1 p2 l2 : R) : 0 <= hav p1 l1 p2 l2 <= 1.
Proof.
  rewrite hav_dot. pose proof (dot_bounds p1 l1 p2 l2). lra.
Qed.

Lemma sqrt_hav_bounds (p1 l1 p2 l2 : R) : 0 <= sqrt (hav p1 l1 p2 l2) <= 1.
Proof.
  pose proof (hav_bounds p1 l1 p2 l2) as [H0 H1]. split; [apply sqrt_pos|].
  rewrite <- sqrt_1. now apply sqrt_le_1_alt.
Qed.

Lemma asin_nonneg (s : R) : 0 <= s <= 1 -> 0 <= asin s <= PI / 2.
Proof.
  intros [H0 H1]. pose proof (asin_bound s) as [Hlo Hhi]. split; [|exact Hhi].
  destruct (Rle_dec 0 (asin s)) as [H | H]; [exact H|].
  apply Rnot_le_lt in H.
  assert (Hs : sin (asin s) < 0).
  { apply sin_lt_0_var; [|exact H]. pose proof PI_RGT_0. lra. }
  rewrite sin_asin in Hs by lra. lra.
Qed.

Lemma central_angle_bounds (p1 l1 p2 l2 : R) : 0 <= central_angle p1 l1 p2 l2 <= PI.
Proof.
  unfold central_angle.
  pose proof (asin_nonneg (sqrt_hav_bounds p1 l1 p2 l2)). lra.
Qed.

Lemma cos_central_angle (p1 l1 p2 l2 : R) :
  cos (central_angle p1 l1 p2 l2) = dot p1 l1 p2 l2.
Proof.
  unfold central_angle. rewrite cos_2a_sin.
  pose proof (sqrt_hav_bounds p1 l1 p2 l2) as Hs.
  pose proof (hav_bounds p1 l1 p2 l2) as Hh.
  rewrite sin_asin by lra.
  rewrite Rmult_assoc, sqrt_sqrt by lra. rewrite hav_dot. field.
Qed.

(** For three unit vectors the Gram determinant is a square, so it is not
    negative. *)
Lemma gram_unit (a1 a2 a3 b1 b2 b3 c1 c2 c3 : R) :
  a1 * a1 + a2 * a2 + a3 * a3 = 1 ->
  b1 * b1 + b2 * b2 + b3 * b3 = 1 ->
  c1 * c1 + c2 * c2 + c3 * c3 = 1 ->
  let x := a1 * b1 + a2 * b2 + a3 * b3 in
  let y := b1 * c1 + b2 * c2 + b3 * c3 in
  let z := a1 * c1 + a2 * c2 + a3 * c3 in
  (x * y - z) * (x * y - z) <= (1 - x * x) * (1 - y * y).
Proof.
  intros Ha Hb Hc x y z.
  set (t := a1 * (b2 * c3 - b3 * c2) - a2 * (b1 * c3 - b3 * c1)
            + a3 * (b1 * c2 - b2 * c1)).
  assert (ID : ((a1 * a1 + a2 * a2 + a3 * a3) * (b1 * b1 + b2 * b2 + b3 * b3) - x * x)
               * ((b1 * b1 + b2 * b2 + b3 * b3) * (c1 * c1 + c2 * c2 + c3 * c3) - y * y)
               - (x * y - (b1 * b1 + b2 * b2 + b3 * b3) * z)
                 * (x * y - (b1 * b1 + b2 * b2 + b3 * b3) * z)
               = (b1 * b1 + b2 * b2 + b3 * b3) * (t * t)).
  { unfold x, y, z, t. ring. }
  rewrite Ha, Hb, Hc in ID.
  pose proof (Rle_0_sqr t) as Ht. unfold Rsqr in Ht.
  clearbody x y z t. nra.
Qed.

Lemma unit_vector (p l : R) :
  (cos p * cos l) * (cos p * cos l) + (cos p * sin l) * (cos p * sin l)
  + sin p * sin p = 1.
Proof.
  pose proof (sin_cos_1 p). pose proof (sin_cos_1 l). nra.
Qed.

(** The central angles obey the triangle inequality. *)
Lemma central_angle_triangle (p1 l1 p2 l2 p3 l3 : R) :
  central_angle p1 l1 p3 l3
  <= central_angle p1 l1 p2 l2 + central_angle p2 l2 p3 l3.
Proof.
  pose proof (central_angle_bounds p1 l1 p3 l3) as Hc.
  pose proof (central_angle_bounds p1 l1 p2 l2) as Ha.
  pose proof (central_angle_bounds p2 l2 p3 l3) as Hb.
  pose proof (cos_central_angle p1 l1 p3 l3) as Cc.
  pose proof (cos_central_angle p1 l1 p2 l2) as Ca.
  pose proof (cos_central_angle p2 l2 p3 l3) as Cb.
  set (gamma := central_angle p1 l1 p3 l3) in *.
  set (alpha := central_angle p1 l1 p2 l2) in *.
  set (beta := central_angle p2 l2 p3 l3) in *.
  destruct (Rle_dec (alpha + beta) PI) as [Hsum | Hsum]; [|lra].
  apply cos_decr_0; [lra | lra | lra | lra |].
  rewrite cos_plus, Cc, Ca, Cb.
  assert (Sa : 0 <= sin alpha) by (apply sin_ge_0; lra).
  assert (Sb : 0 <= sin beta) by (apply sin_ge_0; lra).
  pose proof (sin_cos_1 alpha) as Pa. pose proof (sin_cos_1 beta) as Pb.
  rewrite Ca in Pa. rewrite Cb in Pb.
  pose proof (@gram_unit (cos p1 * cos l1) (cos p1 * sin l1) (sin p1)
                (cos p2 * cos l2) (cos p2 * sin l2) (sin p2)
                (cos p3 * cos l3) (cos p3 * sin l3) (sin p3)
                (unit_vector p1 l1) (unit_vector p2 l2) (unit_vector p3 l3)) as G.
  cbv zeta in G. fold (dot p1 l1 p2 l2) in G. fold (dot p2 l2 p3 l3) in G.
  fold (dot p1 l1 p3 l3) in G.
  set (x := dot p1 l1 p2 l2) in *. set (y := dot p2 l2 p3 l3) in *.
  set (z := dot p1 l1 p3 l3) in *.
  set (sa := sin alpha) in *. set (sb := sin beta) in *.
  clearbody x y z sa sb.
  assert (Hprod : 0 <= sa * sb) by now apply Rmult_le_pos.
  assert (Hsq : (x * y - z) * (x * y - z) <= (sa * sb) * (sa * sb)) by nra.
  destruct (Rle_dec (x * y - z) (sa * sb)) as [H | H]; [lra|].
  apply Rnot_le_lt in H. nra.
Qed.

(** C7: the haversine distance of a point to itself is 0, the distance is
    symmetric, and it obeys the triangle inequality (over the real numbers,
    hence up to the rounding of the floats). *)
Theorem haversine_is_a_metric (lat1 lon1 lat2 lon2 lat3 lon3 : R) :
  calculate_distance lat1 lon1 lat1 lon1 = 0
  /\ calculate_distance lat1 lon1 lat2 lon2 = calculate_distance lat2 lon2 lat1 lon1
  /\ calculate_distance lat1 lon1 lat3 lon3
     <= calculate_distance lat1 lon1 lat2 lon2 + calculate_distance lat2 lon2 lat3 lon3.
Proof.
  rewrite !calculate_distance_angle. split; [|split].
  - unfold central_angle. rewrite hav_dot.
    assert (E : dot (radians lat1) (radians lon1) (radians lat1) (radians lon1) = 1).
    { unfold dot. pose proof (unit_vector (radians lat1) (radians lon1)). lra. }
    rewrite E. replace ((1 - 1) / 2) with 0 by field.
    rewrite sqrt_0, asin_0. ring.
  - unfold central_angle. rewrite !hav_dot.
    replace (dot (radians lat2) (radians lon2) (radians lat1) (radians lon1))
      with (dot (radians lat1) (radians lon1) (radians lat2) (radians lon2))
      by (unfold dot; ring).
    reflexivity.
  - pose proof (central_angle_triangle (radians lat1) (radians lon1)
                  (radians lat2) (radians lon2) (radians lat3) (radians lon3)).
    lra.
Qed.

Close Scope R_scope.

(* ------------------------------------------------------------------ *)
(** ** Geo helper: the nearest venue of any table, and the venues in a radius *)

Open Scope R_scope.

Lemma closer_true (d : R) (m : option R) :
  closer d m = true <-> match m with None => True | Some x => d < x end.
Proof.
  unfold closer. destruct m as [x|]; [|tauto].
  destruct (Rlt_dec d x); split; intros; try tauto; discriminate.
Qed.

Lemma nearest_step_keeps (lat lon : R) (seen : list venue) st (v : venue) :
  nearest_so_far lat lon seen st ->
  nearest_so_far lat lon (seen ++ [v]) (nearest_step lat lon st v).
Proof.
  intros H. unfold nearest_step.
  destruct (located v) as [[vlat vlon]|] eqn:El.
  - assert (Ed : distance_to lat lon v = Some (calculate_distance lat lon vlat vlon)).
    { unfold distance_to. now rewrite El. }
    set (d := calculate_distance lat lon vlat vlon) in *.
    destruct H as [[-> Hnone] | (w & dw & -> & Hin & Hw & Hmin)]; cbn [fst closer].
    + right. exists v, d. split; [reflexivity|]. split; [apply in_or_app; right; now left|].
      split; [exact Ed|]. intros v' d' Hv' Hd'.
      apply in_app_or in Hv'. destruct Hv' as [Hv' | [<- | []]].
      * unfold distance_to in Hd'. now rewrite (Hnone v' Hv') in Hd'.
      * rewrite Ed in Hd'. injection Hd' as <-. lra.
    + destruct (Rlt_dec d dw) as [Hlt | Hge].
      * right. exists v, d. split; [reflexivity|].
        split; [apply in_or_app; right; now left|]. split; [exact Ed|].
        intros v' d' Hv' Hd'. apply in_app_or in Hv'. destruct Hv' as [Hv' | [<- | []]].
        -- specialize (Hmin v' d' Hv' Hd'). lra.
        -- rewrite Ed in Hd'. injection Hd' as <-. lra.
      * right. exists w, dw. split; [reflexivity|].
        split; [apply in_or_app; now left|]. split; [exact Hw|].
        intros v' d' Hv' Hd'. apply in_app_or in Hv'. destruct Hv' as [Hv' | [<- | []]].
        -- now apply (Hmin v' d').
        -- rewrite Ed in Hd'. injection Hd' as <-. lra.
  - destruct H as [[-> Hnone] | (w & dw & -> & Hin & Hw & Hmin)].
    + left. split; [reflexivity|]. intros v' Hv'. apply in_app_or in Hv'.
      destruct Hv' as [Hv' | [<- | []]]; [now apply Hnone | exact El].
    + right. exists w, dw. split; [reflexivity|].
      split; [apply in_or_app; now left|]. split; [exact Hw|].
      intros v' d' Hv' Hd'. apply in_app_or in Hv'. destruct Hv' as [Hv' | [<- | []]].
      * now apply (Hmin v' d').
      * unfold distance_to in Hd'. now rewrite El in Hd'.
Qed.

Lemma nearest_fold_keeps (lat lon : R) (l : list venue) :
  forall seen st,
    nearest_so_far lat lon seen st ->
    nearest_so_far lat lon (seen ++ l) (fold_left (nearest_step lat lon) l st).
Proof.
  induction l as [|v l IH]; intros seen st H; simpl.
  - now rewrite app_nil_r.
  - replace (seen ++ v :: l)%list with ((seen ++ [v]) ++ l)%list
      by (now rewrite <- app_assoc).
    apply IH. now apply nearest_step_keeps.
Qed.

Lemma nearest_scan_result (df : frame venue) (lat lon : R) :
  has_column df "latitude" = true ->
  has_column df "longitude" = true ->
  match find_nearest_venue (Some df) lat lon with
  | Some (v, d) =>
      In v (rows df) /\ distance_to lat lon v = Some d
      /\ forall v' d', In v' (rows df) -> distance_to lat lon v' = Some d' -> d <= d'
  | None => forall v', In v' (rows df) -> located v' = None
  end.
Proof.
  intros Hlat Hlon. unfold find_nearest_venue. rewrite Hlat, Hlon. cbn [andb negb].
  destruct (frame_empty df) eqn:He.
  { unfold frame_empty in He. unfold has_column in Hlat.
    destruct (rows df); [intros v' [] | destruct (columns df); discriminate]. }
  pose proof (@nearest_fold_keeps lat lon (rows df) [] (None, None)) as H.
  cbn [app] in H.
  destruct H as [[-> Hnone] | (v & d & -> & Hin & Hd & Hmin)].
  - left. split; [reflexivity | intros v []].
  - exact Hnone.
  - cbn [snd]. now repeat split.
Qed.

(** On a table with the coordinate columns, [find_nearest_venue] returns a
    row of the table with its distance to the point, and no row with
    coordinates is nearer; it returns nothing exactly when no row has both
    coordinates. *)
Theorem nearest_venue_is_closest (df : frame venue) (lat lon : R) :
  has_column df "latitude" = true ->
  has_column df "longitude" = true ->
  match find_nearest_venue (Some df) lat lon with
  | Some (v, d) =>
      In v (rows df) /\ distance_to lat lon v = Some d
      /\ forall v' d', In v' (rows df) -> distance_to lat lon v' = Some d' -> d <= d'
  | None => forall v', In v' (rows df) -> located v' = None
  end.
Proof. exact (@nearest_scan_result df lat lon). Qed.

(** The theorem at the sample table and a point west of the court. *)
Lemma nearest_venue_is_closest_witness :
  match find_nearest_venue (Some sample_table) 25 (1215 / 10) with
  | Some (v, d) =>
      In v (rows sample_table) /\ distance_to 25 (1215 / 10) v = Some d
      /\ forall v' d', In v' (rows sample_table) ->
                       distance_to 25 (1215 / 10) v' = Some d' -> d <= d'
  | None => forall v', In v' (rows sample_table) -> located v' = None
  end.
Proof.
  exact (@nearest_venue_is_closest sample_table 25 (1215 / 10) eq_refl eq_refl).
Defined.

Lemma Rleb_true (a b : R) : Rleb a b = true <-> a <= b.
Proof.
  unfold Rleb. destruct (Rle_dec a b); split; intros; try tauto; discriminate.
Qed.

Lemma Rltb_true (a b : R) : Rltb a b = true <-> a < b.
Proof.
  unfold Rltb. destruct (Rlt_dec a b); split; intros; try tauto; discriminate.
Qed.

Lemma Rltb_false (a b : R) : Rltb a b = false <-> b <= a.
Proof.
  unfold Rltb. destruct (Rlt_dec a b); split; intros;
    try lra; try discriminate; try reflexivity.
Qed.

(** The rows [get_venues_in_radius] returns on a table with the coordinate
    columns. *)
Lemma venues_in_radius_rows (df : frame venue) (lat lon radius_km : R) :
  has_column df "latitude" = true ->
  has_column df "longitude" = true ->
  rows (get_venues_in_radius (Some df) lat lon radius_km)
  = flat_map
      (fun v =>
         match located v with
         | Some (vlat, vlon) =>
             if Rleb (calculate_distance lat lon vlat vlon) radius_km
             then [(v, Some (calculate_distance lat lon vlat vlon))] else []
         | None => []
         end)
      (rows df).
Proof.
  intros Hlat Hlon. unfold get_venues_in_radius. rewrite Hlat, Hlon. cbn [andb negb].
  destruct (frame_empty df) eqn:He.
  { unfold frame_empty in He. unfold has_column in Hlat.
    destruct (rows df); [reflexivity | destruct (columns df); discriminate]. }
  cbv zeta. destruct (flat_map _ (rows df)); reflexivity.
Qed.

Lemma in_venues_in_radius (df : frame venue) (lat lon radius_km : R)
      (v : venue) (od : option R) :
  has_column df "latitude" = true ->
  has_column df "longitude" = true ->
  In (v, od) (rows (get_venues_in_radius (Some df) lat lon radius_km))
  <-> In v (rows df)
      /\ exists d, od = Some d /\ distance_to lat lon v = Some d /\ d <= radius_km.
Proof.
  intros Hlat Hlon. rewrite venues_in_radius_rows by assumption.
  rewrite in_flat_map. unfold distance_to. split.
  - intros (w & Hw & Hin).
    destruct (located w) as [[vlat vlon]|] eqn:El; [|destruct Hin].
    destruct (Rleb _ radius_km) eqn:E; [|destruct Hin].
    destruct Hin as [[= <- <-] | []]. split; [exact Hw|]. rewrite El.
    eexists. split; [reflexivity|]. split; [reflexivity | now apply Rleb_true].
  - intros (Hv & d & -> & Hd & Hle). exists v. split; [exact Hv|].
    destruct (located v) as [[vlat vlon]|]; [|discriminate].
    injection Hd as <-. apply Rleb_true in Hle. rewrite Hle. now left.
Qed.

(** On a table with the coordinate columns, [get_venues_in_radius] returns
    exactly the rows that have both coordinates and lie within the radius,
    each with its distance; a larger radius returns every row a smaller one
    returns. *)
Theorem venues_in_radius_exact (df : frame venue) (lat lon radius_km : R) :
  has_column df "latitude" = true ->
  has_column df "longitude" = true ->
  (forall v od,
      In (v, od) (rows (get_venues_in_radius (Some df) lat lon radius_km))
      <-> In v (rows df)
          /\ exists d, od = Some d /\ distance_to lat lon v = Some d /\ d <= radius_km)
  /\ (forall larger : R,
         radius_km <= larger ->
         incl (rows (get_venues_in_radius (Some df) lat lon radius_km))
              (rows (get_venues_in_radius (Some df) lat lon larger))).
Proof.
  intros Hlat Hlon. split.
  - intros v od. now apply in_venues_in_radius.
  - intros larger Hle [v od] H.
    apply in_venues_in_radius in H; [|assumption..].
    apply in_venues_in_radius; [assumption..|].
    destruct H as (Hv & d & -> & Hd & Hr). split; [exact Hv|].
    exists d. repeat split; [exact Hd | lra].
Qed.

(** The theorem at the sample table and a kilometre around a point. *)
Lemma venues_in_radius_exact_witness :
  has_column sample_table "latitude" = true
  /\ has_column sample_table "longitude" = true
  /\ forall v od,
      In (v, od) (rows (get_venues_in_radius (Some sample_table) 25 (1215 / 10) 1))
      <-> In v (rows sample_table)
          /\ exists d, od = Some d /\ distance_to 25 (1215 / 10) v = Some d /\ d <= 1.
Proof.
  split; [reflexivity|]. split; [reflexivity|].
  exact (proj1 (@venues_in_radius_exact sample_table 25 (1215 / 10) 1 eq_refl eq_refl)).
Defined.

(** The two queries agree: some venue lies within the radius exactly when
    the nearest venue does. *)
Theorem radius_holds_nearest (df : frame venue) (lat lon radius_km : R) :
  has_column df "latitude" = true ->
  has_column df "longitude" = true ->
  rows (get_venues_in_radius (Some df) lat lon radius_km) <> []
  <-> exists v d, find_nearest_venue (Some df) lat lon = Some (v, d) /\ d <= radius_km.
Proof.
  intros Hlat Hlon.
  pose proof (@nearest_scan_result df lat lon Hlat Hlon) as Hn.
  split.
  - intros Hne.
    destruct (rows (get_venues_in_radius (Some df) lat lon radius_km))
      as [|[w od] l] eqn:E; [congruence|].
    assert (Hw : In (w, od) (rows (get_venues_in_radius (Some df) lat lon radius_km)))
      by (rewrite E; now left).
    apply in_venues_in_radius in Hw; [|assumption..].
    destruct Hw as (Hw & dw & -> & Hdw & Hle).
    destruct (find_nearest_venue (Some df) lat lon) as [[v d]|].
    + destruct Hn as (_ & _ & Hmin). exists v, d. split; [reflexivity|].
      specialize (Hmin w dw Hw Hdw). lra.
    + specialize (Hn w Hw). unfold distance_to in Hdw. now rewrite Hn in Hdw.
  - intros (v & d & E & Hle). rewrite E in Hn. destruct Hn as (Hv & Hd & _).
    assert (Hin : In (v, Some d) (rows (get_venues_in_radius (Some df) lat lon radius_km))).
    { apply in_venues_in_radius; [assumption..|]. split; [exact Hv|].
      exists d. now repeat split. }
    intros Hnil. rewrite Hnil in Hin. destruct Hin.
Qed.

(** The theorem at the sample table. *)
Lemma radius_holds_nearest_witness :
  rows (get_venues_in_radius (Some sample_table) 25 (1215 / 10) 1) <> []
  <-> exists v d,
      find_nearest_venue (Some sample_table) 25 (1215 / 10) = Some (v, d) /\ d <= 1.
Proof.
  exact (@radius_holds_nearest sample_table 25 (1215 / 10) 1 eq_refl eq_refl).
Defined.

Close Scope R_scope.

(* ------------------------------------------------------------------ *)
(** ** Geo helper: way points, the bounds of the city, the zoom level *)

Open Scope R_scope.

Lemma validate_in_taipei (lat lon : R) :
  validate_coordinates lat lon = true <-> in_taipei (lat, lon).
Proof.
  unfold validate_coordinates, in_taipei. cbn [fst snd].
  rewrite !andb_true_iff, !Rleb_true. tauto.
Qed.

Lemma between_segment (a b t : R) :
  0 <= t <= 1 -> between a b (a + (b - a) * t).
Proof.
  intros Ht. unfold between, Rmin, Rmax.
  destruct (Rle_dec a b); split; nra.
Qed.

Lemma ratio_bounds (i n : nat) :
  (1 <= i <= n)%nat -> 0 <= INR i / INR (n + 1) <= 1.
Proof.
  intros Hi.
  assert (Hn : 0 < INR (n + 1)) by (apply lt_0_INR; lia).
  assert (H0 : 0 <= INR i) by apply pos_INR.
  assert (H1 : INR i <= INR (n + 1)) by (apply le_INR; lia).
  split.
  - apply Rmult_le_pos; [exact H0 | left; now apply Rinv_0_lt_compat].
  - apply (Rmult_le_reg_r (INR (n + 1))); [exact Hn|].
    unfold Rdiv. rewrite Rmult_assoc, Rinv_l by lra. lra.
Qed.

Lemma between_bounds (a b x lo hi : R) :
  lo <= a <= hi -> lo <= b <= hi -> between a b x -> lo <= x <= hi.
Proof.
  unfold between, Rmin, Rmax. destruct (Rle_dec a b); lra.
Qed.

(** [get_route_waypoints] returns as many points as asked; each lies inside
    the box of the two ends, and when both ends are inside the bounds of the
    city every way point passes [validate_coordinates]. *)
Theorem waypoints_stay_between_the_ends (start_coords end_coords : R * R) (n : nat) :
  List.length (get_route_waypoints start_coords end_coords n) = n
  /\ Forall (fun p => between (fst start_coords) (fst end_coords) (fst p)
                      /\ between (snd start_coords) (snd end_coords) (snd p))
            (get_route_waypoints start_coords end_coords n)
  /\ (validate_coordinates (fst start_coords) (snd start_coords) = true ->
      validate_coordinates (fst end_coords) (snd end_coords) = true ->
      Forall (fun p => validate_coordinates (fst p) (snd p) = true)
             (get_route_waypoints start_coords end_coords n)).
Proof.
  destruct start_coords as [slat slon], end_coords as [elat elon].
  unfold get_route_waypoints. cbn [fst snd].
  assert (Hbetween :
            Forall (fun p => between slat elat (fst p) /\ between slon elon (snd p))
                   (map (fun i =>
                           let ratio := INR i / INR (n + 1) in
                           (slat + (elat - slat) * ratio, slon + (elon - slon) * ratio))
                        (seq 1 n))).
  { apply Forall_forall. intros p Hp. apply in_map_iff in Hp.
    destruct Hp as (i & <- & Hi). apply in_seq in Hi. cbv zeta. cbn [fst snd].
    assert (Ht : 0 <= INR i / INR (n + 1) <= 1) by (apply ratio_bounds; lia).
    split; now apply between_segment. }
  split; [now rewrite length_map, length_seq|]. split; [exact Hbetween|].
  intros Hs He. apply validate_in_taipei in Hs, He.
  destruct Hs as [Hs1 Hs2], He as [He1 He2]. cbn [fst snd] in *.
  eapply Forall_impl; [|exact Hbetween].
  intros [lat lon] [H1 H2]. cbn [fst snd] in *. apply validate_in_taipei.
  split; cbn [fst snd].
  - exact (between_bounds Hs1 He1 H1).
  - exact (between_bounds Hs2 He2 H2).
Qed.

(** The theorem between the centres of two districts, both inside the city. *)
Lemma waypoints_stay_between_the_ends_witness :
  validate_coordinates (fst (get_district_center "大安區"))
                       (snd (get_district_center "大安區")) = true
  /\ validate_coordinates (fst (get_district_center "北投區"))
                          (snd (get_district_center "北投區")) = true
  /\ Forall (fun p => validate_coordinates (fst p) (snd p) = true)
            (get_route_waypoints (get_district_center "大安區")
                                 (get_district_center "北投區") 3).
Proof.
  assert (H1 : validate_coordinates (fst (get_district_center "大安區"))
                                    (snd (get_district_center "大安區")) = true).
  { apply validate_in_taipei. unfold in_taipei, bound_south, bound_north,
      bound_west, bound_east. cbn. lra. }
  assert (H2 : validate_coordinates (fst (get_district_center "北投區"))
                                    (snd (get_district_center "北投區")) = true).
  { apply validate_in_taipei. unfold in_taipei, bound_south, bound_north,
      bound_west, bound_east. cbn. lra. }
  split; [exact H1|]. split; [exact H2|].
  exact (proj2 (proj2 (@waypoints_stay_between_the_ends
                         (get_district_center "大安區")
                         (get_district_center "北投區") 3%nat)) H1 H2).
Defined.

(** The zoom level of a box from its larger side. *)
Lemma zoom_level_cases (b : bounds) :
  let m := py_maxR (north b - south b) (east b - west b) in
  (1 / 10 < m /\ get_map_zoom_level b = 10%Z)
  \/ (5 / 100 < m <= 1 / 10 /\ get_map_zoom_level b = 12%Z)
  \/ (2 / 100 < m <= 5 / 100 /\ get_map_zoom_level b = 14%Z)
  \/ (1 / 100 < m <= 2 / 100 /\ get_map_zoom_level b = 15%Z)
  \/ (m <= 1 / 100 /\ get_map_zoom_level b = 16%Z).
Proof.
  cbv zeta. unfold get_map_zoom_level.
  set (m := py_maxR (north b - south b) (east b - west b)).
  destruct (Rltb (1 / 10) m) eqn:E1; [apply Rltb_true in E1; now left|].
  apply Rltb_false in E1.
  destruct (Rltb (5 / 100) m) eqn:E2; [apply Rltb_true in E2; right; left; split; [lra | reflexivity]|].
  apply Rltb_false in E2.
  destruct (Rltb (2 / 100) m) eqn:E3;
    [apply Rltb_true in E3; right; right; left; split; [lra | reflexivity]|].
  apply Rltb_false in E3.
  destruct (Rltb (1 / 100) m) eqn:E4;
    [apply Rltb_true in E4; right; right; right; left; split; [lra | reflexivity]|].
  apply Rltb_false in E4. right; right; right; right. split; [lra | reflexivity].
Qed.

(** The zoom level is between 10 and 16, and a box whose larger side is not
    smaller gets a zoom level that is not larger. *)
Theorem zoom_level_shrinks_as_the_box_grows (b1 b2 : bounds) :
  (10 <= get_map_zoom_level b1 <= 16)%Z
  /\ (py_maxR (north b1 - south b1) (east b1 - west b1)
      <= py_maxR (north b2 - south b2) (east b2 - west b2) ->
      (get_map_zoom_level b2 <= get_map_zoom_level b1)%Z).
Proof.
  pose proof (zoom_level_cases b1) as H1. pose proof (zoom_level_cases b2) as H2.
  cbv zeta in H1, H2.
  set (m1 := py_maxR (north b1 - south b1) (east b1 - west b1)) in *.
  set (m2 := py_maxR (north b2 - south b2) (east b2 - west b2)) in *.
  split.
  - destruct H1 as [[_ ->] | [[_ ->] | [[_ ->] | [[_ ->] | [_ ->]]]]]; lia.
  - intros Hle.
    destruct H1 as [[A1 ->] | [[A1 ->] | [[A1 ->] | [[A1 ->] | [A1 ->]]]]];
      destruct H2 as [[A2 ->] | [[A2 ->] | [[A2 ->] | [[A2 ->] | [A2 ->]]]]];
      solve [lia | lra].
Qed.

Close Scope R_scope.

(* ------------------------------------------------------------------ *)
(** ** Geo helper: the points of a district, and the table with coordinates *)

Open Scope R_scope.

(** What holds of every value of a dict and of the default holds of
    [d.get(key, default)]. *)
Lemma get_default_ind {A : Type} (P : A -> Prop) (f : string * A -> bool)
      (l : list (string * A)) (d : A) :
  Forall (fun kv => P (snd kv)) l -> P d ->
  P (match find f l with Some kv => snd kv | None => d end).
Proof.
  intros Hl Hd. destruct (find f l) as [kv|] eqn:E; [|exact Hd].
  apply find_some in E. rewrite Forall_forall in Hl. now apply Hl.
Qed.

(** Every centre of [district_centers] is at least a hundredth of a degree
    inside the bounds of the city. *)
Lemma district_center_margin (district_name : string) :
  bound_south + 1 / 100 <= fst (get_district_center district_name)
                        <= bound_north - 1 / 100
  /\ bound_west + 1 / 100 <= snd (get_district_center district_name)
                          <= bound_east - 1 / 100.
Proof.
  unfold get_district_center.
  apply (get_default_ind
           (fun c => bound_south + 1 / 100 <= fst c <= bound_north - 1 / 100
                     /\ bound_west + 1 / 100 <= snd c <= bound_east - 1 / 100)).
  - unfold district_centers, taipei_center, bound_south, bound_north,
      bound_west, bound_east.
    repeat (constructor; [cbn [fst snd]; lra|]). constructor.
  - unfold taipei_center, bound_south, bound_north, bound_west, bound_east.
    cbn [fst snd]. lra.
Qed.

Lemma district_coordinates_in_taipei (district : cell) :
  in_taipei (_get_district_coordinates_static district).
Proof.
  unfold _get_district_coordinates_static.
  apply (get_default_ind in_taipei).
  - unfold district_coords, in_taipei, bound_south, bound_north,
      bound_west, bound_east.
    repeat (constructor; [cbn [fst snd]; lra|]). constructor.
  - unfold in_taipei, bound_south, bound_north, bound_west, bound_east.
    cbn [fst snd]. lra.
Qed.

Lemma uniform_offset_bounds (g : rng) :
  - (1 / 100) <= fst (uniform_offset g) <= 1 / 100.
Proof.
  destruct g as [|x g]; cbn [uniform_offset fst]; [lra|].
  pose proof (Z.mod_pos_bound x 2000 eq_refl) as [H0 H1].
  apply IZR_le in H0. apply Z.lt_le_incl, IZR_le in H1. lra.
Qed.

(** The clamp of [generate_coordinates_for_district] on a number inside the
    bounds. *)
Lemma clamp_inside (lo hi x : R) :
  lo <= x <= hi -> py_maxR lo (py_minR hi x) = x.
Proof.
  intros [H1 H2]. unfold py_maxR, py_minR, Rltb.
  destruct (Rlt_dec x hi); destruct (Rlt_dec lo _); lra.
Qed.

Lemma generate_points_near (center_lat center_lon : R) (n : nat) :
  bound_south + 1 / 100 <= center_lat <= bound_north - 1 / 100 ->
  bound_west + 1 / 100 <= center_lon <= bound_east - 1 / 100 ->
  forall g,
    List.length (generate_points center_lat center_lon n g) = n
    /\ Forall (fun p => center_lat - 1 / 100 <= fst p <= center_lat + 1 / 100
                        /\ center_lon - 1 / 100 <= snd p <= center_lon + 1 / 100)
              (generate_points center_lat center_lon n g).
Proof.
  intros Hlat Hlon. induction n as [|n IH]; intros g; cbn [generate_points].
  - split; [reflexivity | constructor].
  - pose proof (uniform_offset_bounds g) as H1.
    destruct (uniform_offset g) as [lat_offset g1]. cbn [fst] in H1.
    pose proof (uniform_offset_bounds g1) as H2.
    destruct (uniform_offset g1) as [lon_offset g2]. cbn [fst] in H2.
    destruct (IH g2) as [IHl IHf].
    rewrite !clamp_inside by lra.
    split; [cbn [List.length]; now rewrite IHl|].
    constructor; [cbn [fst snd]; lra | exact IHf].
Qed.

Section AssignedCoordinates.

Variable seeded : string -> rng.

Lemma generated_points_spec (district : string) (n : nat) :
  List.length (generate_coordinates_for_district seeded district n) = n
  /\ Forall (fun p =>
               south (get_district_bounds district) <= fst p
                 <= north (get_district_bounds district)
               /\ west (get_district_bounds district) <= snd p
                  <= east (get_district_bounds district)
               /\ validate_coordinates (fst p) (snd p) = true)
            (generate_coordinates_for_district seeded district n).
Proof.
  unfold generate_coordinates_for_district, get_district_bounds.
  pose proof (district_center_margin district) as [Hlat Hlon].
  destruct (get_district_center district) as [center_lat center_lon].
  cbn [fst snd] in Hlat, Hlon. cbn [north south east west].
  destruct (generate_points_near n Hlat Hlon (seeded district)) as [Hl Hf].
  split; [exact Hl|].
  eapply Forall_impl; [|exact Hf].
  intros [lat lon] [H1 H2]. cbn [fst snd] in *.
  split; [lra|]. split; [lra|].
  apply validate_in_taipei. unfold in_taipei. cbn [fst snd]. lra.
Qed.

(** [generate_coordinates_for_district] returns [num_points] points; each is
    inside the box [get_district_bounds] gives the district (so the clamp to
    the bounds of the city never moves a point) and passes
    [validate_coordinates]. *)
Theorem generated_points_stay_in_the_district (district : string) (num_points : nat) :
  List.length (generate_coordinates_for_district seeded district num_points)
  = num_points
  /\ Forall (fun p =>
               south (get_district_bounds district) <= fst p
                 <= north (get_district_bounds district)
               /\ west (get_district_bounds district) <= snd p
                  <= east (get_district_bounds district)
               /\ validate_coordinates (fst p) (snd p) = true)
            (generate_coordinates_for_district seeded district num_points).
Proof. exact (generated_points_spec district num_points). Qed.







End AssignedCoordinates.


Lemma load_rows_Forall (P : venue -> Prop) :
  (forall idx row g, has_name row = true -> P (fst (load_row idx row g))) ->
  forall (raw : list raw_row) (idx : Z) (g : rng),
    Forall P (fst (load_rows idx raw g)).
Proof.
  intros HP. induction raw as [|row raw IH]; intros idx g; simpl; [constructor|].
  destruct (has_name row) eqn:Hn; [|apply IH].
  pose proof (HP idx row g Hn) as Hrow.
  destruct (load_row idx row g) as [v g1]; simpl in Hrow.
  specialize (IH (idx + 1)%Z g1).
  destruct (load_rows (idx + 1) raw g1) as [vs g2]; simpl in *.
  now constructor.
Qed.

Lemma load_venues_data_Forall (P : venue -> Prop) :
  (forall idx row g, has_name row = true -> P (fst (load_row idx row g))) ->
  forall (csv : option (list raw_row)) (g : rng),
    Forall P (rows (fst (load_venues_data csv g))).
Proof.
  intros HP csv g. unfold load_venues_data. destruct csv as [raw|]; [|constructor].
  pose proof (load_rows_Forall P HP raw 0%Z g) as H.
  destruct (load_rows 0 raw g) as [[|v vs] g']; simpl in *; [constructor | exact H].
Qed.

Lemma load_venues_data_columns (csv : option (list raw_row)) (g : rng) :
  frame_empty (fst (load_venues_data csv g)) = false ->
  columns (fst (load_venues_data csv g)) = venue_columns.
Proof.
  unfold load_venues_data. destruct csv as [raw|]; [|discriminate].
  destruct (load_rows 0 raw g) as [[|v vs] g']; cbn; [discriminate | reflexivity].
Qed.

Lemma load_row_located (idx : Z) (row : raw_row) (g : rng) :
  located (fst (load_row idx row g))
  = Some (_get_district_coordinates_static (raw_district row)).
Proof.
  unfold load_row.
  destruct (_extract_price_static (raw_price_range row) g) as [p g1].
  destruct (uniform_rating g1) as [r g2]. cbn [fst located latitude longitude].
  now destruct (_get_district_coordinates_static (raw_district row)).
Qed.

Close Scope R_scope.

(* ------------------------------------------------------------------ *)
(** ** Venue store: what every loaded row satisfies *)

Lemma sport_mapping_values_nonempty :
  Forall (fun kv : string * string => snd kv <> "") sport_mapping.
Proof. unfold sport_mapping. repeat (constructor; [discriminate|]). constructor. Qed.

Lemma normalize_sport_type_nonempty (c : cell) :
  _normalize_sport_type_static c <> "".
Proof.
  unfold _normalize_sport_type_static.
  destruct (cell_blank c); [discriminate|].
  destruct (find _ sport_mapping) as [kv|] eqn:E.
  - apply find_some in E. destruct E as [Hin _].
    pose proof sport_mapping_values_nonempty as H.
    rewrite Forall_forall in H. now apply H.
  - destruct (String.eqb (cell_str c) "") eqn:Es; [discriminate|].
    now apply String.eqb_neq in Es.
Qed.

Lemma load_row_fields (idx : Z) (row : raw_row) (g : rng) :
  id (fst (load_row idx row g)) = idx + 1
  /\ name (fst (load_row idx row g)) = cell_text (raw_name row)
  /\ sport_type (fst (load_row idx row g))
     = _normalize_sport_type_static (raw_sport_type row)
  /\ exists n : Z,
      rating (fst (load_row idx row g)) = Some (n # 10)%Q /\ 35 <= n <= 50.
Proof.
  unfold load_row.
  destruct (_extract_price_static (raw_price_range row) g) as [p g1].
  unfold uniform_rating.
  pose proof (@randint_bounds 35 50 g1 ltac:(lia)) as Hn.
  destruct (randint 35 50 g1) as [n g2]. cbn [fst] in *.
  repeat split. exists n. destruct n as [|n|n]; try lia.
  split; [reflexivity | lia].
Qed.

Lemma load_rows_ids (raw : list raw_row) :
  forall (idx : Z) (g : rng),
    StronglySorted Z.lt (map id (fst (load_rows idx raw g)))
    /\ Forall (fun v => idx + 1 <= id v <= idx + Z.of_nat (List.length raw))
              (fst (load_rows idx raw g)).
Proof.
  induction raw as [|row raw IH]; intros idx g; cbn [load_rows].
  - split; constructor.
  - assert (Hweak : forall vs : list venue,
               Forall (fun v => idx + 1 + 1 <= id v
                                <= idx + 1 + Z.of_nat (List.length raw)) vs ->
               Forall (fun v => idx + 1 <= id v
                                <= idx + Z.of_nat (List.length (row :: raw))) vs).
    { intros vs. apply Forall_impl. intros v. cbn [List.length]. lia. }
    destruct (has_name row).
    + pose proof (load_row_fields idx row g) as (Hid & _).
      destruct (load_row idx row g) as [v g1]. cbn [fst] in Hid.
      destruct (IH (idx + 1) g1) as [IHs IHb].
      destruct (load_rows (idx + 1) raw g1) as [vs g2]. cbn [fst map] in *.
      split.
      * constructor; [exact IHs|].
        apply Forall_forall. intros i Hi. apply in_map_iff in Hi.
        destruct Hi as (w & <- & Hw). rewrite Forall_forall in IHb.
        specialize (IHb w Hw). lia.
      * constructor; [cbn [List.length]; lia | now apply Hweak].
    + destruct (IH (idx + 1) g) as [IHs IHb]. split; [exact IHs | now apply Hweak].
Qed.

Lemma sorted_lt_NoDup (l : list Z) : StronglySorted Z.lt l -> NoDup l.
Proof.
  induction 1 as [|x l Hs IH Hx]; constructor; [|exact IH].
  intros Hin. rewrite Forall_forall in Hx. specialize (Hx x Hin). lia.
Qed.

Lemma loaded_ids (csv : option (list raw_row)) (g : rng) :
  StronglySorted Z.lt (map id (rows (fst (load_venues_data csv g))))
  /\ Forall (fun v => 1 <= id v <= Z.of_nat (List.length (given csv)))
            (rows (fst (load_venues_data csv g))).
Proof.
  unfold load_venues_data. destruct csv as [raw|]; [|split; constructor].
  destruct (load_rows_ids raw 0 g) as [Hs Hb].
  destruct (load_rows 0 raw g) as [[|v vs] g']; cbn [fst rows given] in *;
    [split; constructor|].
  split; [exact Hs | exact Hb].
Qed.

(** Every row [load_venues_data] builds has a name and a sport type that are
    not empty and a rating that is one of 3.5, 3.6, ..., 5.0; the ids are the
    positions of the rows in the file plus one, so they increase strictly
    along the table and no two rows share an id. *)
Theorem loaded_rows_are_well_formed (csv : option (list raw_row)) (g : rng) :
  Forall (fun v =>
            name v <> "" /\ sport_type v <> ""
            /\ (exists n : Z, rating v = Some (n # 10)%Q /\ 35 <= n <= 50)
            /\ 1 <= id v <= Z.of_nat (List.length (given csv)))
         (rows (fst (load_venues_data csv g)))
  /\ StronglySorted Z.lt (map id (rows (fst (load_venues_data csv g))))
  /\ NoDup (map id (rows (fst (load_venues_data csv g)))).
Proof.
  destruct (loaded_ids csv g) as [Hs Hb].
  split; [|split; [exact Hs | now apply sorted_lt_NoDup]].
  assert (H : Forall (fun v =>
                        name v <> "" /\ sport_type v <> ""
                        /\ (exists n : Z, rating v = Some (n # 10)%Q /\ 35 <= n <= 50))
                     (rows (fst (load_venues_data csv g)))).
  { apply load_venues_data_Forall. intros idx row g' Hn.
    destruct (load_row_fields idx row g') as (_ & -> & -> & Hr).
    split; [|split; [apply normalize_sport_type_nonempty | exact Hr]].
    unfold has_name in Hn. destruct (raw_name row) as [|s]; [discriminate|].
    cbn [cell_text]. apply negb_true_iff in Hn. now apply String.eqb_neq in Hn. }
  rewrite Forall_forall in *. intros v Hv.
  destruct (H v Hv) as (H1 & H2 & H3). specialize (Hb v Hv). tauto.
Qed.

(* ------------------------------------------------------------------ *)
(** ** Venue store: the lookups by id *)

Lemma filter_by_id_unique (l : list venue) (v : venue) :
  NoDup (map id l) -> In v l ->
  filter (fun w => Z.eqb (id w) (id v)) l = [v].
Proof.
  induction l as [|x l IH]; intros Hnd Hin; [destruct Hin|].
  cbn [map] in Hnd. inversion Hnd as [|? ? Hx Hnd']; subst.
  cbn [filter]. destruct Hin as [-> | Hin].
  - rewrite Z.eqb_refl. f_equal. apply filter_none. intros w Hw.
    apply Z.eqb_neq. intros E. apply Hx. rewrite <- E. now apply in_map.
  - destruct (Z.eqb (id x) (id v)) eqn:E; [|now apply IH].
    apply Z.eqb_eq in E. exfalso. apply Hx. rewrite E. now apply in_map.
Qed.

Lemma get_venue_by_id_found (df : frame venue) (venue_id : Z) :
  frame_empty df = false -> has_column df "id" = true ->
  get_venue_by_id (Some df) venue_id
  = Ok (match filter (fun v => Z.eqb (id v) venue_id) (rows df) with
        | [] => None
        | v :: _ => Some v
        end).
Proof.
  intros Hne Hid. unfold get_venue_by_id. rewrite Hne, Hid.
  cbn [bind filter_rows rows].
  now destruct (filter _ (rows df)).
Qed.

Lemma loaded_has_id (csv : option (list raw_row)) (g : rng) :
  frame_empty (fst (load_venues_data csv g)) = false ->
  has_column (fst (load_venues_data csv g)) "id" = true.
Proof.
  intros Hne. unfold has_column. now rewrite load_venues_data_columns.
Qed.

(** [get_venue_by_id] never raises.  On the table the store loads, asking for
    the id of a row returns that very row, and asking for any other number
    returns [None]. *)
Theorem venue_by_id_round_trip (csv : option (list raw_row)) (g : rng) :
  (forall (venues_data : option (frame venue)) (venue_id : Z),
      exists o, get_venue_by_id venues_data venue_id = Ok o)
  /\ (forall v, In v (rows (fst (load_venues_data csv g))) ->
                get_venue_by_id (Some (fst (load_venues_data csv g))) (id v)
                = Ok (Some v))
  /\ (forall venue_id,
         ~ In venue_id (map id (rows (fst (load_venues_data csv g)))) ->
         get_venue_by_id (Some (fst (load_venues_data csv g))) venue_id = Ok None).
Proof.
  split; [|split].
  - intros venues_data venue_id. unfold get_venue_by_id.
    destruct venues_data as [df|]; cbn [try_except]; [|now eexists].
    destruct (frame_empty df); cbn [try_except]; [now eexists|].
    destruct (has_column df "id"); cbn [bind try_except]; [|now eexists].
    destruct (rows (filter_rows _ df)); cbn [try_except]; now eexists.
  - intros v Hv.
    destruct (loaded_ids csv g) as [Hs _]. apply sorted_lt_NoDup in Hs.
    assert (Hne : frame_empty (fst (load_venues_data csv g)) = false).
    { unfold load_venues_data in *. destruct csv as [raw|]; [|destruct Hv].
      destruct (load_rows 0 raw g) as [[|w ws] g']; [destruct Hv | reflexivity]. }
    rewrite (@get_venue_by_id_found _ _ Hne (@loaded_has_id csv g Hne)).
    now rewrite (@filter_by_id_unique _ v Hs Hv).
  - intros venue_id Hnot.
    destruct (frame_empty (fst (load_venues_data csv g))) eqn:Hne.
    + unfold get_venue_by_id. now rewrite Hne.
    + rewrite (@get_venue_by_id_found _ _ Hne (@loaded_has_id csv g Hne)).
      rewrite filter_none; [reflexivity|].
      intros w Hw. apply Z.eqb_neq. intros E. apply Hnot. rewrite <- E.
      now apply in_map.
Qed.

Lemma existsb_eqb_In (i : Z) (l : list Z) :
  existsb (Z.eqb i) l = true <-> In i l.
Proof.
  rewrite existsb_exists. split.
  - intros (x & Hx & E). apply Z.eqb_eq in E. now subst.
  - intros H. exists i. split; [exact H | apply Z.eqb_refl].
Qed.

Lemma get_venues_by_ids_rows (df : frame venue) (venue_ids : list Z) :
  has_column df "id" = true ->
  get_venues_by_ids (Some df) venue_ids
  = or_none (filter_rows (fun v => existsb (Z.eqb (id v)) venue_ids) df).
Proof.
  intros Hid. unfold get_venues_by_ids, or_none. rewrite Hid.
  destruct (frame_empty df) eqn:He; cbn [orb].
  - unfold frame_empty, filter_rows in *. cbn [rows columns].
    destruct (rows df); [reflexivity|].
    destruct (columns df); [|discriminate]. now destruct (filter _ _).
  - destruct venue_ids as [|i l]; cbn [nonempty negb]; [|reflexivity].
    unfold frame_empty, filter_rows. cbn [rows columns].
    rewrite filter_none; [reflexivity | reflexivity].
Qed.

(** On the table the store loads, [get_venues_by_ids] returns the rows whose
    id is in the list, in the order of the table and once each whatever the
    order and the repetitions of the list, so never more rows than ids; it
    returns [None] when no row has one of the ids; and for a single id it
    returns the one-row table of the venue [get_venue_by_id] returns. *)
Theorem venues_by_ids_of_loaded_table (csv : option (list raw_row)) (g : rng)
        (venue_ids : list Z) :
  get_venues_by_ids (Some (fst (load_venues_data csv g))) venue_ids
  = or_none (filter_rows (fun v => existsb (Z.eqb (id v)) venue_ids)
                         (fst (load_venues_data csv g)))
  /\ (forall r,
         get_venues_by_ids (Some (fst (load_venues_data csv g))) venue_ids = Some r ->
         (forall v, In v (rows r)
                    <-> In v (rows (fst (load_venues_data csv g)))
                        /\ In (id v) venue_ids)
         /\ (List.length (rows r) <= List.length venue_ids)%nat)
  /\ (forall venue_id,
         get_venues_by_ids (Some (fst (load_venues_data csv g))) [venue_id]
         = match get_venue_by_id (Some (fst (load_venues_data csv g))) venue_id with
           | Ok (Some v) => Some (mk_frame venue_columns [v])
           | _ => None
           end).
Proof.
  destruct (loaded_ids csv g) as [Hs _]. apply sorted_lt_NoDup in Hs.
  set (df := fst (load_venues_data csv g)) in *.
  assert (Hrows : forall ids,
             get_venues_by_ids (Some df) ids
             = or_none (filter_rows (fun v => existsb (Z.eqb (id v)) ids) df)).
  { intros ids. destruct (frame_empty df) eqn:Hne.
    - unfold get_venues_by_ids, or_none. rewrite Hne. cbn [orb].
      unfold frame_empty, filter_rows in *. cbn [rows columns].
      destruct (rows df); [reflexivity|].
      destruct (columns df); [|discriminate]. now destruct (filter _ _).
    - apply get_venues_by_ids_rows. now apply (@loaded_has_id csv g). }
  split; [apply Hrows|]. split.
  - intros r Hr. rewrite Hrows in Hr. unfold or_none in Hr.
    destruct (frame_empty _); [discriminate|]. injection Hr as <-.
    unfold filter_rows. cbn [rows]. split.
    + intros v. rewrite filter_In, existsb_eqb_In. tauto.
    + rewrite <- (length_map id).
      apply NoDup_incl_length.
      * clear -Hs. induction (rows df) as [|x l IH]; cbn [filter map]; [constructor|].
        cbn [map] in Hs. inversion Hs as [|? ? Hx Hnd]; subst.
        destruct (existsb _ venue_ids); [|now apply IH].
        cbn [map]. constructor; [|now apply IH].
        intros Hin. apply Hx. apply in_map_iff in Hin.
        destruct Hin as (w & E & Hw). apply filter_In in Hw.
        rewrite <- E. now apply in_map.
      * intros i Hi. apply in_map_iff in Hi. destruct Hi as (w & <- & Hw).
        apply filter_In in Hw. now apply existsb_eqb_In.
  - intros venue_id. rewrite Hrows.
    destruct (frame_empty df) eqn:Hne.
    + unfold get_venue_by_id, or_none. rewrite Hne. cbn [try_except].
      unfold frame_empty, filter_rows in *. cbn [rows columns].
      destruct (rows df); [reflexivity|].
      destruct (columns df); [|discriminate]. now destruct (filter _ _).
    + rewrite (@get_venue_by_id_found _ _ Hne (@loaded_has_id csv g Hne)).
      unfold or_none, filter_rows, frame_empty. cbn [rows columns].
      unfold df. rewrite (@load_venues_data_columns csv g Hne). fold df.
      assert (Ef : filter (fun v => existsb (Z.eqb (id v)) [venue_id]) (rows df)
                   = filter (fun v => Z.eqb (id v) venue_id) (rows df)).
      { apply filter_ext. intros v. cbn [existsb]. now rewrite orb_false_r. }
      rewrite Ef.
      destruct (filter (fun v => Z.eqb (id v) venue_id) (rows df))
        as [|v l] eqn:E; [reflexivity|].
      assert (Hv : In v (rows df) /\ Z.eqb (id v) venue_id = true).
      { apply (proj1 (filter_In (fun w => Z.eqb (id w) venue_id) v (rows df))).
        rewrite E. now left. }
      destruct Hv as [Hv Hi]. apply Z.eqb_eq in Hi. subst venue_id.
      rewrite (@filter_by_id_unique _ v Hs Hv) in E. injection E as <-.
      reflexivity.
Qed.

(* ------------------------------------------------------------------ *)
(** ** Venue store: the two normalisations of the sport type *)

(** [t] occurs in [s]. *)
Lemma prefix_append (n h : string) :
  String.prefix n h = true <-> exists b, h = (n ++ b)%string.
Proof.
  revert h. induction n as [|c n IH]; intros h.
  - split; [intros _; now exists h | intros _; now destruct h].
  - destruct h as [|d h]; cbn [String.prefix].
    + split; [discriminate | intros [b Hb]; discriminate].
    + destruct (ascii_dec c d) as [<- | Hcd].
      * rewrite IH. split; intros [b Hb]; exists b; cbn in *; congruence.
      * split; [discriminate | intros [b Hb]; cbn in Hb; congruence].
Qed.

Lemma is_substring_append (n h : string) :
  is_substring n h = true <-> exists a b, h = (a ++ n ++ b)%string.
Proof.
  split.
  - induction h as [|c h IH]; cbn [is_substring].
    + destruct (String.prefix n "") eqn:E; [|discriminate].
      intros _. apply prefix_append in E. destruct E as [b Hb]. now exists "", b.
    + destruct (String.prefix n (String c h)) eqn:E.
      * intros _. apply prefix_append in E. destruct E as [b Hb]. now exists "", b.
      * intros H. destruct (IH H) as (a & b & ->). now exists (String c a), b.
  - intros (a & b & ->). induction a as [|c a IH].
    + cbn [append].
      assert (E : String.prefix n (n ++ b) = true)
        by (apply prefix_append; now exists b).
      destruct (n ++ b)%string; cbn [is_substring]; now rewrite E.
    + cbn [append is_substring]. rewrite IH. now destruct (String.prefix n _).
Qed.

Lemma append_assoc (a b c : string) :
  ((a ++ b) ++ c = a ++ (b ++ c))%string.
Proof. induction a as [|x a IH]; cbn; [reflexivity | now rewrite IH]. Qed.

Lemma is_substring_trans (k t s : string) :
  is_substring k t = true -> is_substring t s = true -> is_substring k s = true.
Proof.
  rewrite !is_substring_append. intros (a & b & ->) (a' & b' & ->).
  exists (a' ++ a)%string, (b ++ b')%string. now rewrite !append_assoc.
Qed.

Lemma is_substring_refl (s : string) : is_substring s s = true.
Proof.
  apply is_substring_append. exists "", "". cbn.
  induction s as [|c s IH]; cbn; [reflexivity | now rewrite <- IH].
Qed.

Lemma lstrip_suffix (s : string) : exists a, s = (a ++ lstrip s)%string.
Proof.
  induction s as [|c s [a IH]]; cbn [lstrip]; [now exists ""|].
  destruct (is_space c); [|now exists ""].
  exists (String c a). cbn. now rewrite <- IH.
Qed.

Lemma rstrip_prefix (s : string) : exists b, s = (rstrip s ++ b)%string.
Proof.
  induction s as [|c s [b IH]]; cbn [rstrip]; [now exists ""|].
  destruct (rstrip s) as [|d t].
  - cbn in IH. subst b. destruct (is_space c); [now exists (String c s)|].
    now exists s.
  - exists b. cbn in *. now rewrite <- IH.
Qed.

Lemma strip_is_substring (s : string) : is_substring (strip s) s = true.
Proof.
  apply is_substring_append. unfold strip.
  destruct (lstrip_suffix s) as [a Ha].
  destruct (rstrip_prefix (lstrip s)) as [b Hb].
  exists a, b. now rewrite <- Hb.
Qed.

Lemma split_on_is_substring (sep : ascii) (s t : string) :
  In t (split_on sep s) -> is_substring t s = true.
Proof.
  revert t. induction s as [|c s IH]; intros t; cbn [split_on].
  - intros [<- | []]. reflexivity.
  - destruct (Ascii.eqb c sep).
    + intros [<- | Hin].
      * apply is_substring_append. now exists "", (String c s).
      * specialize (IH t Hin). apply is_substring_append in IH.
        destruct IH as (a & b & ->). apply is_substring_append.
        now exists (String c a), b.
    + destruct (split_on sep s) as [|t0 ts] eqn:E.
      * intros [<- | []]. apply is_substring_append. now exists "", s.
      * intros [<- | Hin].
        -- assert (Hp : exists b', s = (t0 ++ b')%string).
           { clear -E. revert t0 ts E. induction s as [|d s IHs]; intros t0 ts E.
             - cbn in E. injection E as <- <-. now exists "".
             - cbn [split_on] in E. destruct (Ascii.eqb d sep).
               + injection E as <- <-. now exists (String d s).
               + destruct (split_on sep s) as [|t1 ts1] eqn:E1.
                 * injection E as <- <-. now exists s.
                 * injection E as <- <-. destruct (IHs t1 ts1 eq_refl) as [b' ->].
                   now exists b'. }
           destruct Hp as [b' ->]. apply is_substring_append.
           now exists "", b'.
        -- assert (H0 : is_substring t s = true) by (apply IH; now right).
           apply is_substring_append in H0. destruct H0 as (a & b & ->).
           apply is_substring_append. now exists (String c a), b.
Qed.

Lemma first_sport_in_none (s t : string) :
  first_sport_in s = None -> is_substring t s = true -> first_sport_in t = None.
Proof.
  unfold first_sport_in. intros Hs Ht.
  destruct (find _ sport_mapping) as [kv|] eqn:E; [discriminate|]. clear Hs.
  destruct (find (fun kv => is_substring (fst kv) t) sport_mapping) as [kv|] eqn:E';
    [|reflexivity].
  apply find_some in E'. destruct E' as [Hin Hk].
  pose proof (find_none _ _ E kv Hin) as Hno. cbn beta in Hno.
  now rewrite (is_substring_trans _ _ _ Hk Ht) in Hno.
Qed.

(** The method [_normalize_sport_type] of the instance and the static
    [_normalize_sport_type_static] return the same text on every cell: the
    second loop of the method, over the parts of a text with a slash, never
    finds a key, since a key in a part is a key in the whole text. *)
Theorem normalize_sport_type_agrees_with_static (c : cell) :
  _normalize_sport_type c = _normalize_sport_type_static c.
Proof.
  unfold _normalize_sport_type, _normalize_sport_type_static.
  destruct (cell_blank c); [reflexivity|]. cbv zeta.
  destruct (first_sport_in (cell_str c)) as [value|] eqn:E.
  - unfold first_sport_in in E.
    destruct (find _ sport_mapping) as [kv|]; [|discriminate]. congruence.
  - assert (Hparts : forall types,
               (forall t, In t types -> is_substring t (cell_str c) = true) ->
               first_sport_in_parts types = None).
    { induction types as [|t types IH]; intros H; cbn [first_sport_in_parts];
        [reflexivity|].
      rewrite (first_sport_in_none (cell_str c) (strip t) E).
      - apply IH. intros t' Ht'. apply H. now right.
      - apply is_substring_trans with (t := t); [apply strip_is_substring|].
        apply H. now left. }
    rewrite Hparts by (intros t; apply split_on_is_substring).
    unfold first_sport_in in E.
    destruct (find _ sport_mapping) as [kv|]; [discriminate|].
    now destruct (is_substring "/" (cell_str c)).
Qed.

Lemma rstrip_rstrip (s : string) : rstrip (rstrip s) = rstrip s.
Proof.
  induction s as [|c s IH]; cbn [rstrip]; [reflexivity|].
  destruct (rstrip s) as [|d t] eqn:E.
  - destruct (is_space c) eqn:Ec; cbn [rstrip]; [reflexivity | now rewrite Ec].
  - cbn [rstrip]. cbn [rstrip] in IH. now rewrite IH.
Qed.

Lemma lstrip_starts (s : string) :
  lstrip s = "" \/ exists c t, lstrip s = String c t /\ is_space c = false.
Proof.
  induction s as [|c s IH]; cbn [lstrip]; [now left|].
  destruct (is_space c) eqn:Ec; [exact IH|]. right. now exists c, s.
Qed.

Lemma lstrip_rstrip_lstrip (s : string) :
  lstrip (rstrip (lstrip s)) = rstrip (lstrip s).
Proof.
  destruct (lstrip_starts s) as [-> | (c & t & -> & Hc)]; [reflexivity|].
  cbn [rstrip]. destruct (rstrip t); [rewrite Hc|]; cbn [lstrip]; now rewrite Hc.
Qed.

Lemma strip_strip (s : string) : strip (strip s) = strip s.
Proof.
  unfold strip. rewrite lstrip_rstrip_lstrip. apply rstrip_rstrip.
Qed.

Lemma normalize_sport_type_values :
  Forall (fun kv : string * string =>
            _normalize_sport_type_static (Text (snd kv)) = snd kv)
         sport_mapping.
Proof.
  unfold sport_mapping. repeat (constructor; [reflexivity|]). constructor.
Qed.

(** [_normalize_sport_type_static] never returns the empty text, and what it
    returns it leaves as it is: normalising twice is normalising once. *)
Theorem normalize_sport_type_is_idempotent (c : cell) :
  _normalize_sport_type_static c <> ""
  /\ _normalize_sport_type_static (Text (_normalize_sport_type_static c))
     = _normalize_sport_type_static c.
Proof.
  split; [apply normalize_sport_type_nonempty|].
  unfold _normalize_sport_type_static at 2 3.
  destruct (cell_blank c) eqn:Eb; [reflexivity|].
  destruct (find _ sport_mapping) as [kv|] eqn:E.
  - apply find_some in E. destruct E as [Hin _].
    pose proof normalize_sport_type_values as H. rewrite Forall_forall in H.
    now apply H.
  - destruct (String.eqb (cell_str c) "") eqn:Es; [reflexivity|].
    unfold _normalize_sport_type_static. cbn [cell_blank]. rewrite Es.
    assert (Estr : cell_str (Text (cell_str c)) = cell_str c).
    { destruct c as [|s]; [discriminate|]. cbn [cell_str]. apply strip_strip. }
    rewrite Estr, E. now rewrite Es.
Qed.

(* ------------------------------------------------------------------ *)
(** ** Venue store: the coordinates of a loaded venue *)

Open Scope R_scope.

Lemma district_coordinates_of_text (c : cell) :
  _get_district_coordinates_static (Text (cell_text c))
  = _get_district_coordinates_static c.
Proof.
  destruct c as [|s]; [reflexivity|].
  unfold _get_district_coordinates_static. cbn [cell_text cell_str].
  now rewrite strip_strip.
Qed.

Lemma load_row_district (idx : Z) (row : raw_row) (g : rng) :
  district (fst (load_row idx row g)) = cell_text (raw_district row).
Proof.
  unfold load_row.
  destruct (_extract_price_static (raw_price_range row) g) as [p g1].
  now destruct (uniform_rating g1) as [r g2].
Qed.

(** The row built from a raw row has both coordinates, and they are the
    point [_get_district_coordinates_static] gives the district cell of the
    raw row.  So every venue of the loaded table sits at the point of its
    own district (the default point when the district is not one of the
    twelve), a point that passes [validate_coordinates]; and on a loaded
    table that is not empty [find_nearest_venue] finds a venue from any
    point. *)
Theorem loaded_venues_lie_in_taipei (csv : option (list raw_row)) (g : rng) :
  (forall idx row g',
      located (fst (load_row idx row g'))
      = Some (_get_district_coordinates_static (raw_district row)))
  /\ Forall (fun v =>
               located v = Some (_get_district_coordinates_static (Text (district v)))
               /\ validate_coordinates
                    (fst (_get_district_coordinates_static (Text (district v))))
                    (snd (_get_district_coordinates_static (Text (district v))))
                  = true)
            (rows (fst (load_venues_data csv g)))
  /\ (frame_empty (fst (load_venues_data csv g)) = false ->
      forall lat lon,
        find_nearest_venue (Some (fst (load_venues_data csv g))) lat lon <> None).
Proof.
  assert (H : Forall (fun v =>
                        located v
                        = Some (_get_district_coordinates_static (Text (district v)))
                        /\ validate_coordinates
                             (fst (_get_district_coordinates_static (Text (district v))))
                             (snd (_get_district_coordinates_static (Text (district v))))
                           = true)
                     (rows (fst (load_venues_data csv g)))).
  { apply load_venues_data_Forall. intros idx row g' _.
    rewrite load_row_located, load_row_district, district_coordinates_of_text.
    split; [reflexivity|].
    apply validate_in_taipei.
    pose proof (district_coordinates_in_taipei (raw_district row)) as Hin.
    now destruct (_get_district_coordinates_static (raw_district row)). }
  split; [exact load_row_located|]. split; [exact H|].
  intros Hne lat lon Hnone.
  pose proof (load_venues_data_columns csv g Hne) as Hc.
  set (df := fst (load_venues_data csv g)) in *.
  assert (Hlat : has_column df "latitude" = true)
    by (unfold has_column; now rewrite Hc).
  assert (Hlon : has_column df "longitude" = true)
    by (unfold has_column; now rewrite Hc).
  pose proof (@nearest_scan_result df lat lon Hlat Hlon) as Hs.
  rewrite Hnone in Hs.
  unfold frame_empty in Hne.
  destruct (rows df) as [|v l]; [discriminate|].
  inversion H as [|? ? [Hv _] _]; subst.
  rewrite (Hs v (or_introl eq_refl)) in Hv. discriminate.
Qed.

Close Scope R_scope.

(* ------------------------------------------------------------------ *)
(** ** Venue store: the filter, the metadata and the statistics *)

Section FilterExact.

Variable re_compile : bool -> string -> option (string -> bool).
Variable str_lower : string -> string.
Variable str_strip : string -> string.

(** On a table that is not empty [get_filtered_venues] either raises the
    error of a pattern that does not compile or returns the rows that
    satisfy every supplied predicate, in the order of the table and under
    its columns ([None] when there is no such row). *)
Theorem filtered_venues_are_the_matching_rows
        (df : frame venue) sport_types districts price_range wanted min_rating
        search_query :
  frame_empty df = false ->
  get_filtered_venues re_compile str_lower str_strip (Some df) sport_types districts price_range
                      wanted min_rating search_query = Raise re_error
  \/ get_filtered_venues re_compile str_lower str_strip (Some df) sport_types districts price_range
                         wanted min_rating search_query
     = Ok (or_none
             (mk_frame (columns df)
                (filter (row_matches re_compile str_lower str_strip df sport_types districts
                                     price_range wanted min_rating search_query)
                        (rows df)))).
Proof.
  intros Hne.
  destruct (get_filtered_venues re_compile str_lower str_strip (Some df) sport_types districts
                                price_range wanted min_rating search_query)
    as [o|e] eqn:E.
  - right. f_equal. eapply get_filtered_venues_filter; eassumption.
  - left. f_equal. eapply get_filtered_venues_raises; eassumption.
Qed.

End FilterExact.

(** The theorem at the sample table: the venues of Da'an at 500 an hour at
    most, with a rating of 4 at least. *)
Lemma filtered_venues_are_the_matching_rows_witness :
  get_filtered_venues literal_re_compile lower strip (Some sample_table)
                      None (Some ["大安區"]) (Some (0, 500)%Q) None 4%Q None
  = Raise re_error
  \/ get_filtered_venues literal_re_compile lower strip (Some sample_table)
                         None (Some ["大安區"]) (Some (0, 500)%Q) None 4%Q None
     = Ok (or_none
             (mk_frame (columns sample_table)
                (filter (row_matches literal_re_compile lower strip sample_table
                                     None (Some ["大安區"]) (Some (0, 500)%Q)
                                     None 4%Q None)
                        (rows sample_table)))).
Proof.
  exact (@filtered_venues_are_the_matching_rows literal_re_compile lower strip sample_table
           None (Some ["大安區"]) (Some (0, 500)%Q) None 4%Q None eq_refl).
Defined.

Lemma sorted_unique_spec (l : list string) :
  Sorted (fun a b => String.leb a b = true) (sorted_unique l)
  /\ NoDup (sorted_unique l)
  /\ (forall s, In s (sorted_unique l) <-> In s l)
  /\ (List.length (sorted_unique l) <= List.length l)%nat
  /\ (l <> [] -> sorted_unique l <> []).
Proof.
  unfold sorted_unique.
  pose proof (StringSort.Permuted_sort (nodup string_dec l)) as Hp.
  split; [exact (StringSort.Sorted_sort (nodup string_dec l))|].
  split; [eapply Permutation_NoDup; [exact Hp | apply NoDup_nodup]|].
  split; [|split].
  - intros s. rewrite <- (nodup_In string_dec l s). split; apply Permutation_in;
      [now apply Permutation_sym | exact Hp].
  - rewrite <- (Permutation_length Hp).
    apply NoDup_incl_length; [apply NoDup_nodup|].
    intros s. apply nodup_In.
  - intros Hl E. destruct l as [|x l]; [now apply Hl|].
    assert (Hx : In x (nodup string_dec (x :: l))) by (apply nodup_In; now left).
    apply (Permutation_in _ Hp) in Hx. rewrite E in Hx. destruct Hx.
Qed.

Lemma DataManager_init_fields (csv : option (list raw_row)) (g : rng) :
  self_venues_data (fst (DataManager_init csv g))
  = Some (fst (load_venues_data csv g))
  /\ self_sport_types (fst (DataManager_init csv g))
     = (if frame_empty (fst (load_venues_data csv g)) then []
        else sorted_unique (map sport_type (rows (fst (load_venues_data csv g)))))
  /\ self_districts (fst (DataManager_init csv g))
     = (if frame_empty (fst (load_venues_data csv g)) then []
        else sorted_unique (map district (rows (fst (load_venues_data csv g))))).
Proof.
  unfold DataManager_init.
  pose proof (load_venues_data_columns csv g) as Hc.
  destruct (load_venues_data csv g) as [df g']. cbn [fst] in *.
  unfold _extract_metadata. cbn [self_venues_data].
  destruct (frame_empty df) eqn:Hne; [now repeat split|].
  cbn [self_venues_data self_sport_types self_districts].
  unfold has_column. rewrite (Hc eq_refl). now repeat split.
Qed.

Lemma loaded_nonempty_of_row (csv : option (list raw_row)) (g : rng) (v : venue) :
  In v (rows (fst (load_venues_data csv g))) ->
  frame_empty (fst (load_venues_data csv g)) = false.
Proof.
  unfold load_venues_data. destruct csv as [raw|]; [|intros []].
  destruct (load_rows 0 raw g) as [[|w ws] g']; [intros [] | reflexivity].
Qed.

Section OfferedFilters.

Variable re_compile : bool -> string -> option (string -> bool).
Variable str_lower : string -> string.
Variable str_strip : string -> string.

Lemma filter_by_one_sport (df : frame venue) (s : string) :
  frame_empty df = false -> columns df = venue_columns ->
  get_filtered_venues re_compile str_lower str_strip (Some df) (Some [s]) None None None 0%Q None
  = Ok (or_none (mk_frame venue_columns
                          (filter (fun v => String.eqb (sport_type v) s) (rows df)))).
Proof.
  intros Hne Hc. unfold get_filtered_venues. rewrite Hne. cbn [bind].
  assert (Es : by_sport_types (Some [s]) df
               = mk_frame venue_columns
                          (filter (fun v => String.eqb (sport_type v) s) (rows df))).
  { unfold by_sport_types, has_column, filter_rows. cbn [given]. rewrite Hc.
    replace (str_in "sport_type" venue_columns) with true by reflexivity.
    f_equal. apply filter_ext. intros v. unfold str_in. cbn [existsb].
    apply orb_false_r. }
  unfold by_districts, by_price_range. cbn [given]. rewrite Es.
  unfold by_facilities. cbn [given for_each].
  match goal with
  | |- context [if ?b then Ok ?x else Ok ?x] =>
      replace (if b then Ok x else Ok x) with (Ok x) by now destruct b
  end.
  cbn [bind]. unfold by_min_rating.
  replace (Qltb 0 0) with false by reflexivity. reflexivity.
Qed.

End OfferedFilters.

Section OfferedChoices.

Variable re_compile : bool -> string -> option (string -> bool).
Variable str_lower : string -> string.
Variable str_strip : string -> string.

Lemma filter_by_one_district (df : frame venue) (d : string) :
  frame_empty df = false -> columns df = venue_columns ->
  get_filtered_venues re_compile str_lower str_strip (Some df) None (Some [d]) None None 0%Q None
  = Ok (or_none (mk_frame venue_columns
                          (filter (fun v => String.eqb (district v) d) (rows df)))).
Proof.
  intros Hne Hc. unfold get_filtered_venues. rewrite Hne. cbn [bind].
  unfold by_sport_types. cbn [given].
  assert (Es : by_districts (Some [d]) df
               = mk_frame venue_columns
                          (filter (fun v => String.eqb (district v) d) (rows df))).
  { unfold by_districts, has_column, filter_rows. cbn [given]. rewrite Hc.
    replace (str_in "district" venue_columns) with true by reflexivity.
    f_equal. apply filter_ext. intros v. unfold str_in. cbn [existsb].
    apply orb_false_r. }
  rewrite Es. unfold by_price_range.
  unfold by_facilities. cbn [given for_each].
  match goal with
  | |- context [if ?b then Ok ?x else Ok ?x] =>
      replace (if b then Ok x else Ok x) with (Ok x) by now destruct b
  end.
  cbn [bind]. unfold by_min_rating.
  replace (Qltb 0 0) with false by reflexivity. reflexivity.
Qed.

Lemma or_none_filter_some (f : venue -> string) (l : list venue) (s : string) :
  (exists v, In v l /\ f v = s) ->
  exists fd,
    or_none (mk_frame venue_columns (filter (fun v => String.eqb (f v) s) l))
    = Some fd
    /\ rows fd <> [] /\ Forall (fun v => In v l /\ f v = s) (rows fd).
Proof.
  intros (v & Hv & Ev).
  exists (mk_frame venue_columns (filter (fun v => String.eqb (f v) s) l)).
  unfold or_none, frame_empty. cbn [rows columns].
  assert (Hin : In v (filter (fun v => String.eqb (f v) s) l)).
  { apply filter_In. split; [exact Hv | now apply String.eqb_eq]. }
  split; [|split].
  - now destruct (filter (fun v => String.eqb (f v) s) l); [destruct Hin|].
  - intros E. rewrite E in Hin. destruct Hin.
  - apply Forall_forall. intros x Hx. apply filter_In in Hx.
    destruct Hx as [Hx Ex]. split; [exact Hx | now apply String.eqb_eq].
Qed.

(** The lists of sport types and of districts a [DataManager] offers are
    sorted, without repetition, and hold exactly the sport types and the
    districts of the loaded rows; and each offered sport type or district,
    given alone to [get_filtered_venues], returns a table that is not empty,
    of rows of the loaded table that all have it. *)
Theorem offered_choices_filter_to_venues (csv : option (list raw_row)) (g : rng) :
  (Sorted (fun a b => String.leb a b = true)
          (self_sport_types (fst (DataManager_init csv g)))
   /\ NoDup (self_sport_types (fst (DataManager_init csv g)))
   /\ forall s, In s (self_sport_types (fst (DataManager_init csv g)))
                <-> exists v, In v (rows (fst (load_venues_data csv g)))
                              /\ sport_type v = s)
  /\ (Sorted (fun a b => String.leb a b = true)
             (self_districts (fst (DataManager_init csv g)))
      /\ NoDup (self_districts (fst (DataManager_init csv g)))
      /\ forall d, In d (self_districts (fst (DataManager_init csv g)))
                   <-> exists v, In v (rows (fst (load_venues_data csv g)))
                                 /\ district v = d)
  /\ (forall s, In s (self_sport_types (fst (DataManager_init csv g))) ->
        exists fd,
          get_filtered_venues re_compile str_lower str_strip
            (self_venues_data (fst (DataManager_init csv g)))
            (Some [s]) None None None 0%Q None = Ok (Some fd)
          /\ rows fd <> []
          /\ Forall (fun v => In v (rows (fst (load_venues_data csv g)))
                              /\ sport_type v = s) (rows fd))
  /\ (forall d, In d (self_districts (fst (DataManager_init csv g))) ->
        exists fd,
          get_filtered_venues re_compile str_lower str_strip
            (self_venues_data (fst (DataManager_init csv g)))
            None (Some [d]) None None 0%Q None = Ok (Some fd)
          /\ rows fd <> []
          /\ Forall (fun v => In v (rows (fst (load_venues_data csv g)))
                              /\ district v = d) (rows fd)).
Proof.
  destruct (DataManager_init_fields csv g) as (-> & -> & ->).
  set (df := fst (load_venues_data csv g)).
  assert (Hlist : forall (f : venue -> string),
             let l := if frame_empty df then [] else sorted_unique (map f (rows df)) in
             Sorted (fun a b => String.leb a b = true) l /\ NoDup l
             /\ forall s, In s l <-> exists v, In v (rows df) /\ f v = s).
  { intros f. cbv zeta. destruct (frame_empty df) eqn:Hne.
    - split; [constructor|]. split; [constructor|].
      intros s. split; [intros []|]. intros (v & Hv & _).
      pose proof (@loaded_nonempty_of_row csv g v Hv) as Hne'. fold df in Hne'.
      congruence.
    - destruct (sorted_unique_spec (map f (rows df))) as (H1 & H2 & H3 & _).
      split; [exact H1|]. split; [exact H2|].
      intros s. rewrite H3, in_map_iff. split; intros (v & A & B); exists v; tauto. }
  pose proof (Hlist sport_type) as (Hs1 & Hs2 & Hs3).
  pose proof (Hlist district) as (Hd1 & Hd2 & Hd3). cbv zeta in *.
  split; [exact (conj Hs1 (conj Hs2 Hs3))|].
  split; [exact (conj Hd1 (conj Hd2 Hd3))|].
  split.
  - intros s Hs. apply Hs3 in Hs.
    assert (Hne : frame_empty df = false).
    { destruct Hs as (v & Hv & _). exact (@loaded_nonempty_of_row csv g v Hv). }
    rewrite (@filter_by_one_sport re_compile str_lower str_strip df s Hne
               (@load_venues_data_columns csv g Hne)).
    destruct (@or_none_filter_some sport_type (rows df) s Hs) as (fd & -> & H).
    now exists fd.
  - intros d Hd. apply Hd3 in Hd.
    assert (Hne : frame_empty df = false).
    { destruct Hd as (v & Hv & _). exact (@loaded_nonempty_of_row csv g v Hv). }
    rewrite (@filter_by_one_district df d Hne (@load_venues_data_columns csv g Hne)).
    destruct (@or_none_filter_some district (rows df) d Hd) as (fd & -> & H).
    now exists fd.
Qed.

End OfferedChoices.

Open Scope Q_scope.

Lemma sum_bounds (l : list Q) (a b : Q) :
  Forall (fun q => a <= q <= b) l ->
  a * inject_Z (Z.of_nat (List.length l)) <= fold_right Qplus 0 l
  /\ fold_right Qplus 0 l <= b * inject_Z (Z.of_nat (List.length l)).
Proof.
  induction 1 as [|q l [Hq1 Hq2] _ [IH1 IH2]]; cbn [List.length fold_right].
  - change (inject_Z (Z.of_nat 0)) with 0. split; lra.
  - rewrite Nat2Z.inj_succ. unfold Z.succ. rewrite inject_Z_plus.
    change (inject_Z 1) with 1. split; lra.
Qed.

Lemma mean_bounds (l : list Q) (a b : Q) :
  l <> [] -> Forall (fun q => a <= q <= b) l ->
  a <= fold_right Qplus 0 l / inject_Z (Z.of_nat (List.length l)) <= b.
Proof.
  intros Hl H. destruct (sum_bounds H) as [H1 H2].
  assert (Hn : 0 < inject_Z (Z.of_nat (List.length l))).
  { change 0 with (inject_Z 0). rewrite <- Zlt_Qlt.
    destruct l; [now elim Hl | cbn [List.length]; lia]. }
  split.
  - apply Qle_shift_div_l; assumption.
  - apply Qle_shift_div_r; assumption.
Qed.

Lemma numbers_of_present (l : list venue) (a b : Q) :
  Forall (fun v => exists q, price_per_hour v = Some q /\ a <= q <= b) l ->
  Forall (fun q => a <= q <= b) (numbers_of (map price_per_hour l))
  /\ List.length (numbers_of (map price_per_hour l)) = List.length l.
Proof.
  unfold numbers_of.
  induction 1 as [|v l (q & Hq & Hb) _ [IH1 IH2]]; cbn [map flat_map].
  - split; [constructor | reflexivity].
  - rewrite Hq. cbn [app List.length]. split; [now constructor | now f_equal].
Qed.

Lemma load_rows_length (raw : list raw_row) :
  forall (idx : Z) (g : rng),
    (List.length (fst (load_rows idx raw g)) <= List.length raw)%nat.
Proof.
  induction raw as [|row raw IH]; intros idx g; cbn [load_rows]; [cbn; lia|].
  destruct (has_name row).
  - destruct (load_row idx row g) as [v g1]. specialize (IH (idx + 1)%Z g1).
    destruct (load_rows (idx + 1) raw g1) as [vs g2]. cbn in *. lia.
  - specialize (IH (idx + 1)%Z g). cbn [List.length]. lia.
Qed.

(** The statistics of a [DataManager]: the number of venues is the number of
    loaded rows, at most the number of rows of the file; the numbers of sport
    types and of districts are at most the number of venues, and at least 1
    when there is a venue; the average price is a number, never NaN, between
    100 and 700 when there is a venue and 0 when there is none. *)
Theorem stats_of_loaded_table (csv : option (list raw_row)) (g : rng) :
  total_venues (get_venue_stats (fst (DataManager_init csv g)))
  = List.length (rows (fst (load_venues_data csv g)))
  /\ (total_venues (get_venue_stats (fst (DataManager_init csv g)))
      <= List.length (given csv))%nat
  /\ (stats_sport_types (get_venue_stats (fst (DataManager_init csv g)))
      <= total_venues (get_venue_stats (fst (DataManager_init csv g))))%nat
  /\ (stats_districts (get_venue_stats (fst (DataManager_init csv g)))
      <= total_venues (get_venue_stats (fst (DataManager_init csv g))))%nat
  /\ ((0 < total_venues (get_venue_stats (fst (DataManager_init csv g))))%nat ->
      (0 < stats_sport_types (get_venue_stats (fst (DataManager_init csv g))))%nat
      /\ (0 < stats_districts (get_venue_stats (fst (DataManager_init csv g))))%nat)
  /\ exists a,
      avg_price (get_venue_stats (fst (DataManager_init csv g))) = Some a
      /\ ((total_venues (get_venue_stats (fst (DataManager_init csv g))) = 0%nat
           /\ a == 0)
          \/ ((0 < total_venues (get_venue_stats (fst (DataManager_init csv g))))%nat
              /\ 100 <= a <= 700)).
Proof.
  unfold get_venue_stats.
  destruct (DataManager_init_fields csv g) as (-> & -> & ->).
  pose proof (load_venues_data_columns csv g) as Hc.
  assert (Hlen : (List.length (rows (fst (load_venues_data csv g)))
                  <= List.length (given csv))%nat).
  { unfold load_venues_data. destruct csv as [raw|]; [|cbn; lia].
    pose proof (load_rows_length raw 0%Z g) as H.
    destruct (load_rows 0 raw g) as [[|v vs] g']; cbn in *; lia. }
  assert (Hprice : Forall (fun v => exists q, price_per_hour v = Some q
                                              /\ 100 <= q <= 700)
                          (rows (fst (load_venues_data csv g)))).
  { apply load_venues_data_Forall. intros idx row g' _.
    destruct (load_row_price_loaded idx row g') as (p & Hp & Hb & _).
    exists (inject_Z p). split; [exact Hp|].
    change 100 with (inject_Z 100). change 700 with (inject_Z 700).
    rewrite <- !Zle_Qle. exact Hb. }
  set (df := fst (load_venues_data csv g)) in *.
  destruct (frame_empty df) eqn:Hne.
  - assert (Hrows : rows df = []).
    { unfold df, load_venues_data in *. destruct csv as [raw|]; [|reflexivity].
      destruct (load_rows 0 raw g) as [[|v vs] g']; [reflexivity | discriminate]. }
    cbn [total_venues stats_sport_types stats_districts avg_price].
    rewrite Hrows. cbn [List.length].
    repeat split; try lia. exists 0. split; [reflexivity|]. left. split; [reflexivity|].
    reflexivity.
  - cbn [total_venues stats_sport_types stats_districts avg_price].
    assert (Hrows : rows df <> []).
    { unfold frame_empty in Hne. destruct (rows df); [discriminate | discriminate]. }
    destruct (sorted_unique_spec (map sport_type (rows df))) as (_ & _ & _ & Hs1 & Hs2).
    destruct (sorted_unique_spec (map district (rows df))) as (_ & _ & _ & Hd1 & Hd2).
    rewrite length_map in Hs1, Hd1.
    assert (Hpos : forall l : list string, l <> [] -> (0 < List.length l)%nat).
    { intros [|x l] H; [now elim H | cbn; lia]. }
    assert (Hmap : forall f : venue -> string, map f (rows df) <> []).
    { intros f. destruct (rows df); [now elim Hrows | discriminate]. }
    split; [reflexivity|]. split; [exact Hlen|]. split; [exact Hs1|].
    split; [exact Hd1|].
    split; [intros _; split; apply Hpos; [apply Hs2 | apply Hd2]; apply Hmap|].
    unfold has_column. rewrite (Hc eq_refl).
    replace (str_in "price_per_hour" venue_columns) with true by reflexivity.
    destruct (numbers_of_present Hprice) as [Hb Hl].
    unfold column_mean.
    destruct (numbers_of (map price_per_hour (rows df))) as [|q l] eqn:En.
    + destruct (rows df); [now elim Hrows | discriminate].
    + eexists. split; [reflexivity|]. right.
      split; [destruct (rows df); [now elim Hrows | cbn; lia]|].
      apply mean_bounds; [discriminate | exact Hb].
Qed.

Close Scope Q_scope.

Lemma firstn_two_of_common (k : nat) :
  (2 <= k)%nat -> In "室內" (firstn k common_searches)
                  /\ In "戶外" (firstn k common_searches).
Proof.
  intros Hk. destruct k as [|[|k]]; [lia | lia|].
  unfold common_searches. cbn [firstn]. split; [now left | right; now left].
Qed.

(** [get_popular_searches] returns between 6 and 10 entries: up to five
    sport types, up to three districts, then the common searches as far as
    ten entries go.  The two first common searches are always among them;
    once the manager offers five sport types and three districts, they are
    the only ones, and the four others are cut. *)
Theorem popular_searches_shape (self : DataManager) :
  (6 <= List.length (get_popular_searches self) <= 10)%nat
  /\ In "室內" (get_popular_searches self)
  /\ In "戶外" (get_popular_searches self)
  /\ ((5 <= List.length (self_sport_types self))%nat ->
      (3 <= List.length (self_districts self))%nat ->
      get_popular_searches self
      = (firstn 5 (self_sport_types self) ++ firstn 3 (self_districts self)
         ++ ["室內"; "戶外"])%list).
Proof.
  unfold get_popular_searches.
  set (a := firstn 5 (self_sport_types self)).
  set (b := firstn 3 (self_districts self)).
  assert (Ha : (List.length a <= 5)%nat) by apply firstn_le_length.
  assert (Hb : (List.length b <= 3)%nat) by apply firstn_le_length.
  assert (E : firstn 10 (a ++ b ++ common_searches)%list
              = (a ++ b ++ firstn (10 - List.length a - List.length b)
                               common_searches)%list).
  { rewrite firstn_app, (firstn_all2 a) by lia. f_equal.
    rewrite firstn_app, (firstn_all2 b) by lia. reflexivity. }
  rewrite E.
  destruct (@firstn_two_of_common (10 - List.length a - List.length b) ltac:(lia))
    as [H1 H2].
  split; [|split; [|split]].
  - rewrite !length_app, length_firstn. unfold common_searches. cbn [List.length]. lia.
  - apply in_or_app. right. apply in_or_app. now right.
  - apply in_or_app. right. apply in_or_app. now right.
  - intros H5 H3.
    assert (Ea : List.length a = 5%nat)
      by (unfold a; rewrite length_firstn; lia).
    assert (Eb : List.length b = 3%nat)
      by (unfold b; rewrite length_firstn; lia).
    rewrite Ea, Eb. reflexivity.
Qed.

(* ------------------------------------------------------------------ *)
(** ** Weather lookup: the entry nearest to the current time *)

Section ClosestEntry.

Variable fromisoformat : string -> option Q.
Variable current_time : Q.

Lemma time_step_keeps (seen : list data_point) st (dp : data_point) :
  closest_so_far fromisoformat current_time seen st ->
  closest_so_far fromisoformat current_time (seen ++ [dp])
                 (time_step fromisoformat current_time st dp).
Proof.
  intros H. unfold time_step.
  destruct (fromisoformat (replace "+08:00" "" (data_time_str dp)))
    as [data_time|] eqn:Ep.
  - assert (Ed : time_diff_of fromisoformat current_time dp
                 = Some (Qabs (current_time - data_time)))
      by (unfold time_diff_of; now rewrite Ep).
    cbv zeta. set (d' := Qabs (current_time - data_time)) in *.
    destruct H as [[-> Hnone] | (before & best & after & d & -> & -> & Hd & Hb & Ha)];
      cbn [fst sooner].
    + right. exists seen, dp, [], d'. repeat split; try assumption.
      * intros dp' d'' Hin Hd'. rewrite (Hnone dp' Hin) in Hd'. discriminate.
      * intros dp' d'' [].
    + destruct (Qltb d' d) eqn:E.
      * apply Qltb_true in E. right.
        exists (before ++ best :: after)%list, dp, [], d'.
        repeat split; try assumption.
        -- intros dp' d'' Hin Hd'. apply in_app_or in Hin.
           destruct Hin as [Hin | [<- | Hin]].
           ++ pose proof (Hb dp' d'' Hin Hd'). lra.
           ++ rewrite Hd in Hd'. injection Hd' as <-. exact E.
           ++ pose proof (Ha dp' d'' Hin Hd'). lra.
        -- intros dp' d'' [].
      * apply Qltb_false in E. right.
        exists before, best, (after ++ [dp])%list, d.
        split; [reflexivity|]. split; [now rewrite <- app_assoc|].
        split; [exact Hd|]. split; [exact Hb|].
        intros dp' d'' Hin Hd'. apply in_app_or in Hin.
        destruct Hin as [Hin | [<- | []]]; [now apply (Ha dp' d'')|].
        rewrite Ed in Hd'. injection Hd' as <-. exact E.
  - assert (Ed : time_diff_of fromisoformat current_time dp = None)
      by (unfold time_diff_of; now rewrite Ep).
    destruct H as [[-> Hnone] | (before & best & after & d & -> & -> & Hd & Hb & Ha)].
    + left. split; [reflexivity|]. intros dp' Hin. apply in_app_or in Hin.
      destruct Hin as [Hin | [<- | []]]; [now apply Hnone | exact Ed].
    + right. exists before, best, (after ++ [dp])%list, d.
      split; [reflexivity|]. split; [now rewrite <- app_assoc|].
      split; [exact Hd|]. split; [exact Hb|].
      intros dp' d'' Hin Hd'. apply in_app_or in Hin.
      destruct Hin as [Hin | [<- | []]]; [now apply (Ha dp' d'')|].
      rewrite Ed in Hd'. discriminate.
Qed.

Lemma time_fold_keeps (l : list data_point) :
  forall seen st,
    closest_so_far fromisoformat current_time seen st ->
    closest_so_far fromisoformat current_time (seen ++ l)
                   (fold_left (time_step fromisoformat current_time) l st).
Proof.
  induction l as [|dp l IH]; intros seen st H; cbn [fold_left].
  - now rewrite app_nil_r.
  - replace (seen ++ dp :: l)%list with ((seen ++ [dp]) ++ l)%list
      by (now rewrite <- app_assoc).
    apply IH. now apply time_step_keeps.
Qed.

(** [_get_current_time_data] returns [None] exactly when no entry has a
    ['DataTime'] that can be read (the empty list included); otherwise it
    returns an entry of the list that is nearest in time to [current_time]
    among the readable ones, and the first of those: every readable entry
    before it is strictly farther, every one after it is at least as far. *)
Theorem current_time_data_is_closest (time_data : list data_point) :
  match _get_current_time_data fromisoformat time_data current_time with
  | None =>
      forall dp, In dp time_data ->
                 time_diff_of fromisoformat current_time dp = None
  | Some dp =>
      exists before after d,
        time_data = (before ++ dp :: after)%list
        /\ time_diff_of fromisoformat current_time dp = Some d
        /\ (forall dp' d', In dp' before ->
                           time_diff_of fromisoformat current_time dp' = Some d' ->
                           (d < d')%Q)
        /\ (forall dp' d', In dp' after ->
                           time_diff_of fromisoformat current_time dp' = Some d' ->
                           (d <= d')%Q)
  end.
Proof.
  unfold _get_current_time_data.
  destruct time_data as [|dp0 l]; [intros dp []|].
  pose proof (@time_fold_keeps (dp0 :: l) [] (None, None)) as H.
  cbn [app] in H.
  destruct H as [[-> Hnone] | (before & best & after & d & -> & E & Hd & Hb & Ha)].
  - left. split; [reflexivity | intros dp []].
  - exact Hnone.
  - cbn [snd]. now exists before, after, d.
Qed.

End ClosestEntry.

(* ------------------------------------------------------------------ *)
(** ** Weather lookup: the icon and the wind *)

Lemma is_substring_rain_of_storm (d : string) :
  is_substring "雷雨" d = true -> is_substring "雨" d = true.
Proof.
  apply is_substring_trans. reflexivity.
Qed.

(** The tests of [get_weather_icon], one after the other. *)
Ltac icon_cases :=
  repeat match goal with
         | |- context [if is_substring ?k ?d || _ then _ else _] =>
             destruct (is_substring k d); cbn [orb]
         | |- context [if is_substring ?k ?d then _ else _] =>
             destruct (is_substring k d); cbn [orb]
         | |- context [if Z.leb ?a ?b then _ else _] => destruct (Z.leb a b)
         end.

(** The icon of a description.  The temperature is looked at only when the
    description has none of the eight keywords.  A description that
    mentions rain gets a sun, cloud or rain icon, never the storm icon: the
    storm icon is that of the descriptions with 雷 and without 晴, 陽, 雲,
    陰 and 雨, so a thunder shower (雷雨) shows as rain. *)
Theorem weather_icon_priority (weather_description : string) :
  (existsb (fun k => is_substring k (lower weather_description))
           [ "晴"; "陽"; "雲"; "陰"; "雨"; "雷"; "雪"; "霧" ] = true ->
   forall t1 t2,
     get_weather_icon weather_description t1
     = get_weather_icon weather_description t2)
  /\ (is_substring "雨" (lower weather_description) = true ->
      forall t, In (get_weather_icon weather_description t)
                   [ "☀️"; "⛅"; "☁️"; "🌧️"; "🌦️" ])
  /\ (forall t,
         get_weather_icon weather_description t = "⛈️"
         <-> existsb (fun k => is_substring k (lower weather_description))
                     [ "晴"; "陽"; "雲"; "陰"; "雨" ] = false
             /\ is_substring "雷" (lower weather_description) = true)
  /\ (is_substring "雷雨" (lower weather_description) = true ->
      forall t, get_weather_icon weather_description t <> "⛈️").
Proof.
  assert (Hrain : is_substring "雨" (lower weather_description) = true ->
                  forall t, In (get_weather_icon weather_description t)
                               [ "☀️"; "⛅"; "☁️"; "🌧️"; "🌦️" ]).
  { intros Hr t. unfold get_weather_icon. cbv zeta. rewrite Hr.
    icon_cases; cbn [In]; repeat (first [left; reflexivity | right]). }
  split; [|split; [exact Hrain|split]].
  - clear Hrain. intros Hk t1 t2. revert Hk.
    unfold get_weather_icon. cbv zeta. cbn [existsb].
    icon_cases; intros Hk; first [reflexivity | discriminate Hk].
  - clear Hrain. intros t. unfold get_weather_icon. cbv zeta. cbn [existsb].
    icon_cases;
      (split; [intros E | intros [H1 H2]]);
      first [discriminate | split; reflexivity | reflexivity].
  - intros Hs t E.
    pose proof (Hrain (is_substring_rain_of_storm _ Hs) t) as Hin.
    rewrite E in Hin. cbn [In] in Hin.
    repeat (destruct Hin as [Hin | Hin]; [discriminate|]). exact Hin.
Qed.

Lemma wind_index_bounds (to_double : Q -> Q) (degrees : Q) :
  0 <= wind_index to_double degrees < 16.
Proof. unfold wind_index. apply Z.mod_pos_bound. reflexivity. Qed.

Lemma directions_nonempty : Forall (fun l : string => l <> "") directions.
Proof. unfold directions. repeat (constructor; [discriminate|]). constructor. Qed.

Lemma bucket_turn (deg deg' : Q) :
  (deg' == deg + 360)%Q ->
  Qfloor ((deg' + (45 # 4)) / (45 # 2)) mod 16
  = Qfloor ((deg + (45 # 4)) / (45 # 2)) mod 16.
Proof.
  intros E.
  set (x := ((deg + (45 # 4)) / (45 # 2))%Q).
  assert (Ex : ((deg' + (45 # 4)) / (45 # 2) == x + inject_Z 16)%Q).
  { unfold x. rewrite E. change (inject_Z 16) with 16%Q. field. }
  rewrite Ex.
  assert (Ef : Qfloor (x + inject_Z 16) = Qfloor x + 16).
  { apply Qfloor_between.
    - rewrite inject_Z_plus. pose proof (Qfloor_le x). lra.
    - replace (Qfloor x + 16 + 1) with ((Qfloor x + 1) + 16) by lia.
      rewrite inject_Z_plus. pose proof (Qlt_floor x). lra. }
  rewrite Ef. replace (Qfloor x + 16) with (Qfloor x + 1 * 16) by lia.
  apply Z.mod_add. discriminate.
Qed.

Section WindLabels.

Variable float_of_string : string -> option pyfloat.
Variable to_double : Q -> Q.

(** [_convert_wind_direction] never returns the empty text.  For a text that
    reads as a finite number it returns one of the sixteen labels.  On the
    multiples of a quarter of a degree (the whole numbers of degrees among
    them), from -11.25 degrees up to 2^43, a full turn does not change the
    label: the direction and the direction plus 360 get the same one.  For
    any other text (one [float] refuses, an infinity, a NaN) it returns the
    text itself, or 微風 when the text is empty. *)
Theorem wind_direction_labels (wind_direction : string) :
  _convert_wind_direction float_of_string to_double wind_direction <> ""
  /\ (forall deg, float_of_string wind_direction = Some (Finite deg) ->
                  In (_convert_wind_direction float_of_string to_double wind_direction)
                     directions)
  /\ (forall deg deg' turned k,
         double_rounding to_double ->
         float_of_string wind_direction = Some (Finite deg) ->
         float_of_string turned = Some (Finite deg') ->
         (deg == k # 4)%Q -> - 45 <= k <= 2 ^ 45 -> (deg' == deg + 360)%Q ->
         _convert_wind_direction float_of_string to_double turned
         = _convert_wind_direction float_of_string to_double wind_direction)
  /\ ((forall deg, float_of_string wind_direction <> Some (Finite deg)) ->
      _convert_wind_direction float_of_string to_double wind_direction
      = if String.eqb wind_direction "" then "微風" else wind_direction).
Proof.
  assert (Hlabel : forall deg,
             (Z.to_nat (wind_index to_double deg) < List.length directions)%nat).
  { intros deg. pose proof (wind_index_bounds to_double deg).
    unfold directions. cbn [List.length]. lia. }
  assert (Hfin : forall deg, float_of_string wind_direction = Some (Finite deg) ->
                             In (_convert_wind_direction float_of_string to_double
                                                         wind_direction)
                                directions).
  { intros deg E. unfold _convert_wind_direction. rewrite E.
    apply nth_In. exact (Hlabel deg). }
  split; [|split; [exact Hfin|split]].
  - destruct (float_of_string wind_direction) as [[deg| |]|] eqn:E.
    + pose proof directions_nonempty as H. rewrite Forall_forall in H.
      apply H. now apply (Hfin deg).
    + unfold _convert_wind_direction. rewrite E.
      destruct (String.eqb wind_direction "") eqn:Es; [discriminate|].
      now apply String.eqb_neq.
    + unfold _convert_wind_direction. rewrite E.
      destruct (String.eqb wind_direction "") eqn:Es; [discriminate|].
      now apply String.eqb_neq.
    + unfold _convert_wind_direction. rewrite E.
      destruct (String.eqb wind_direction "") eqn:Es; [discriminate|].
      now apply String.eqb_neq.
  - intros deg deg' turned k Hd E E' Hdeg Hk Hturn.
    unfold _convert_wind_direction. rewrite E, E'.
    assert (Hdeg' : (deg' == (k + 1440) # 4)%Q).
    { rewrite Hturn, Hdeg. unfold Qeq, Qplus. cbn [Qnum Qden]. lia. }
    rewrite (@wind_index_quarters to_double deg k Hd Hdeg) by lia.
    rewrite (@wind_index_quarters to_double deg' (k + 1440) Hd Hdeg') by lia.
    rewrite (bucket_turn Hturn).
    apply nth_indep.
    rewrite <- (@wind_index_quarters to_double deg k Hd Hdeg) by lia.
    exact (Hlabel deg).
  - intros Hno. unfold _convert_wind_direction.
    destruct (float_of_string wind_direction) as [[deg| |]|] eqn:E;
      [now elim (Hno deg) | reflexivity | reflexivity | reflexivity].
Qed.

End WindLabels.

(* ------------------------------------------------------------------ *)
(** ** Recommendation engine: the table the standard strategy returns *)

Open Scope Q_scope.

Lemma score_rows_venues (weights : W.t) (df : frame venue) (prefs : user_preferences)
      (l : list venue) :
  forall rs, score_rows weights df prefs l = Ok rs -> map venue_of rs = l.
Proof.
  induction l as [|v l IH]; intros rs; cbn [score_rows].
  - now intros [= <-].
  - unfold score_row at 1.
    destruct (_calculate_price_match df prefs v) as [price|e]; cbn [bind];
      [|discriminate].
    destruct (score_rows weights df prefs l) as [rs'|e]; cbn [bind]; [|discriminate].
    intros [= <-]. cbn [map venue_of]. f_equal. now apply IH.
Qed.

Lemma in_insert_by_score (r x : scored) (l : list scored) :
  In x (insert_by_score r l) <-> x = r \/ In x l.
Proof.
  induction l as [|r' l IH]; cbn [insert_by_score].
  - cbn. intuition congruence.
  - destruct (above _ _); cbn [In]; [rewrite IH|]; intuition congruence.
Qed.

Lemma length_insert_by_score (r : scored) (l : list scored) :
  List.length (insert_by_score r l) = S (List.length l).
Proof.
  induction l as [|r' l IH]; cbn [insert_by_score]; [reflexivity|].
  destruct (above _ _); cbn [List.length]; [now rewrite IH | reflexivity].
Qed.

Lemma not_below_numbers (a b : scored) (x y : Q) :
  recommendation_score a = Some x -> recommendation_score b = Some y ->
  (not_below a b <-> y <= x).
Proof. intros Ha Hb. unfold not_below. rewrite Ha, Hb. tauto. Qed.

Lemma insert_by_score_sorted (r : scored) (l : list scored) :
  is_number r = true -> Forall (fun x => is_number x = true) l ->
  StronglySorted not_below l -> StronglySorted not_below (insert_by_score r l).
Proof.
  intros Hr Hl Hs. induction Hs as [|r' l Hs IH Hall]; cbn [insert_by_score].
  - constructor; constructor.
  - inversion Hl as [|? ? Hr' Hl']; subst.
    unfold is_number in Hr, Hr'.
    destruct (recommendation_score r) as [x|] eqn:Ex; [|discriminate].
    destruct (recommendation_score r') as [y|] eqn:Ey; [|discriminate].
    cbn [above]. destruct (Qltb x y) eqn:E.
    + apply Qltb_true in E. constructor; [now apply IH|].
      apply Forall_forall. intros z Hz. apply in_insert_by_score in Hz.
      destruct Hz as [-> | Hz].
      * unfold not_below. rewrite Ey, Ex. lra.
      * rewrite Forall_forall in Hall. now apply Hall.
    + apply Qltb_false in E. constructor; [now constructor|].
      constructor; [unfold not_below; now rewrite Ex, Ey|].
      apply Forall_forall. intros z Hz.
      rewrite Forall_forall in Hall, Hl'. specialize (Hall z Hz).
      specialize (Hl' z Hz). unfold is_number in Hl'. unfold not_below in *.
      rewrite Ey in Hall. rewrite Ex.
      destruct (recommendation_score z) as [w|]; [lra | discriminate].
Qed.

Lemma sort_by_score_spec (l : list scored) :
  Forall (fun x => is_number x = true) l ->
  StronglySorted not_below (fold_right insert_by_score [] l)
  /\ Forall (fun x => is_number x = true) (fold_right insert_by_score [] l)
  /\ (forall x, In x (fold_right insert_by_score [] l) <-> In x l)
  /\ List.length (fold_right insert_by_score [] l) = List.length l.
Proof.
  induction 1 as [|r l Hr Hl (IH1 & IH2 & IH3 & IH4)]; cbn [fold_right].
  - repeat split; try constructor; tauto.
  - split; [now apply insert_by_score_sorted|]. split; [|split].
    + apply Forall_forall. intros x Hx. apply in_insert_by_score in Hx.
      destruct Hx as [-> | Hx]; [exact Hr|]. rewrite Forall_forall in IH2.
      now apply IH2.
    + intros x. rewrite in_insert_by_score, IH3. cbn [In]. intuition congruence.
    + rewrite length_insert_by_score. cbn [List.length]. now rewrite IH4.
Qed.

Lemma In_firstn {A : Type} (n : nat) (l : list A) (x : A) :
  In x (firstn n l) -> In x l.
Proof.
  revert n. induction l as [|y l IH]; intros n; destruct n; cbn [firstn In];
    try tauto.
  intros [-> | H]; [now left | right; now apply (IH n)].
Qed.

Lemma StronglySorted_firstn {A : Type} (R : A -> A -> Prop) (n : nat) (l : list A) :
  StronglySorted R l -> StronglySorted R (firstn n l).
Proof.
  revert n. induction l as [|x l IH]; intros n Hs; destruct n; cbn [firstn];
    try constructor.
  - apply IH. now inversion Hs.
  - inversion Hs as [|? ? _ Hall]; subst. apply Forall_forall. intros y Hy.
    rewrite Forall_forall in Hall. apply Hall.
    now apply (In_firstn n l).
Qed.

Lemma nlargest_spec (n : nat) (t : frame scored) :
  StronglySorted not_below (rows (nlargest n t))
  /\ (List.length (rows (nlargest n t)) <= n)%nat
  /\ (List.length (rows (nlargest n t)) <= List.length (rows t))%nat
  /\ (forall x, In x (rows (nlargest n t)) -> In x (rows t))
  /\ columns (nlargest n t) = columns t.
Proof.
  unfold nlargest. cbn [rows columns].
  set (numbers := filter is_number (rows t)).
  set (nans := filter (fun r => negb (is_number r)) (rows t)).
  assert (Hnum : Forall (fun x => is_number x = true) numbers).
  { apply Forall_forall. intros x Hx. now apply filter_In in Hx. }
  destruct (sort_by_score_spec Hnum) as (Hs & Hn & Hin & Hlen).
  set (sorted := fold_right insert_by_score [] numbers) in *.
  assert (Hall : StronglySorted not_below (sorted ++ nans)).
  { clearbody sorted. clear Hin Hlen.
    assert (Hnan : forall y, In y nans -> recommendation_score y = None).
    { intros y Hy. apply filter_In in Hy. destruct Hy as [_ Hy].
      unfold is_number in Hy. now destruct (recommendation_score y). }
    induction Hs as [|x l Hs IH Hx].
    - cbn [app]. clear Hn. induction nans as [|y l IH]; constructor.
      + apply IH. intros z Hz. apply Hnan. now right.
      + apply Forall_forall. intros z Hz. unfold not_below.
        rewrite (Hnan z (or_intror Hz)). now destruct (recommendation_score y).
    - inversion Hn as [|? ? Hxn Hn']; subst. cbn [app]. constructor; [now apply IH|].
      apply Forall_app. split; [exact Hx|].
      apply Forall_forall. intros z Hz. unfold not_below. rewrite (Hnan z Hz).
      now destruct (recommendation_score x). }
  split; [now apply StronglySorted_firstn|].
  split; [apply firstn_le_length|]. split; [|split; [|reflexivity]].
  - rewrite length_firstn. etransitivity; [apply Nat.le_min_r|].
    rewrite length_app, Hlen. unfold numbers, nans.
    rewrite <- length_app, (Permutation_length (filter_split_perm is_number (rows t))).
    lia.
  - intros x Hx. apply In_firstn in Hx. apply in_app_or in Hx.
    destruct Hx as [Hx | Hx].
    + apply Hin in Hx. now apply filter_In in Hx.
    + now apply filter_In in Hx.
Qed.

Lemma length_concat_map_map {K A B : Type} (g : K -> list A) (h : K -> A -> B)
      (keys : list K) :
  List.length (List.concat (map (fun k => map (h k) (g k)) keys))
  = List.length (List.concat (map g keys)).
Proof.
  induction keys as [|k ks IH]; cbn [map List.concat]; [reflexivity|].
  rewrite !length_app, length_map. now rewrite IH.
Qed.

Lemma apply_diversity_rows (sc dv : frame scored) (dw : Q) :
  _apply_diversity sc dw = Ok dv ->
  (forall x, In x (rows dv) ->
             exists y, In y (rows sc) /\ venue_of x = venue_of y)
  /\ List.length (rows dv) = List.length (rows sc)
  /\ columns dv = columns sc.
Proof.
  unfold _apply_diversity.
  destruct (has_column sc "sport_type"); cbn [negb].
  2:{ intros [= <-]. split; [|split; reflexivity]. intros x Hx. now exists x. }
  cbv zeta.
  set (groups := map _ (group_keys (rows sc))).
  assert (Hin : forall x, In x (List.concat groups) ->
                          exists y, In y (rows sc) /\ venue_of x = venue_of y).
  { intros x Hx. apply in_concat in Hx. destruct Hx as (g & Hg & Hx).
    unfold groups in Hg. apply in_map_iff in Hg. destruct Hg as (key & <- & _).
    apply in_map_iff in Hx. destruct Hx as (y & <- & Hy).
    apply filter_In in Hy. exists y. split; [tauto | reflexivity]. }
  assert (Hlen : List.length (List.concat groups) = List.length (rows sc)).
  { destruct (group_keys_spec (rows sc)) as [Hnd Hk].
    rewrite <- (Permutation_length
                  (@groups_partition (group_keys (rows sc)) (rows sc) Hnd
                     (fun r Hr => proj2 (Hk _)
                        (in_map (fun r => sport_type (venue_of r)) (rows sc) r Hr)))).
    unfold groups. apply length_concat_map_map. }
  destruct groups as [|g gs] eqn:Eg; [discriminate|].
  intros [= <-]. cbn [rows columns]. now repeat split.
Qed.

Lemma generate_reason_nonempty (prefs : user_preferences) (row : scored) :
  generate_reason prefs row <> [].
Proof.
  unfold generate_reason. cbv zeta.
  match goal with |- context [match ?l with [] => _ | _ => _ end] => destruct l end;
    discriminate.
Qed.

Lemma sorted_map_same_score (f : scored -> scored) (l : list scored) :
  (forall x, recommendation_score (f x) = recommendation_score x) ->
  StronglySorted not_below l -> StronglySorted not_below (map f l).
Proof.
  intros Hf. induction 1 as [|y l Hs IH Hall]; cbn [map]; [constructor|].
  constructor; [exact IH|].
  apply Forall_forall. intros x Hx. apply in_map_iff in Hx.
  destruct Hx as (z & <- & Hz). rewrite Forall_forall in Hall.
  specialize (Hall z Hz). unfold not_below in *. now rewrite !Hf.
Qed.

Section StandardResult.

Variable weights : W.t.
Variable upstream : result (option (frame venue)).

Lemma reasons_of_nlargest (df : frame venue) (t : frame scored)
      (prefs : user_preferences) (n : nat) :
  (forall x, In x (rows t) -> In (venue_of x) (rows df)) ->
  (List.length (rows t) <= List.length (rows df))%nat ->
  let r := _add_recommendation_reasons (nlargest n t) prefs in
  (List.length (rows r) <= n)%nat
  /\ (List.length (rows r) <= List.length (rows df))%nat
  /\ Forall (fun x => In (venue_of x) (rows df) /\ recommendation_reason x <> [])
            (rows r)
  /\ StronglySorted not_below (rows r)
  /\ has_column r "recommendation_reason" = true.
Proof.
  intros Hin Hlen. cbv zeta.
  destruct (nlargest_spec n t) as (Hs & H1 & H2 & H3 & _).
  unfold _add_recommendation_reasons. cbn [rows columns].
  rewrite length_map.
  split; [exact H1|]. split; [lia|]. split; [|split].
  - apply Forall_forall. intros x Hx. apply in_map_iff in Hx.
    destruct Hx as (y & <- & Hy). cbn [venue_of recommendation_reason].
    split; [apply Hin; now apply H3 | apply generate_reason_nonempty].
  - apply sorted_map_same_score; [reflexivity | exact Hs].
  - unfold has_column. cbn [columns]. unfold str_in. rewrite existsb_app.
    cbn [existsb]. rewrite String.eqb_refl. now rewrite orb_true_r.
Qed.

(** What [get_personalized_recommendations] returns never is an exception.
    When it is a table, the venue store gave a table that is not empty, and
    the result holds at most [num_recommendations] rows and no more than the
    store has; each row is a venue of the store, with a reason that is not
    empty, under a [recommendation_reason] column; and the rows come by
    decreasing score, rows without a score (NaN) last. *)
Theorem personalized_result_shape (prefs : user_preferences)
        (num_recommendations : nat) (diversity_weight : Q) :
  match get_personalized_recommendations weights upstream prefs
                                         num_recommendations diversity_weight with
  | Ok (Some r) =>
      exists df,
        upstream = Ok (Some df) /\ frame_empty df = false
        /\ (List.length (rows r) <= num_recommendations)%nat
        /\ (List.length (rows r) <= List.length (rows df))%nat
        /\ Forall (fun x => In (venue_of x) (rows df)
                            /\ recommendation_reason x <> [])
                  (rows r)
        /\ StronglySorted not_below (rows r)
        /\ has_column r "recommendation_reason" = true
  | Ok None => True
  | Raise _ => False
  end.
Proof.
  unfold get_personalized_recommendations.
  destruct upstream as [[df|]|e]; cbn [bind try_except]; [|exact I|exact I].
  destruct (frame_empty df) eqn:Hne; cbn [try_except]; [exact I|].
  destruct (_calculate_recommendation_scores weights df prefs) as [sc|e] eqn:Es;
    cbn [bind try_except]; [|exact I].
  assert (Hsc : map venue_of (rows sc) = rows df).
  { unfold _calculate_recommendation_scores in Es.
    destruct (score_rows weights df prefs (rows df)) as [rs|e] eqn:Er;
      cbn [bind] in Es; [|discriminate].
    injection Es as <-. cbn [rows]. exact (score_rows_venues _ _ _ _ Er). }
  assert (Hin : forall x, In x (rows sc) -> In (venue_of x) (rows df)).
  { intros x Hx. rewrite <- Hsc. now apply in_map. }
  assert (Hlen : List.length (rows sc) = List.length (rows df)).
  { now rewrite <- Hsc, length_map. }
  destruct (frame_empty sc); cbn [try_except]; [exact I|].
  destruct (Qltb 0 diversity_weight).
  - destruct (_apply_diversity sc diversity_weight) as [dv|e] eqn:Ed;
      cbn [bind try_except]; [|exact I].
    destruct (apply_diversity_rows _ _ Ed) as (Hd1 & Hd2 & _).
    exists df. split; [reflexivity|]. split; [exact Hne|].
    apply reasons_of_nlargest; [|lia].
    intros x Hx. destruct (Hd1 x Hx) as (y & Hy & ->). now apply Hin.
  - cbn [bind try_except].
    exists df. split; [reflexivity|]. split; [exact Hne|].
    apply reasons_of_nlargest; [exact Hin | lia].
Qed.

End StandardResult.

Close Scope Q_scope.

(* ------------------------------------------------------------------ *)
(** ** Recommendation engine: the filter by preferences *)

Open Scope Q_scope.

Lemma filter_rows_columns {A : Type} (keep : A -> bool) (df : frame A) (c : string) :
  has_column (filter_rows keep df) c = has_column df c.
Proof. reflexivity. Qed.

Lemma filter_by_preferences_rows (df : frame venue) (prefs : user_preferences) :
  columns (_filter_by_preferences df prefs) = columns df
  /\ rows (_filter_by_preferences df prefs)
     = filter (fun v =>
                 (negb (nonempty (preferred_sports prefs)
                        && has_column df "sport_type")
                  || str_in (sport_type v) (preferred_sports prefs))
                 && (negb (nonempty (preferred_districts prefs)
                           && has_column df "district")
                     || str_in (district v) (preferred_districts prefs))
                 && (negb (has_column df "price_per_hour")
                     || price_fits (fst (price_range_of prefs))
                                   (snd (price_range_of prefs)) v))
              (rows df).
Proof.
  unfold _filter_by_preferences. cbv zeta.
  destruct (price_range_of prefs) as [min_price max_price]. cbn [fst snd].
  destruct (nonempty (preferred_sports prefs) && has_column df "sport_type") eqn:E1;
    cbn [negb orb];
    rewrite ?filter_rows_columns;
    destruct (nonempty (preferred_districts prefs) && has_column df "district") eqn:E2;
    cbn [negb orb];
    rewrite ?filter_rows_columns;
    destruct (has_column df "price_per_hour"); cbn [negb orb];
    unfold filter_rows; cbn [rows columns]; (split; [reflexivity|]);
    rewrite ?filter_filter; try (apply filter_ext; intros v);
    try (symmetry; apply filter_all; intros; reflexivity);
    repeat rewrite ?andb_true_r, ?andb_true_l; try reflexivity;
    try (destruct (str_in _ _), (str_in _ _), (price_fits _ _ _); reflexivity);
    try (destruct (str_in _ _), (price_fits _ _ _); reflexivity);
    try (destruct (str_in _ _), (str_in _ _); reflexivity).
Qed.

Section PreferenceFilter.

Variable re_compile : bool -> string -> option (string -> bool).
Variable str_lower : string -> string.
Variable str_strip : string -> string.

(** [_filter_by_preferences] keeps the columns of the table and the rows
    that have a preferred sport, a preferred district and a price in the
    range, each condition counting only when its list is not empty and the
    table has its column; a row without a price is never dropped for its
    price.  Filtering twice is filtering once.  On a table where every
    price is present, and for an explicit price range, the engine's filter
    returns what the venue store's [get_filtered_venues] returns for the
    same sports, districts and range ([None] there for the empty table). *)
Theorem preference_filter_agrees_with_store (df : frame venue)
        (prefs : user_preferences) :
  columns (_filter_by_preferences df prefs) = columns df
  /\ (forall v,
         In v (rows (_filter_by_preferences df prefs))
         <-> In v (rows df)
             /\ (nonempty (preferred_sports prefs) = true ->
                 has_column df "sport_type" = true ->
                 str_in (sport_type v) (preferred_sports prefs) = true)
             /\ (nonempty (preferred_districts prefs) = true ->
                 has_column df "district" = true ->
                 str_in (district v) (preferred_districts prefs) = true)
             /\ (has_column df "price_per_hour" = true ->
                 forall p, price_per_hour v = Some p ->
                           fst (price_range_of prefs) <= p
                                                      <= snd (price_range_of prefs)))
  /\ _filter_by_preferences (_filter_by_preferences df prefs) prefs
     = _filter_by_preferences df prefs
  /\ (forall range,
         price_range prefs = Some range ->
         frame_empty df = false ->
         Forall (fun v => price_per_hour v <> None) (rows df) ->
         get_filtered_venues re_compile str_lower str_strip (Some df)
                             (Some (preferred_sports prefs))
                             (Some (preferred_districts prefs))
                             (Some range) None 0 None
         = Ok (or_none (_filter_by_preferences df prefs))).
Proof.
  destruct (filter_by_preferences_rows df prefs) as [Hc Hr].
  split; [exact Hc|]. split; [|split].
  - intros v. rewrite Hr, filter_In, !andb_true_iff, !orb_true_iff,
      !negb_true_iff, !andb_false_iff.
    unfold price_fits.
    split.
    + intros (Hv & (Hs & Hd) & Hp). split; [exact Hv|].
      split; [|split].
      * intros A B. destruct Hs as [[Hs | Hs] | Hs]; congruence.
      * intros A B. destruct Hd as [[Hd | Hd] | Hd]; congruence.
      * intros A p Ep. destruct Hp as [Hp | Hp]; [congruence|].
        rewrite Ep in Hp. apply andb_true_iff in Hp. now rewrite <- !Qleb_true.
    + intros (Hv & Hs & Hd & Hp). split; [exact Hv|].
      split; [split|].
      * destruct (nonempty (preferred_sports prefs)); [|now left; left].
        destruct (has_column df "sport_type"); [|now left; right].
        right. now apply Hs.
      * destruct (nonempty (preferred_districts prefs)); [|now left; left].
        destruct (has_column df "district"); [|now left; right].
        right. now apply Hd.
      * destruct (has_column df "price_per_hour"); [|now left].
        right. destruct (price_per_hour v) as [p|]; [|reflexivity].
        destruct (Hp eq_refl p eq_refl) as [A B].
        apply andb_true_iff. now rewrite !Qleb_true.
  - destruct (filter_by_preferences_rows (_filter_by_preferences df prefs) prefs)
      as [Hc2 Hr2].
    assert (Hcol : forall c, has_column (_filter_by_preferences df prefs) c
                             = has_column df c).
    { intros c. unfold has_column. now rewrite Hc. }
    assert (E : rows (_filter_by_preferences (_filter_by_preferences df prefs) prefs)
                = rows (_filter_by_preferences df prefs)).
    { rewrite Hr2, !Hcol, Hr, filter_filter. apply filter_ext. intros v.
      apply andb_diag. }
    destruct (_filter_by_preferences (_filter_by_preferences df prefs) prefs)
      as [c2 r2].
    destruct (_filter_by_preferences df prefs) as [c1 r1].
    cbn [rows columns] in *. congruence.
  - intros [min_price max_price] Hrange Hne Hprice.
    unfold get_filtered_venues. rewrite Hne. cbn [bind].
    unfold _filter_by_preferences, price_range_of. rewrite Hrange. cbv zeta.
    unfold by_sport_types, by_districts, by_price_range, by_facilities.
    cbn [given for_each].
    set (fd1 := match preferred_sports prefs with
                | [] => df
                | _ :: _ => if has_column df "sport_type"
                            then filter_rows (fun v => str_in (sport_type v)
                                                         (preferred_sports prefs)) df
                            else df
                end).
    assert (E1 : (if nonempty (preferred_sports prefs) && has_column df "sport_type"
                  then filter_rows (fun v => str_in (sport_type v)
                                               (preferred_sports prefs)) df
                  else df) = fd1).
    { unfold fd1. destruct (preferred_sports prefs); reflexivity. }
    rewrite E1.
    set (fd2 := match preferred_districts prefs with
                | [] => fd1
                | _ :: _ => if has_column fd1 "district"
                            then filter_rows (fun v => str_in (district v)
                                                         (preferred_districts prefs)) fd1
                            else fd1
                end).
    assert (E2 : (if nonempty (preferred_districts prefs) && has_column fd1 "district"
                  then filter_rows (fun v => str_in (district v)
                                               (preferred_districts prefs)) fd1
                  else fd1) = fd2).
    { unfold fd2. destruct (preferred_districts prefs); reflexivity. }
    rewrite E2.
    assert (Hsub : forall v, In v (rows fd2) -> In v (rows df)).
    { intros v Hv. unfold fd2, fd1, filter_rows in Hv.
      destruct (preferred_districts prefs), (preferred_sports prefs);
        repeat match type of Hv with
               | context [if ?b then _ else _] => destruct b
               end;
        cbn [rows] in Hv; repeat (apply filter_In in Hv; destruct Hv as [Hv _]);
        exact Hv. }
    assert (E3 : (if has_column fd2 "price_per_hour"
                  then filter_rows (in_price_range min_price max_price) fd2
                  else fd2)
                 = (if has_column fd2 "price_per_hour"
                    then filter_rows (price_fits min_price max_price) fd2
                    else fd2)).
    { destruct (has_column fd2 "price_per_hour"); [|reflexivity].
      unfold filter_rows. f_equal. apply filter_ext_in. intros v Hv.
      rewrite Forall_forall in Hprice. specialize (Hprice v (Hsub v Hv)).
      unfold in_price_range, price_fits.
      now destruct (price_per_hour v). }
    rewrite E3.
    match goal with
    | |- context [if ?b then Ok ?x else Ok ?x] =>
        replace (if b then Ok x else Ok x) with (Ok x) by now destruct b
    end.
    cbn [bind]. unfold by_min_rating.
    replace (Qltb 0 0) with false by reflexivity. reflexivity.
Qed.

End PreferenceFilter.

Close Scope Q_scope.

(* ------------------------------------------------------------------ *)
(** ** Recommendation engine: the collaborative score *)

Open Scope Q_scope.

Section CollaborativeBounds.

Variable venues_data : frame venue.
Variable v : venue.

Lemma similar_user_score_rated (r : Q) (user_pref : user_preferences) :
  has_column venues_data "rating" = true -> rating v = Some r -> 0 < r ->
  exists score,
    similar_user_score venues_data v user_pref = Some score
    /\ r * (5 # 10) <= score <= r * (5 # 10) + 5.
Proof.
  intros Hc Hr Hpos. unfold similar_user_score. cbv zeta. rewrite Hc, Hr.
  assert (E : Qeq_bool r 0 = false).
  { destruct (Qeq_bool r 0) eqn:E; [|reflexivity].
    apply Qeq_bool_iff in E. lra. }
  rewrite E. eexists. split; [reflexivity|].
  destruct (has_column venues_data "sport_type" && _),
    (has_column venues_data "district" && _); lra.
Qed.

Lemma collaborative_fold_rated (r : Q) (users : list user_preferences) :
  has_column venues_data "rating" = true -> rating v = Some r -> 0 < r ->
  forall st : Q * nat,
    inject_Z (Z.of_nat (snd st)) * (r * (5 # 10)) <= fst st
      <= inject_Z (Z.of_nat (snd st)) * (r * (5 # 10) + 5) ->
    let st' := fold_left (collaborative_step venues_data v) users st in
    snd st' = (snd st + List.length users)%nat
    /\ inject_Z (Z.of_nat (snd st')) * (r * (5 # 10)) <= fst st'
       <= inject_Z (Z.of_nat (snd st')) * (r * (5 # 10) + 5).
Proof.
  intros Hc Hr Hpos. induction users as [|u users IH]; intros st Hst; cbn [fold_left].
  - cbv zeta. cbn [List.length]. split; [lia | exact Hst].
  - cbv zeta.
    destruct (similar_user_score_rated u Hc Hr Hpos) as (score & Es & Hs).
    assert (Estep : collaborative_step venues_data v st u
                    = (fst st + score, S (snd st))).
    { unfold collaborative_step. rewrite Es.
      assert (E : Qltb 0 score = true) by (apply Qltb_true; lra).
      now rewrite E. }
    rewrite Estep.
    destruct (IH (fst st + score, S (snd st))) as [H1 H2].
    { cbn [fst snd]. rewrite Nat2Z.inj_succ. unfold Z.succ.
      rewrite inject_Z_plus. change (inject_Z 1) with 1. split; lra. }
    cbn [snd] in H1. split; [cbn [List.length]; lia | exact H2].
Qed.

(** The collaborative score of a venue whose rating is missing (NaN) is the
    default 5.0 whoever the similar users are, as it is when there is no
    similar user; for a venue with a positive rating [r] and at least one
    similar user it is [r / 2] plus the mean of what the users add for the
    sport (3) and the district (2), so it lies between [r / 2] and
    [r / 2 + 5]. *)
Theorem collaborative_score_bounds (users : list user_preferences) :
  has_column venues_data "rating" = true ->
  _calculate_collaborative_score venues_data v [] = 5
  /\ match rating v with
     | None => _calculate_collaborative_score venues_data v users = 5
     | Some r =>
         0 < r -> users <> [] ->
         r * (5 # 10) <= _calculate_collaborative_score venues_data v users
                      <= r * (5 # 10) + 5
     end.
Proof.
  intros Hc. split; [reflexivity|].
  destruct (rating v) as [r|] eqn:Hr.
  - intros Hpos Hne. unfold _calculate_collaborative_score.
    destruct (@collaborative_fold_rated r users Hc Hr Hpos (0, O)) as [H1 H2].
    { cbn [fst snd]. change (inject_Z (Z.of_nat 0)) with 0. split; lra. }
    cbv zeta in H1, H2.
    destruct (fold_left (collaborative_step venues_data v) users (0, O))
      as [total_score matching_users].
    cbn [fst snd] in *.
    destruct matching_users as [|m];
      [destruct users; [now elim Hne | cbn in H1; lia]|].
    assert (Hn : 0 < inject_Z (Z.of_nat (S m))).
    { change 0 with (inject_Z 0). rewrite <- Zlt_Qlt. lia. }
    split.
    + apply Qle_shift_div_l; [exact Hn | lra].
    + apply Qle_shift_div_r; [exact Hn | lra].
  - unfold _calculate_collaborative_score.
    assert (E : forall st, fold_left (collaborative_step venues_data v) users st = st).
    { induction users as [|u users IH]; intros st; cbn [fold_left]; [reflexivity|].
      unfold collaborative_step at 2. unfold similar_user_score. cbv zeta.
      rewrite Hc, Hr. apply IH. }
    now rewrite E.
Qed.

End CollaborativeBounds.

(** The theorem at the court of the sample table, rated 4.5, and one similar
    user with the scenario's preferences. *)
Lemma collaborative_score_bounds_witness :
  (45 # 10) * (5 # 10)
  <= _calculate_collaborative_score sample_table court [scenario_prefs]
  <= (45 # 10) * (5 # 10) + 5.
Proof.
  apply (proj2 (@collaborative_score_bounds sample_table court [scenario_prefs]
                  eq_refl)); [reflexivity | discriminate].
Defined.

Close Scope Q_scope.

(* ------------------------------------------------------------------ *)
(** ** Recommendation engine: the feedback counters *)

Lemma has_feedback_of (venue_id : Z) (fb : feedback_data) :
  has_feedback venue_id fb = true <-> feedback_of venue_id fb <> None.
Proof.
  unfold has_feedback, feedback_of.
  induction fb as [|kv fb IH]; cbn [existsb find].
  - split; [discriminate | intros H; now elim H].
  - destruct (Z.eqb (fst kv) venue_id); cbn [orb]; [|exact IH].
    split; [discriminate | reflexivity].
Qed.

Lemma feedback_of_app_new (venue_id key : Z) (fb : feedback_data) :
  feedback_of venue_id (fb ++ [(key, (O, O))])%list
  = match feedback_of venue_id fb with
    | Some c => Some c
    | None => if Z.eqb key venue_id then Some (O, O) else None
    end.
Proof.
  unfold feedback_of. induction fb as [|kv fb IH]; cbn [app find fst snd].
  - now destruct (Z.eqb key venue_id).
  - destruct (Z.eqb (fst kv) venue_id); [reflexivity | exact IH].
Qed.

Lemma feedback_of_count (liked : bool) (venue_id key : Z) (fb : feedback_data) :
  feedback_of venue_id (count_feedback liked key fb)
  = match feedback_of venue_id fb with
    | Some (l, d) =>
        if Z.eqb venue_id key
        then Some (if liked then (S l, d) else (l, S d))
        else Some (l, d)
    | None => None
    end.
Proof.
  unfold feedback_of, count_feedback.
  induction fb as [|[k [l d]] fb IH]; cbn [map find fst snd]; [reflexivity|].
  destruct (Z.eqb k key) eqn:Ek; cbn [fst snd].
  - apply Z.eqb_eq in Ek. subst k.
    destruct (Z.eqb key venue_id) eqn:Ev; [|exact IH].
    apply Z.eqb_eq in Ev. subst key. rewrite Z.eqb_refl. now destruct liked.
  - destruct (Z.eqb k venue_id) eqn:Ev; [|exact IH].
    apply Z.eqb_eq in Ev. subst k. rewrite Ek. reflexivity.
Qed.

Lemma count_feedback_keys (liked : bool) (key : Z) (fb : feedback_data) :
  map fst (count_feedback liked key fb) = map fst fb.
Proof.
  unfold count_feedback. rewrite map_map. apply map_ext.
  intros kv. now destruct (Z.eqb (fst kv) key).
Qed.

Lemma record_feedback_keys (fb : feedback_data) (key : Z) (kind : string) :
  map fst (record_feedback fb key kind)
  = if has_feedback key fb then map fst fb else (map fst fb ++ [key])%list.
Proof.
  unfold record_feedback. cbv zeta.
  assert (E : map fst (if has_feedback key fb then fb
                       else (fb ++ [(key, (O, O))])%list)
              = if has_feedback key fb then map fst fb
                else (map fst fb ++ [key])%list).
  { destruct (has_feedback key fb); [reflexivity | now rewrite map_app]. }
  destruct (String.eqb kind "like"); [now rewrite count_feedback_keys|].
  destruct (String.eqb kind "dislike"); [now rewrite count_feedback_keys|].
  exact E.
Qed.

Lemma has_feedback_keys (key : Z) (fb : feedback_data) :
  has_feedback key fb = true <-> In key (map fst fb).
Proof.
  unfold has_feedback. rewrite existsb_exists, in_map_iff. split.
  - intros (kv & Hkv & E). apply Z.eqb_eq in E. now exists kv.
  - intros (kv & E & Hkv). exists kv. split; [exact Hkv | now apply Z.eqb_eq].
Qed.

Lemma record_feedback_of (fb : feedback_data) (venue_id key : Z) (kind : string) :
  feedback_of venue_id (record_feedback fb key kind)
  = if Z.eqb venue_id key
    then (let (l, d) := match feedback_of venue_id fb with
                        | Some c => c
                        | None => (O, O)
                        end in
          Some (if String.eqb kind "like" then S l else l,
                if String.eqb kind "dislike" && negb (String.eqb kind "like")
                then S d else d))
    else feedback_of venue_id fb.
Proof.
  unfold record_feedback. cbv zeta.
  set (fb' := if has_feedback key fb then fb else (fb ++ [(key, (O, O))])%list).
  assert (E : feedback_of venue_id fb'
              = if Z.eqb venue_id key
                then Some match feedback_of venue_id fb with
                          | Some c => c
                          | None => (O, O)
                          end
                else feedback_of venue_id fb).
  { unfold fb'. destruct (Z.eqb venue_id key) eqn:Ev.
    - apply Z.eqb_eq in Ev. subst key.
      destruct (has_feedback venue_id fb) eqn:Eh.
      + apply has_feedback_of in Eh. now destruct (feedback_of venue_id fb).
      + rewrite feedback_of_app_new, Z.eqb_refl.
        now destruct (feedback_of venue_id fb).
    - destruct (has_feedback key fb); [reflexivity|].
      rewrite feedback_of_app_new. rewrite Z.eqb_sym, Ev.
      now destruct (feedback_of venue_id fb). }
  destruct (String.eqb kind "like") eqn:El; cbn [andb negb].
  - rewrite feedback_of_count, E.
    destruct (Z.eqb venue_id key); [|now destruct (feedback_of venue_id fb) as [[l d]|]].
    destruct (match feedback_of venue_id fb with Some c => c | None => (O, O) end)
      as [l d].
    apply String.eqb_eq in El. subst kind. reflexivity.
  - destruct (String.eqb kind "dislike") eqn:Ed; cbn [andb].
    + rewrite feedback_of_count, E.
      destruct (Z.eqb venue_id key);
        [|now destruct (feedback_of venue_id fb) as [[l d]|]].
      now destruct (match feedback_of venue_id fb with Some c => c | None => (O, O) end).
    + rewrite E. destruct (Z.eqb venue_id key); [|reflexivity].
      now destruct (match feedback_of venue_id fb with Some c => c | None => (O, O) end).
Qed.

Lemma record_all_of (events : list (Z * string)) (venue_id : Z) :
  forall fb : feedback_data,
    NoDup (map fst fb) ->
    NoDup (map fst (record_all fb events))
    /\ feedback_of venue_id (record_all fb events)
       = match feedback_of venue_id fb with
         | Some (l, d) =>
             Some ((l + count_events "like" venue_id events)%nat,
                   (d + count_events "dislike" venue_id events)%nat)
         | None =>
             if existsb (fun e => Z.eqb (fst e) venue_id) events
             then Some (count_events "like" venue_id events,
                        count_events "dislike" venue_id events)
             else None
         end.
Proof.
  unfold record_all, count_events.
  induction events as [|[key kind] events IH]; intros fb Hnd; cbn [fold_left].
  - split; [exact Hnd|]. cbn [filter List.length existsb].
    destruct (feedback_of venue_id fb) as [[l d]|]; [|reflexivity].
    now rewrite !Nat.add_0_r.
  - cbn [fst snd].
    assert (Hnd' : NoDup (map fst (record_feedback fb key kind))).
    { rewrite record_feedback_keys. destruct (has_feedback key fb) eqn:Eh;
        [exact Hnd|].
      apply NoDup_app; [exact Hnd | repeat constructor; intros [] |].
      intros k Hk [<- | []].
      apply has_feedback_keys in Hk. congruence. }
    destruct (IH _ Hnd') as [IH1 IH2]. split; [exact IH1|].
    rewrite IH2, record_feedback_of. cbn [filter existsb fst snd].
    rewrite (Z.eqb_sym key venue_id).
    destruct (Z.eqb venue_id key) eqn:Ev; cbn [andb orb].
    + assert (El : String.eqb kind "like" = true -> String.eqb kind "dislike" = false).
      { intros H. apply String.eqb_eq in H. now subst kind. }
      destruct (feedback_of venue_id fb) as [[l d]|];
        destruct (String.eqb kind "like") eqn:E1;
        destruct (String.eqb kind "dislike") eqn:E2;
        try (specialize (El eq_refl); discriminate);
        cbn [andb negb List.length]; f_equal; f_equal; lia.
    + reflexivity.
Qed.

(** After any list of feedback events recorded from the empty store, the
    store holds each venue at most once; a venue that no event names has no
    entry, and the entry of any other venue counts exactly the events named
    [like] and the events named [dislike] recorded for it (an event of
    another name makes the entry and counts for nothing). *)
Theorem feedback_counts_events (events : list (Z * string)) (venue_id : Z) :
  NoDup (map fst (record_all [] events))
  /\ feedback_of venue_id (record_all [] events)
     = if existsb (fun e => Z.eqb (fst e) venue_id) events
       then Some (count_events "like" venue_id events,
                  count_events "dislike" venue_id events)
       else None.
Proof.
  exact (@record_all_of events venue_id [] (NoDup_nil Z)).
Qed.

(* ------------------------------------------------------------------ *)
(** ** Recommendation engine: the profile update *)

Lemma in_keywords_count_word (word w : string) (keywords : list (string * nat)) :
  in_keywords word (count_word keywords w)
  = in_keywords word keywords || String.eqb w word.
Proof.
  unfold in_keywords.
  induction keywords as [|[k n] keywords IH]; cbn [count_word existsb fst].
  - now rewrite orb_false_r.
  - destruct (String.eqb k w) eqn:E; cbn [existsb fst].
    + apply String.eqb_eq in E. subst k.
      destruct (String.eqb w word); [reflexivity | now rewrite orb_false_r].
    + rewrite IH. now rewrite orb_assoc.
Qed.

Lemma in_keywords_count_words (word : string) (ws : list string) :
  forall keywords,
    in_keywords word (fold_left count_word ws keywords)
    = in_keywords word keywords || existsb (fun w => String.eqb w word) ws.
Proof.
  induction ws as [|w ws IH]; intros keywords; cbn [fold_left existsb].
  - now rewrite orb_false_r.
  - rewrite IH, in_keywords_count_word. now rewrite orb_assoc.
Qed.

Open Scope Q_scope.

Section ProfileUpdate.

Variable str_lower : string -> string.
Variable str_split : string -> list string.

Lemma in_keywords_of (word : string) (history : list string) :
  in_keywords word (keywords_of str_lower str_split history) = true
  <-> exists search, In search history /\ In word (str_split (str_lower search)).
Proof.
  unfold keywords_of.
  assert (H : forall keywords,
             in_keywords word
               (fold_left (fun kw search =>
                             fold_left count_word (str_split (str_lower search)) kw)
                          history keywords)
             = in_keywords word keywords
               || existsb (fun search =>
                             existsb (fun w => String.eqb w word)
                                     (str_split (str_lower search)))
                          history).
  { induction history as [|search history IH]; intros keywords;
      cbn [fold_left existsb].
    - now rewrite orb_false_r.
    - rewrite IH, in_keywords_count_words. now rewrite orb_assoc. }
  rewrite H. cbn [in_keywords existsb orb]. rewrite existsb_exists.
  split.
  - intros (search & Hs & Hw). exists search. split; [exact Hs|].
    apply existsb_exists in Hw. destruct Hw as (w & Hw & E).
    apply String.eqb_eq in E. now subst w.
  - intros (search & Hs & Hw). exists search. split; [exact Hs|].
    apply existsb_exists. exists word. split; [exact Hw | apply String.eqb_refl].
Qed.

Lemma asks_low_price_test (prefs : user_preferences) :
  in_keywords "便宜" (keywords_of str_lower str_split (search_history prefs))
  || in_keywords "低價" (keywords_of str_lower str_split (search_history prefs)) = true
  <-> asks_low_price str_lower str_split prefs.
Proof.
  unfold asks_low_price, searched_for.
  now rewrite orb_true_iff, !in_keywords_of.
Qed.

Lemma asks_high_rating_test (prefs : user_preferences) :
  in_keywords "高評分" (keywords_of str_lower str_split (search_history prefs))
  || in_keywords "好評" (keywords_of str_lower str_split (search_history prefs)) = true
  <-> asks_high_rating str_lower str_split prefs.
Proof.
  unfold asks_high_rating, searched_for.
  now rewrite orb_true_iff, !in_keywords_of.
Qed.

Lemma update_user_profile_cases (w : W.t) (prefs : user_preferences) :
  update_user_profile str_lower str_split w prefs
  = (let w1 := if in_keywords "便宜" (keywords_of str_lower str_split (search_history prefs))
                  || in_keywords "低價" (keywords_of str_lower str_split (search_history prefs))
               then add_price_weight w (5 # 100) else w in
     if in_keywords "高評分" (keywords_of str_lower str_split (search_history prefs))
        || in_keywords "好評" (keywords_of str_lower str_split (search_history prefs))
     then add_rating_weight w1 (5 # 100) else w1).
Proof.
  unfold update_user_profile.
  destruct (search_history prefs) as [|s l] eqn:E; [reflexivity|].
  reflexivity.
Qed.

(** [update_user_profile] changes no weight but the price weight and the
    rating weight, and it only adds to them: 0.05 to the price weight when a
    search of the history has the word 便宜 or 低價, 0.05 to the rating
    weight when one has 高評分 or 好評, nothing otherwise (an empty history
    changes nothing).  So it raises the score of a row by ten times the
    added weights times the row's price match and rating weight, and it is
    not idempotent: [n] updates with a history that asks for low prices add
    [n] times 0.05 to the price weight. *)
Theorem profile_update_grows_weights (w : W.t) (prefs : user_preferences) :
  (search_history prefs = [] -> update_user_profile str_lower str_split w prefs = w)
  /\ (asks_low_price str_lower str_split prefs ->
      W.price_weight (update_user_profile str_lower str_split w prefs) = W.price_weight w + (5 # 100))
  /\ (~ asks_low_price str_lower str_split prefs ->
      W.price_weight (update_user_profile str_lower str_split w prefs) = W.price_weight w)
  /\ (asks_high_rating str_lower str_split prefs ->
      W.rating_weight (update_user_profile str_lower str_split w prefs) = W.rating_weight w + (5 # 100))
  /\ (~ asks_high_rating str_lower str_split prefs ->
      W.rating_weight (update_user_profile str_lower str_split w prefs) = W.rating_weight w)
  /\ (W.preference_weight (update_user_profile str_lower str_split w prefs) = W.preference_weight w
      /\ W.distance_weight (update_user_profile str_lower str_split w prefs) = W.distance_weight w
      /\ W.facility_weight (update_user_profile str_lower str_split w prefs) = W.facility_weight w
      /\ W.explore_vs_exploit (update_user_profile str_lower str_split w prefs) = W.explore_vs_exploit w
      /\ W.popularity_bias (update_user_profile str_lower str_split w prefs) = W.popularity_bias w
      /\ W.novelty_preference (update_user_profile str_lower str_split w prefs) = W.novelty_preference w
      /\ W.serendipity_factor (update_user_profile str_lower str_split w prefs) = W.serendipity_factor w)
  /\ (forall preference rating_w price distance facility,
         composite (update_user_profile str_lower str_split w prefs)
                   preference rating_w price distance facility
         == composite w preference rating_w price distance facility
            + (W.price_weight (update_user_profile str_lower str_split w prefs) - W.price_weight w)
              * price * 10
            + (W.rating_weight (update_user_profile str_lower str_split w prefs) - W.rating_weight w)
              * rating_w * 10)
  /\ (asks_low_price str_lower str_split prefs ->
      forall n,
        W.price_weight (update_user_profile_times str_lower str_split n prefs w)
        == W.price_weight w + inject_Z (Z.of_nat n) * (5 # 100)).
Proof.
  assert (Hprice : forall w0,
             (asks_low_price str_lower str_split prefs ->
              W.price_weight (update_user_profile str_lower str_split w0 prefs)
              = W.price_weight w0 + (5 # 100))
             /\ (~ asks_low_price str_lower str_split prefs ->
                 W.price_weight (update_user_profile str_lower str_split w0 prefs) = W.price_weight w0)).
  { intros w0. rewrite update_user_profile_cases. cbv zeta.
    pose proof (asks_low_price_test prefs) as Hc.
    destruct (in_keywords "便宜" _ || in_keywords "低價" _);
      destruct (in_keywords "高評分" _ || in_keywords "好評" _);
      cbn [add_price_weight add_rating_weight W.price_weight];
      split; intros H; try reflexivity;
        first [ now elim H; apply Hc
              | apply Hc in H; discriminate ]. }
  split; [|split; [|split; [|split; [|split; [|split; [|split]]]]]].
  - intros E. unfold update_user_profile. now rewrite E.
  - exact (proj1 (Hprice w)).
  - exact (proj2 (Hprice w)).
  - rewrite update_user_profile_cases. cbv zeta.
    pose proof (asks_high_rating_test prefs) as Hc.
    destruct (in_keywords "便宜" _ || in_keywords "低價" _);
      destruct (in_keywords "高評分" _ || in_keywords "好評" _);
      cbn [add_price_weight add_rating_weight W.rating_weight];
      intros H; try reflexivity; apply Hc in H; discriminate.
  - rewrite update_user_profile_cases. cbv zeta.
    pose proof (asks_high_rating_test prefs) as Hc.
    destruct (in_keywords "便宜" _ || in_keywords "低價" _);
      destruct (in_keywords "高評分" _ || in_keywords "好評" _);
      cbn [add_price_weight add_rating_weight W.rating_weight];
      intros H; try reflexivity; now elim H; apply Hc.
  - rewrite update_user_profile_cases. cbv zeta.
    destruct (in_keywords "便宜" _ || in_keywords "低價" _);
      destruct (in_keywords "高評分" _ || in_keywords "好評" _);
      now repeat split.
  - intros preference rating_w price distance facility.
    rewrite update_user_profile_cases. cbv zeta. unfold composite.
    destruct (in_keywords "便宜" _ || in_keywords "低價" _);
      destruct (in_keywords "高評分" _ || in_keywords "好評" _);
      cbn [add_price_weight add_rating_weight W.preference_weight W.rating_weight
           W.price_weight W.distance_weight W.facility_weight];
      ring.
  - intros Hcheap n. unfold update_user_profile_times.
    induction n as [|n IH].
    + cbn [Nat.iter nat_rect]. change (inject_Z (Z.of_nat 0)) with 0. ring.
    + change (Nat.iter (S n) (fun w0 => update_user_profile str_lower str_split w0 prefs) w)
        with (update_user_profile str_lower str_split
                (Nat.iter n (fun w0 => update_user_profile str_lower str_split w0 prefs) w)
                prefs).
      rewrite (proj1 (Hprice _) Hcheap), IH.
      rewrite Nat2Z.inj_succ. unfold Z.succ. rewrite inject_Z_plus.
      change (inject_Z 1) with 1. ring.
Qed.

End ProfileUpdate.

Close Scope Q_scope.

(* ------------------------------------------------------------------ *)
(** ** Venue store: the search as a filter *)

Section SearchAsFilter.

Variable re_compile : bool -> string -> option (string -> bool).
Variable str_lower : string -> string.
Variable str_strip : string -> string.

Lemma search_venues_not_empty (venues_data : option (frame venue)) (query : string)
      (fd : frame venue) :
  search_venues re_compile str_lower str_strip venues_data query = Ok (Some fd) ->
  frame_empty fd = false.
Proof.
  unfold search_venues. destruct venues_data as [df|]; [|discriminate].
  destruct (frame_empty df || String.eqb query ""); [discriminate|].
  cbv zeta. destruct (for_each _ search_columns _) as [mask|e]; cbn [bind];
    [|discriminate].
  destruct (frame_empty (mk_frame (columns df) (select mask (rows df)))) eqn:E;
    [discriminate|].
  now intros [= <-].
Qed.

(** [get_filtered_venues] given a search query that is not empty and nothing
    else is [search_venues]: the same table, the same [None], the same
    exception.  On the empty query the two differ on every table that is
    not empty: the search answers [None], the filter the whole table. *)
Theorem search_is_the_query_filter (venues_data : option (frame venue))
        (query : string) :
  (query <> "" ->
   get_filtered_venues re_compile str_lower str_strip venues_data None None None None 0%Q (Some query)
   = search_venues re_compile str_lower str_strip venues_data query)
  /\ search_venues re_compile str_lower str_strip venues_data "" = Ok None
  /\ (forall df, venues_data = Some df -> frame_empty df = false ->
                 get_filtered_venues re_compile str_lower str_strip venues_data None None None None
                                     0%Q (Some "")
                 = Ok (Some df)).
Proof.
  assert (Htail : forall fd,
             frame_empty fd = false ->
             (filtered_data <-
                by_facilities re_compile None
                  (by_price_range None (by_districts None (by_sport_types None fd))) ;;
              Ok (if frame_empty (by_min_rating 0%Q filtered_data) then None
                  else Some (by_min_rating 0%Q filtered_data)))
             = Ok (Some fd)).
  { intros fd Hfd. unfold by_sport_types, by_districts, by_price_range, by_facilities.
    cbn [given for_each].
    match goal with
    | |- context [if ?b then Ok ?x else Ok ?x] =>
        replace (if b then Ok x else Ok x) with (Ok x) by now destruct b
    end.
    cbn [bind]. unfold by_min_rating.
    replace (Qltb 0 0) with false by reflexivity. cbn [andb]. now rewrite Hfd. }
  split; [|split].
  - intros Hq. unfold get_filtered_venues.
    destruct venues_data as [df|]; [|reflexivity].
    destruct (frame_empty df) eqn:Hne.
    + unfold search_venues. now rewrite Hne.
    + apply String.eqb_neq in Hq. rewrite Hq.
      destruct (search_venues re_compile str_lower str_strip (Some df) query) as [[fd|]|e] eqn:E;
        cbn [bind]; [|reflexivity|reflexivity].
      cbv zeta. apply Htail. exact (search_venues_not_empty _ _ E).
  - unfold search_venues. destruct venues_data as [df|]; [|reflexivity].
    cbn [String.eqb]. now rewrite orb_true_r.
  - intros df -> Hne. unfold get_filtered_venues. rewrite Hne.
    cbn [String.eqb bind]. cbv zeta. now apply Htail.
Qed.

End SearchAsFilter.

(* ------------------------------------------------------------------ *)
(** ** Geo helper: the radius at its ends *)

Open Scope R_scope.

Lemma calculate_distance_bounds (lat1 lon1 lat2 lon2 : R) :
  0 <= calculate_distance lat1 lon1 lat2 lon2 <= 6371 * PI.
Proof.
  rewrite calculate_distance_angle.
  pose proof (central_angle_bounds (radians lat1) (radians lon1)
                                   (radians lat2) (radians lon2)).
  lra.
Qed.

(** The haversine distance is never negative and never more than half the
    circumference, 6371 * pi km.  So, on a table with its coordinate
    columns, [get_venues_in_radius] with a negative radius returns the empty
    table, and with a radius of 6371 * pi km or more it returns every row
    that has both coordinates, in the order of the table. *)
Theorem radius_at_its_ends (df : frame venue) (lat lon radius_km : R) :
  has_column df "latitude" = true ->
  has_column df "longitude" = true ->
  (forall lat1 lon1 lat2 lon2,
      0 <= calculate_distance lat1 lon1 lat2 lon2 <= 6371 * PI)
  /\ (radius_km < 0 ->
      get_venues_in_radius (Some df) lat lon radius_km = empty_frame)
  /\ (6371 * PI <= radius_km ->
      map fst (rows (get_venues_in_radius (Some df) lat lon radius_km))
      = filter (fun v => match located v with Some _ => true | None => false end)
               (rows df)).
Proof.
  intros Hlat Hlon. split; [exact calculate_distance_bounds|]. split.
  - intros Hneg.
    assert (E : flat_map
                  (fun v =>
                     match located v with
                     | Some (vlat, vlon) =>
                         if Rleb (calculate_distance lat lon vlat vlon) radius_km
                         then [(v, Some (calculate_distance lat lon vlat vlon))]
                         else []
                     | None => []
                     end)
                  (rows df) = []).
    { induction (rows df) as [|v l IH]; cbn [flat_map]; [reflexivity|].
      rewrite IH, app_nil_r.
      destruct (located v) as [[vlat vlon]|]; [|reflexivity].
      destruct (Rleb _ radius_km) eqn:Eb; [|reflexivity].
      apply Rleb_true in Eb.
      pose proof (calculate_distance_bounds lat lon vlat vlon). lra. }
    unfold get_venues_in_radius. rewrite Hlat, Hlon. cbn [andb negb].
    destruct (frame_empty df); [reflexivity|]. cbv zeta.
    now rewrite E.
  - intros Hbig. rewrite (venues_in_radius_rows df lat lon radius_km Hlat Hlon).
    induction (rows df) as [|v l IH]; cbn [flat_map filter map]; [reflexivity|].
    rewrite map_app, IH.
    destruct (located v) as [[vlat vlon]|]; [|reflexivity].
    assert (Eb : Rleb (calculate_distance lat lon vlat vlon) radius_km = true).
    { apply Rleb_true.
      pose proof (calculate_distance_bounds lat lon vlat vlon). lra. }
    rewrite Eb. reflexivity.
Qed.

(** The theorem at the sample table and a radius of -1 km. *)
Lemma radius_at_its_ends_witness :
  get_venues_in_radius (Some sample_table) 25 (1215 / 10) (- (1)) = empty_frame.
Proof.
  apply (proj1 (proj2 (@radius_at_its_ends sample_table 25 (1215 / 10) (- (1))
                         eq_refl eq_refl))).
  lra.
Defined.

Close Scope R_scope.
